(** * hs_apply: applicant lifecycle, review assignment and review recording

    A shallow embedding of the applicant service
    (services/applications/applicantService.ts) and of the application
    controller (controllers/applicationController.ts), together with the
    in-memory meaning of the collaborators they talk to: the TypeORM
    repository, the cloud storage client, the logger and class-validator.

    Asynchronous methods become computations in a monad that threads the
    state of the outside world and either resolves or rejects, the way a
    promise does.  Every call that leaves the service is written to a
    journal, so that statements about ordering ("upload before persist")
    and about calls that never happen can be made. *)

From Stdlib Require Import ZArith NArith List String Ascii Bool Lia.
From Stdlib Require Import Sorting.Sorted Sorting.Permutation.
From Stdlib Require Import DecimalString.
Import ListNotations.

Local Open Scope string_scope.
Local Open Scope list_scope.

(* ================================================================== *)
(** * JavaScript values *)
(* ================================================================== *)

Module Js.

(** An IEEE binary64 number: not-a-number, an infinity, or the finite
    value [(-1)^negative * mantissa * 2^exponent]. *)
Inductive number :=
| NaN
| Infinity (negative : bool)
| Finite (negative : bool) (mantissa : N) (exponent : Z).

(** What a request body parsed by express can hold. *)
Inductive value :=
| VUndefined
| VNull
| VBoolean (b : bool)
| VNumber (x : number)
| VString (s : string)
| VObject (ref : nat).

(** [isNaN(x)] on a number. *)
Definition isNaN (x : number) : bool :=
  match x with NaN => true | _ => false end.

(** A number that is neither NaN nor an infinity. *)
Definition finite (x : number) : bool :=
  match x with Finite _ _ _ => true | _ => false end.

Definition isZero (x : number) : bool :=
  match x with Finite _ m _ => N.eqb m 0 | _ => false end.

(** The number [n]. *)
Definition ofNat (n : nat) : number := Finite false (N.of_nat n) 0.

(** The integer a number is, when it is one. *)
Definition wholePart (x : number) : option Z :=
  match x with
  | Finite negative m e =>
      let sign z := if negative then (- z)%Z else z in
      if (0 <=? e)%Z
      then Some (sign (Z.of_N m * 2 ^ e)%Z)
      else if (Z.of_N m mod 2 ^ (- e) =? 0)%Z
           then Some (sign (Z.of_N m / 2 ^ (- e))%Z)
           else None
  | _ => None
  end.

(** A count: a whole number from 1 up to 2^53 - 1.  Such a number
    prints as its decimal digits, and a LIMIT clause holding them asks
    for that many rows. *)
Definition safeCount (x : number) : option nat :=
  match wholePart x with
  | Some z => if ((0 <? z) && (z <? 2 ^ 53))%Z then Some (Z.to_nat z)
              else None
  | None => None
  end.

(** ToBoolean: [undefined], [null], [false], [NaN], [+0], [-0] and the
    empty string are falsy, everything else is truthy. *)
Definition truthy (v : value) : bool :=
  match v with
  | VUndefined | VNull => false
  | VBoolean b => b
  | VNumber x => negb (isNaN x || isZero x)
  | VString s => negb (String.eqb s EmptyString)
  | VObject _ => true
  end.

(** [a || b]: the left operand when it is truthy, else the right one. *)
Definition or (a b : value) : value := if truthy a then a else b.

(** A property of type [string | undefined] read as a value. *)
Definition ofOptString (o : option string) : value :=
  match o with Some s => VString s | None => VUndefined end.

(** The built-in conversions the controller calls.  [parseFloat(v)]
    reads the longest numeric prefix of [ToString(v)]; [Number(v)]
    converts the whole of [v].  Their string-to-double algorithms
    belong to the language, so they are taken as given. *)
Class Runtime := {
  parseFloat : value -> number;
  Number : value -> number
}.

(** The global [isFinite(v)]: converts with [Number] first. *)
Definition isFinite `{Runtime} (v : value) : bool := finite (Number v).

End Js.

(* ================================================================== *)
(** * Data model *)
(* ================================================================== *)

(** An error object: the name of its class and its message. *)
Record Error := mkError { name : string; message : string }.

(** [new Error(message)]. *)
Definition newError (msg : string) : Error := mkError "Error" msg.

(** A class-validator report for one property. *)
Record ValidationError := mkValidationError {
  property : string;
  constraints : list string
}.

Definition Buffer := list Byte.byte.

(** Modelled from the spec: services/applications/applicantStatus.ts is
    not part of the sources at hand.  It is a numeric TypeScript enum; the
    spec fixes only the relative order of its members, so the numbers are
    left open and every statement holds for any numbering. *)
Class ApplicantStatusEnum := {
  Applied : Z;
  Invited : Z;
  Confirmed : Z;
  Cancelled : Z;
  Rejected : Z;
  Admitted_ : Z   (* the member Admitted, a word Rocq keeps for itself *)
}.

(** The Applicant entity, with the fields that [submitApplication]
    assigns, the storage key of the CV, and the columns the database
    fills in on insert ([id], [createdAt]).  [createdAt] of an object
    that was never stored is not read anywhere. *)
Record Applicant := mkApplicant {
  id : option string;
  authId : string;
  age : Js.number;
  gender : Js.value;
  nationality : Js.value;
  country : Js.value;
  city : Js.value;
  university : Js.value;
  yearOfStudy : Js.value;
  degree : Js.value;
  workArea : Js.value;
  skills : Js.value;
  hackathonCount : option Js.number;
  whyChooseHacker : Js.value;
  pastProjects : Js.value;
  hardwareRequests : Js.value;
  dietaryRequirements : Js.value;
  tShirtSize : Js.value;
  hearAbout : Js.value;
  cv : option string;
  applicationStatus : Z;
  createdAt : Z
}.

(** [new Applicant()]: every property still undefined. *)
Definition newApplicant : Applicant :=
  mkApplicant None EmptyString Js.NaN
    Js.VUndefined Js.VUndefined Js.VUndefined Js.VUndefined Js.VUndefined
    Js.VUndefined Js.VUndefined Js.VUndefined Js.VUndefined None
    Js.VUndefined Js.VUndefined Js.VUndefined Js.VUndefined Js.VUndefined
    Js.VUndefined None 0%Z 0%Z.

(** [application.applicationStatus = s]. *)
Definition setApplicationStatus (s : Z) (a : Applicant) : Applicant :=
  mkApplicant (id a) (authId a) (age a) (gender a) (nationality a)
    (country a) (city a) (university a) (yearOfStudy a) (degree a)
    (workArea a) (skills a) (hackathonCount a) (whyChooseHacker a)
    (pastProjects a) (hardwareRequests a) (dietaryRequirements a)
    (tShirtSize a) (hearAbout a) (cv a) s (createdAt a).

(** [application.cv = key]. *)
Definition setCv (key : option string) (a : Applicant) : Applicant :=
  mkApplicant (id a) (authId a) (age a) (gender a) (nationality a)
    (country a) (city a) (university a) (yearOfStudy a) (degree a)
    (workArea a) (skills a) (hackathonCount a) (whyChooseHacker a)
    (pastProjects a) (hardwareRequests a) (dietaryRequirements a)
    (tShirtSize a) (hearAbout a) key (applicationStatus a) (createdAt a).

(** The generated columns, as the database writes them on insert. *)
Definition setGenerated (i : string) (t : Z) (a : Applicant) : Applicant :=
  mkApplicant (Some i) (authId a) (age a) (gender a) (nationality a)
    (country a) (city a) (university a) (yearOfStudy a) (degree a)
    (workArea a) (skills a) (hackathonCount a) (whyChooseHacker a)
    (pastProjects a) (hardwareRequests a) (dietaryRequirements a)
    (tShirtSize a) (hearAbout a) (cv a) (applicationStatus a) t.

(** A Review row.  [applicantId] is the foreign key to the applicant; the
    column is nullable, as a many-to-one join column is. *)
Record Review := mkReview {
  reviewId : string;
  applicantId : option string;
  createdByAuthID : string;
  averageScore : Js.number;
  reviewCreatedAt : Z
}.

(** The class-validator decorators sit on models/db/applicant.ts, which is
    not part of the sources at hand; [validate] stands for them.  An empty
    report means the applicant is well formed. *)
Class ApplicantSchema := {
  validate : Applicant -> list ValidationError
}.

(* ================================================================== *)
(** * The outside world *)
(* ================================================================== *)

(** Columns [findOne] is asked to search by. *)
Inductive Column := ColId | ColAuthId.

(** Calls that leave the service. *)
Inductive Call :=
| CloudUpload (key : string) (data : Buffer)
| CloudDelete (key : string)
| RepoFindOne (col : Column) (key : string)
| RepoFindOneOrFail (key : string)
| RepoSave (a : Applicant)
| RepoDelete (key : string)
| RepoGetMany (reviewerID : string) (take : Js.number).

Inductive LogLevel := LevelInfo | LevelError.

(** What a promise rejects with and a [catch] clause receives: an error
    object, or the array of reports [validateOrReject] rejects with. *)
Inductive Exception :=
| ErrorObject (e : Error)
| ValidationErrors (vs : list ValidationError).

(** [(err as Error).message]; an array has no such property, and a
    template literal prints the missing property as [undefined]. *)
Definition messageOf (err : Exception) : string :=
  match err with
  | ErrorObject e => message e
  | ValidationErrors _ => "undefined"
  end.

(** The violation reports a thrown value carries to whoever catches it. *)
Definition reports (err : Exception) : list ValidationError :=
  match err with
  | ErrorObject _ => []
  | ValidationErrors vs => vs
  end.

Record LogEntry := mkLogEntry {
  level : LogLevel;
  payload : Exception;
  note : string
}.

Record World := mkWorld {
  applicants : list Applicant;        (* the applicant table *)
  reviews : list Review;              (* the review table *)
  bucket : list (string * Buffer);    (* object storage, key to blob *)
  logged : list LogEntry;             (* oldest first *)
  journal : list Call;                (* oldest first *)
  nextId : nat;                       (* source of generated ids *)
  clock : Z                           (* current time *)
}.

(** How a query that asks for a number of rows is read: it is refused,
    or it runs with a limit of so many rows, or with none. *)
Inductive LimitReading :=
| Refuses (e : Error)
| ReadsAs (limit : option nat).

(** What the query builder and the database make of a [take] that is
    neither zero nor a count: NaN, a negative number, a fraction, an
    infinity, a whole number of 2^53 or more.  The builder writes such a
    number into the LIMIT clause as it prints, or refuses it, and the
    databases differ on the clause; so this is left open. *)
Class QueryDialect := {
  oddTake : Js.number -> LimitReading
}.

(** The ways the external systems misbehave: for each call, whether it
    goes through or rejects, and with which error. *)
Class Infrastructure := {
  faults : Call -> option Error
}.

(* ================================================================== *)
(** * Promises: state and rejection *)
(* ================================================================== *)

Inductive Outcome (A : Type) :=
| Fulfilled (a : A)
| Thrown (e : Exception).
Arguments Fulfilled {A} a.
Arguments Thrown {A} e.

Definition Promise (A : Type) := World -> Outcome A * World.

Definition ret {A} (a : A) : Promise A := fun w => (Fulfilled a, w).

Definition throw {A} (e : Exception) : Promise A := fun w => (Thrown e, w).

Definition bind {A B} (m : Promise A) (k : A -> Promise B) : Promise B :=
  fun w =>
    match m w with
    | (Fulfilled a, w') => k a w'
    | (Thrown e, w') => (Thrown e, w')
    end.

(** [try { m } catch (err) { handler err }]. *)
Definition tryCatch {A} (m : Promise A) (handler : Exception -> Promise A)
  : Promise A :=
  fun w =>
    match m w with
    | (Fulfilled a, w') => (Fulfilled a, w')
    | (Thrown e, w') => handler e w'
    end.

Declare Scope promise_scope.
Delimit Scope promise_scope with promise.
Notation "x <- m ;; k" := (bind m (fun x => k))
  (at level 61, m at next level, right associativity) : promise_scope.
Notation "m ;; k" := (bind m (fun _ => k))
  (at level 61, right associativity) : promise_scope.
Local Open Scope promise_scope.

Definition isFulfilled {A} (o : Outcome A) : bool :=
  match o with Fulfilled _ => true | Thrown _ => false end.

Definition record (c : Call) (w : World) : World :=
  mkWorld (applicants w) (reviews w) (bucket w) (logged w)
    (journal w ++ [c]) (nextId w) (clock w).

(** One call to an external system: it is journalled, then it either goes
    through or rejects as the infrastructure decides. *)
Definition invoke `{Infrastructure} (c : Call) : Promise unit :=
  fun w =>
    match faults c with
    | Some e => (Thrown (ErrorObject e), record c w)
    | None => (Fulfilled tt, record c w)
    end.

Definition writeLog (entry : LogEntry) : Promise unit :=
  fun w =>
    (Fulfilled tt,
     mkWorld (applicants w) (reviews w) (bucket w) (logged w ++ [entry])
       (journal w) (nextId w) (clock w)).

(** [logger.error(err)], [logger.error(err, note)] and [logger.info(err)]. *)
Definition logger_error (p : Exception) (n : string) : Promise unit :=
  writeLog (mkLogEntry LevelError p n).

Definition logger_info (p : Exception) : Promise unit :=
  writeLog (mkLogEntry LevelInfo p EmptyString).

(** [@Transactional()]: the method runs inside one database transaction,
    which is rolled back when the method rejects.  Only the tables are
    restored; blobs, log lines and the journal are outside the database.
    Opening and closing the transaction are taken to go through. *)
Definition Transactional {A} (m : Promise A) : Promise A :=
  fun w =>
    match m w with
    | (Fulfilled a, w') => (Fulfilled a, w')
    | (Thrown e, w') =>
        (Thrown e,
         mkWorld (applicants w) (reviews w) (bucket w') (logged w')
           (journal w') (nextId w') (clock w'))
    end.

(* ================================================================== *)
(** * SQL: three-valued logic and the clauses the query uses *)
(* ================================================================== *)

Module Sql.

Inductive truth := TRUE | FALSE | UNKNOWN.

Definition not3 (t : truth) : truth :=
  match t with TRUE => FALSE | FALSE => TRUE | UNKNOWN => UNKNOWN end.

Definition and3 (a b : truth) : truth :=
  match a, b with
  | FALSE, _ | _, FALSE => FALSE
  | TRUE, TRUE => TRUE
  | _, _ => UNKNOWN
  end.

Definition ofBool (b : bool) : truth := if b then TRUE else FALSE.

(** A WHERE clause keeps a row only when its condition is TRUE. *)
Definition keeps (t : truth) : bool :=
  match t with TRUE => true | _ => false end.

(** [x IN (l)], where [l] may hold NULLs. *)
Fixpoint in_ (x : string) (l : list (option string)) : truth :=
  match l with
  | [] => FALSE
  | Some y :: l' => if String.eqb x y then TRUE else in_ x l'
  | None :: l' => match in_ x l' with TRUE => TRUE | _ => UNKNOWN end
  end.

Definition notIn (x : string) (l : list (option string)) : truth :=
  not3 (in_ x l).

Definition eqKey (a b : option string) : bool :=
  match a, b with
  | Some x, Some y => String.eqb x y
  | None, None => true
  | _, _ => false
  end.

(** The distinct values of a column, in order of first appearance:
    the groups of a GROUP BY on it. *)
Fixpoint groups (l : list (option string)) : list (option string) :=
  match l with
  | [] => []
  | k :: l' => k :: filter (fun k' => negb (eqKey k k')) (groups l')
  end.

(** [COUNT(column)] over the rows of one group: NULLs are not counted. *)
Definition count (k : option string) (l : list (option string)) : nat :=
  match k with
  | None => 0
  | Some _ => List.length (filter (eqKey k) l)
  end.

Section OrderBy.
Context {A : Type} (key : A -> Z).

Fixpoint insertAsc (a : A) (l : list A) : list A :=
  match l with
  | [] => [a]
  | b :: l' => if (key a <=? key b)%Z then a :: l else b :: insertAsc a l'
  end.

(** [ORDER BY key ASC]; rows with equal keys keep their order. *)
Definition orderByAsc (l : list A) : list A :=
  fold_right insertAsc [] l.
End OrderBy.

End Sql.

(* ================================================================== *)
(** * The collaborators, in memory *)
(* ================================================================== *)

Definition nl : string := String (ascii_of_nat 10) EmptyString.

(** A generated primary key. *)
Definition uuid (n : nat) : string :=
  NilEmpty.string_of_uint (Nat.to_uint n).

Definition hasId (key : string) (a : Applicant) : bool :=
  match id a with Some i => String.eqb i key | None => false end.

Definition matches (col : Column) (key : string) (a : Applicant) : bool :=
  match col with
  | ColId => hasId key a
  | ColAuthId => String.eqb (authId a) key
  end.

Definition setApplicants (rows : list Applicant) (n : nat) (w : World)
  : World :=
  mkWorld rows (reviews w) (bucket w) (logged w) (journal w) n (clock w).

Definition setBucket (b : list (string * Buffer)) (w : World) : World :=
  mkWorld (applicants w) (reviews w) b (logged w) (journal w) (nextId w)
    (clock w).

(** [DeleteResult]: the number of rows the statement removed. *)
Record DeleteResult := mkDeleteResult { affected : nat }.

Module Repository.
Section Repository.
Context `{ApplicantStatusEnum} `{Infrastructure} `{QueryDialect}.

(** [repository.findOne({ [col]: key })]. *)
Definition findOne (col : Column) (key : string)
  : Promise (option Applicant) :=
  invoke (RepoFindOne col key) ;;
  fun w => (Fulfilled (find (matches col key) (applicants w)), w).

(** [repository.findOneOrFail(id)]: rejects when no row has the id. *)
Definition findOneOrFail (key : string) : Promise Applicant :=
  invoke (RepoFindOneOrFail key) ;;
  fun w =>
    match find (hasId key) (applicants w) with
    | Some a => (Fulfilled a, w)
    | None =>
        (Thrown (ErrorObject (mkError "EntityNotFound"
                                "Could not find any entity")), w)
    end.

(** The effect of [repository.save(entity)] on the table: it updates
    the row with the entity's id when there is one, inserts otherwise; an
    insert fills in the generated columns.  Yields the stored entity. *)
Definition persist (a : Applicant) (w : World) : Applicant * World :=
  match id a with
  | Some i =>
      if existsb (hasId i) (applicants w)
      then (a,
            setApplicants
              (map (fun r => if hasId i r then a else r) (applicants w))
              (nextId w) w)
      else let row := setGenerated i (clock w) a in
           (row, setApplicants (applicants w ++ [row]) (nextId w) w)
  | None =>
      let row := setGenerated (uuid (nextId w)) (clock w) a in
      (row, setApplicants (applicants w ++ [row]) (S (nextId w)) w)
  end.

(** [repository.save(entity)]. *)
Definition save (a : Applicant) : Promise Applicant :=
  invoke (RepoSave a) ;;
  fun w => (Fulfilled (fst (persist a w)), snd (persist a w)).

(** [repository.delete(id)]. *)
Definition delete (key : string) : Promise DeleteResult :=
  invoke (RepoDelete key) ;;
  fun w =>
    (Fulfilled
       (mkDeleteResult (List.length (filter (hasId key) (applicants w)))),
     setApplicants (filter (fun r => negb (hasId key r)) (applicants w))
       (nextId w) w).

(** First subquery: [SELECT review.applicantId FROM review GROUP BY
    review.applicantId HAVING COUNT(review.applicantId) >= 2]. *)
Definition reviewedTwice (rs : list Review) : list (option string) :=
  let col := map applicantId rs in
  filter (fun k => (2 <=? Sql.count k col)%nat) (Sql.groups col).

(** Second subquery: [SELECT review.applicantId FROM review WHERE
    review.createdByAuthID = :authID]. *)
Definition reviewedBy (reviewerID : string) (rs : list Review)
  : list (option string) :=
  map applicantId
    (filter (fun r => String.eqb (createdByAuthID r) reviewerID) rs).

(** The WHERE clause of the query, on one row.  The primary key of a
    stored row is never NULL; a row without one matches nothing. *)
Definition toReviewWhere (reviewerID : string) (rs : list Review)
  (a : Applicant) : Sql.truth :=
  match id a with
  | None => Sql.UNKNOWN
  | Some i =>
      Sql.and3
        (Sql.and3 (Sql.notIn i (reviewedTwice rs))
                  (Sql.notIn i (reviewedBy reviewerID rs)))
        (Sql.ofBool (applicationStatus a =? Applied)%Z)
  end.

(** [.take(k)], as the query builder and the database read it.  The
    builder adds a LIMIT clause only when [k] is truthy, so a zero asks
    for every row; a count [n] becomes [LIMIT n]. *)
Definition limitOf (take : Js.number) : LimitReading :=
  if Js.isZero take then ReadsAs None
  else match Js.safeCount take with
       | Some n => ReadsAs (Some n)
       | None => oddTake take
       end.

(** The rows the query selects under a limit: WHERE, then ORDER BY
    createdAt ASC, then the limit when there is one. *)
Definition selectToReview (reviewerID : string) (limit : option nat)
  (w : World) : list Applicant :=
  let rows :=
    Sql.orderByAsc createdAt
      (filter (fun a => Sql.keeps (toReviewWhere reviewerID (reviews w) a))
         (applicants w)) in
  match limit with
  | Some n => firstn n rows
  | None => rows
  end.

(** [createQueryBuilder('application')...take(k).getMany()], the whole
    chain taken as one call to the repository. *)
Definition getManyToReview (reviewerID : string) (take : Js.number)
  : Promise (list Applicant) :=
  invoke (RepoGetMany reviewerID take) ;;
  fun w =>
    match limitOf take with
    | Refuses e => (Thrown (ErrorObject e), w)
    | ReadsAs limit => (Fulfilled (selectToReview reviewerID limit w), w)
    end.

End Repository.
End Repository.

(** The cloud storage client the service is given. *)
Module CloudStorageService.
Section CloudStorageService.
Context `{Infrastructure}.

Definition dropKey (key : string) (b : list (string * Buffer))
  : list (string * Buffer) :=
  filter (fun kv => negb (String.eqb (fst kv) key)) b.

(** Modelled from the spec: services/cloudStorage is not part of the
    sources at hand.  The spec describes it as a durable key-to-blob store
    exposing [upload(key, bytes)] and [delete(key)], each of which either
    succeeds or fails. *)
Definition upload (key : string) (data : Buffer) : Promise unit :=
  invoke (CloudUpload key data) ;;
  fun w => (Fulfilled tt, setBucket ((key, data) :: dropKey key (bucket w)) w).

(** Modelled from the spec: [delete(key)] of the same store, see
    [upload]. *)
Definition delete (key : string) : Promise unit :=
  invoke (CloudDelete key) ;;
  fun w => (Fulfilled tt, setBucket (dropKey key (bucket w)) w).

End CloudStorageService.
End CloudStorageService.

(** [validateOrReject(applicant)]: resolves when the report is empty and
    rejects with the reports otherwise. *)
Definition validateOrReject `{ApplicantSchema} (a : Applicant)
  : Promise unit :=
  fun w =>
    match validate a with
    | [] => (Fulfilled tt, w)
    | errors => (Thrown (ValidationErrors errors), w)
    end.

(* ================================================================== *)
(** * ApplicantService *)
(* ================================================================== *)

Module ApplicantService.
Section ApplicantService.
Context `{ApplicantStatusEnum} `{ApplicantSchema} `{Infrastructure}
  `{QueryDialect}.

Definition findOne (key : string) (findBy : option Column)
  : Promise Applicant :=
  Transactional
    (tryCatch
       (let findColumn :=
          match findBy with Some c => c | None => ColId end in
        applicant <- Repository.findOne findColumn key ;;
        match applicant with
        | None => throw (ErrorObject (newError "Applicant does not exist"))
        | Some a => ret a
        end)
       (fun err =>
          logger_info err ;;
          throw (ErrorObject
                   (newError ("Failed to find an applicant:" ++ nl
                              ++ messageOf err)%string)))).

(** The guard [file && newApplicant.cv]: a Buffer is an object and so
    always truthy; the key counts when it is a non-empty string. *)
Definition cvToUpload (newApplicant : Applicant) (file : option Buffer)
  : option (string * Buffer) :=
  match file, cv newApplicant with
  | Some data, Some key =>
      if Js.truthy (Js.VString key) then Some (key, data) else None
  | _, _ => None
  end.

Definition save (newApplicant : Applicant) (file : option Buffer)
  : Promise Applicant :=
  Transactional
    (tryCatch (validateOrReject newApplicant)
       (fun errors =>
          logger_error errors EmptyString ;;
          throw (ErrorObject (newError "Failed to validate applicant"))) ;;
     match cvToUpload newApplicant file with
     | Some (key, data) =>
         tryCatch (CloudStorageService.upload key data)
           (fun err =>
              throw (ErrorObject (newError "Failed to save applicant CV")))
     | None => ret tt
     end ;;
     tryCatch (Repository.save newApplicant)
       (fun err =>
          throw (ErrorObject
                   (newError ("Failed to save applicant:" ++ nl
                              ++ messageOf err)%string)))).

Definition delete (key : string) : Promise DeleteResult :=
  Transactional
    (applicant <-
       tryCatch (Repository.findOneOrFail key)
         (fun err =>
            throw (ErrorObject
                     (newError
                        "Failed to find applicant using the provided ID"))) ;;
     tryCatch
       (if Js.truthy (Js.ofOptString (cv applicant))
        then match cv applicant with
             | Some k => CloudStorageService.delete k
             | None => ret tt
             end
        else ret tt)
       (fun err => logger_error err "Failed to remove the applicants CV") ;;
     tryCatch (Repository.delete key)
       (fun err =>
          throw (ErrorObject
                   (newError ("Failed to remove an applicant:" ++ nl
                              ++ messageOf err)%string)))).

(** The default value of the parameter [chooseFromK]. *)
Definition defaultChooseFromK : Js.number := Js.ofNat 5.

Definition getKRandomToReview (reviewerID : string)
  (chooseFromK : option Js.number) : Promise (list Applicant) :=
  let chooseFromK :=
    match chooseFromK with Some k => k | None => defaultChooseFromK end in
  Transactional
    (tryCatch (Repository.getManyToReview reviewerID chooseFromK)
       (fun err => logger_error err EmptyString ;; ret [])).

End ApplicantService.
End ApplicantService.

(* ================================================================== *)
(** * ApplicationController *)
(* ================================================================== *)

(** What the controller asks of the applicant service.  The controller
    receives the service by injection, and the tests hand it a mock. *)
Record ApplicantServiceInterface := mkService {
  svcFindOne : string -> option Column -> Promise Applicant;
  svcSave : Applicant -> option Buffer -> Promise Applicant;
  svcRemove : option string -> Promise DeleteResult
}.

(** The service calls a handler makes, in order. *)
Inductive ServiceCall :=
| CallFindOne (key : string) (findBy : option Column)
| CallSave (a : Applicant) (file : option Buffer)
| CallRemove (key : option string).

(** What a handler does with the express response object. *)
Inductive Response :=
| Send (status : nat) (error : bool) (msg : string)
| Redirect (url : string)
| Next (err : Exception).

(** [HttpResponseCode], as the tests spell the codes out. *)
Definition OK : nat := 200.
Definition BAD_REQUEST : nat := 400.

(** The result of running a handler: the response, the service calls it
    made, and the applicant object it held when it returned. *)
Record Handled := mkHandled {
  response : Response;
  serviceCalls : list ServiceCall;
  application : option Applicant
}.

Record RequestUser := mkRequestUser {
  userAuthId : string;
  userName : string;
  userEmail : string
}.

(** A file as multer attaches it to the request. *)
Record UploadedFile := mkUploadedFile {
  fieldname : string;
  originalname : string;
  buffer : Buffer
}.

(** The properties [submitApplication] reads from [req.body]; a property
    the payload lacks reads as [undefined]. *)
Record Body := mkBody {
  applicantAge : Js.value;
  applicantGender : Js.value;
  applicantGenderOther : Js.value;
  applicantNationality : Js.value;
  applicantCountry : Js.value;
  applicantCity : Js.value;
  applicantUniversity : Js.value;
  applicantStudyYear : Js.value;
  applicantDegree : Js.value;
  applicantWorkArea : Js.value;
  applicantWorkAreaOther : Js.value;
  applicantSkills : Js.value;
  applicantHackathonCount : Js.value;
  applicantWhyChoose : Js.value;
  applicantPastProj : Js.value;
  applicantHardwareReq : Js.value;
  applicantDietaryRequirements : Js.value;
  applicantDietaryRequirementsOther : Js.value;
  applicantTShirt : Js.value;
  applicantHearAbout : Js.value;
  applicantHearAboutOther : Js.value
}.

Record SubmitRequest := mkSubmitRequest {
  user : RequestUser;
  body : Body;
  files : option (list UploadedFile)
}.

(** [s.replace(/[^\x00-\x7F]/g, "")]: drops every character outside the
    ASCII range. *)
Fixpoint stripNonAscii (s : string) : string :=
  match s with
  | EmptyString => EmptyString
  | String c s' =>
      if (nat_of_ascii c <=? 127)%nat then String c (stripNonAscii s')
      else stripNonAscii s'
  end.

Module ApplicationController.
Section ApplicationController.
Context `{ApplicantStatusEnum} `{Js.Runtime}.
Variable applicantService : ApplicantServiceInterface.

Definition isNumeric (n : Js.value) : bool :=
  negb (Js.isNaN (Js.parseFloat n)) && Js.isFinite n.

(** The applicant built from the payload, before the CV is handled. *)
Definition newApplication (req : SubmitRequest) : Applicant :=
  let b := body req in
  mkApplicant
    None
    (userAuthId (user req))
    (Js.Number (applicantAge b))
    (Js.or (applicantGenderOther b)
       (Js.or (applicantGender b) (Js.VString "Other")))
    (applicantNationality b)
    (applicantCountry b)
    (applicantCity b)
    (applicantUniversity b)
    (applicantStudyYear b)
    (applicantDegree b)
    (Js.or (applicantWorkAreaOther b)
       (Js.or (applicantWorkArea b) (Js.VString "Other")))
    (applicantSkills b)
    (if isNumeric (applicantHackathonCount b)
     then Some (Js.Number (applicantHackathonCount b))
     else None)
    (applicantWhyChoose b)
    (applicantPastProj b)
    (applicantHardwareReq b)
    (Js.or (applicantDietaryRequirementsOther b)
       (Js.or (applicantDietaryRequirements b) (Js.VString "Other")))
    (applicantTShirt b)
    (Js.or (applicantHearAboutOther b)
       (Js.or (applicantHearAbout b) (Js.VString "Other")))
    None
    Applied
    0%Z.

(** The storage key of the CV, a template literal spread over three
    lines of the source. *)
Definition cvKey (u : RequestUser) (f : UploadedFile) : string :=
  (nl ++ "      " ++ stripNonAscii (userName u) ++ "."
   ++ nl ++ "      " ++ userEmail u ++ "."
   ++ nl ++ "      " ++ stripNonAscii (originalname f))%string.

(** The applicant and the CV buffer handed to [save]. *)
Definition withCv (req : SubmitRequest) : Applicant * option Buffer :=
  match files req with
  | Some [f] =>
      if String.eqb (fieldname f) "applicantCV"
      then (setCv (Some (cvKey (user req) f)) (newApplication req),
            Some (buffer f))
      else (newApplication req, None)
  | _ => (newApplication req, None)
  end.

Definition submitApplication (req : SubmitRequest) (w : World)
  : Handled * World :=
  let (newApplication, cvFile) := withCv req in
  let calls := [CallSave newApplication cvFile] in
  match svcSave applicantService newApplication cvFile w with
  | (Thrown errors, w1) =>
      (mkHandled (Send BAD_REQUEST true "Could not create application!")
         calls (Some newApplication), w1)
  | (Fulfilled _, w1) =>
      (mkHandled (Send OK false "Application recieved!")
         calls (Some newApplication), w1)
  end.

(** [applicationsOpen] is [res.locals.applicationsOpen], read for its
    truth value. *)
Definition cancel (u : RequestUser) (applicationsOpen : bool) (w : World)
  : Handled * World :=
  let find := CallFindOne (userAuthId u) (Some ColAuthId) in
  match svcFindOne applicantService (userAuthId u) (Some ColAuthId) w with
  | (Thrown err, w1) => (mkHandled (Next err) [find] None, w1)
  | (Fulfilled application, w1) =>
      if (applicationStatus application <=? Applied)%Z && applicationsOpen
      then
        let calls := [find; CallRemove (id application)] in
        match svcRemove applicantService (id application) w1 with
        | (Thrown err, w2) =>
            (mkHandled (Next err) calls (Some application), w2)
        | (Fulfilled _, w2) =>
            (mkHandled (Redirect "/") calls (Some application), w2)
        end
      else
        let application := setApplicationStatus Cancelled application in
        let calls := [find; CallSave application None] in
        match svcSave applicantService application None w1 with
        | (Thrown err, w2) =>
            (mkHandled (Next err) calls (Some application), w2)
        | (Fulfilled _, w2) =>
            (mkHandled (Redirect "/") calls (Some application), w2)
        end
  end.

Definition checkin (checkinID : string) (w : World) : Handled * World :=
  let find := CallFindOne checkinID None in
  match svcFindOne applicantService checkinID None w with
  | (Thrown err, w1) =>
      (mkHandled (Send BAD_REQUEST false "Hacker could not be checked in")
         [find] None, w1)
  | (Fulfilled application, w1) =>
      if (applicationStatus application =? Confirmed)%Z
      then
        let application := setApplicationStatus Admitted_ application in
        let calls := [find; CallSave application None] in
        match svcSave applicantService application None w1 with
        | (Thrown err, w2) =>
            (mkHandled
               (Send BAD_REQUEST false "Hacker could not be checked in")
               calls (Some application), w2)
        | (Fulfilled _, w2) =>
            (mkHandled (Send OK false "Hacker checked in!")
               calls (Some application), w2)
        end
      else
        (mkHandled
           (Send BAD_REQUEST false
              "Hacker was either rejected or did not confirm")
           [find] (Some application), w1)
  end.

End ApplicationController.
End ApplicationController.

(* ================================================================== *)
(** * Review recording *)
(* ================================================================== *)

(** The service that stores a reviewer's score for an applicant. *)
Module ReviewRecordingService.

Definition samePair (applicant reviewer : string) (r : Review) : bool :=
  Sql.eqKey (applicantId r) (Some applicant)
  && String.eqb (createdByAuthID r) reviewer.

Definition ConflictError : Error :=
  mkError "ConflictError" "Review already exists".

Definition insertReview (r : Review) (w : World) : World :=
  mkWorld (applicants w) (reviews w ++ [r]) (bucket w) (logged w)
    (journal w) (S (nextId w)) (clock w).

(** Modelled from the spec: the review recording service is not part of
    the sources at hand (only an end-to-end test of a single submission
    is).  Section 4.3 of the spec: it creates a Review row binding
    (applicantId, reviewerID, score, now()) and must reject, with a
    ConflictError, a second review from the same reviewer for the same
    applicant, through an existence check inside the same transaction
    as the insert. *)
Definition submitReview (applicant reviewerID : string)
  (score : Js.number) : Promise Review :=
  Transactional
    (fun w =>
       if existsb (samePair applicant reviewerID) (reviews w)
       then (Thrown (ErrorObject ConflictError), w)
       else
         let row := mkReview (uuid (nextId w)) (Some applicant)
                      reviewerID score (clock w) in
         (Fulfilled row, insertReview row w)).

(** One submission: applicant, reviewer, score. *)
Definition Submission := (string * string * Js.number)%type.

(** A history of submissions, each run to completion in its own
    transaction, whether it is accepted or rejected. *)
Definition submitAll (subs : list Submission) (w : World) : World :=
  fold_left (fun w s => snd (submitReview (fst (fst s)) (snd (fst s))
                               (snd s) w))
    subs w.

(** The stored reviews of one reviewer for one applicant. *)
Definition reviewsOfPair (applicant reviewer : string) (w : World)
  : list Review :=
  filter (samePair applicant reviewer) (reviews w).

End ReviewRecordingService.

(* ================================================================== *)
(** * The properties, in the words of the specification *)
(* ================================================================== *)

(** The number of reviews stored for an applicant, over all reviewers. *)
Definition reviewCount (applicant : string) (rs : list Review) : nat :=
  List.length (filter (fun r => Sql.eqKey (applicantId r) (Some applicant)) rs).

(** The reviewer has a review stored for the applicant. *)
Definition hasReviewed (reviewer applicant : string) (rs : list Review)
  : Prop :=
  exists r, In r rs /\ createdByAuthID r = reviewer
            /\ applicantId r = Some applicant.

(** The three eligibility conditions of the assignment engine. *)
Definition eligible `{ApplicantStatusEnum} (reviewer : string)
  (rs : list Review) (a : Applicant) : Prop :=
  applicationStatus a = Applied
  /\ exists i, id a = Some i
               /\ (reviewCount i rs < 2)%nat
               /\ ~ hasReviewed reviewer i rs.

(** Ascending by creation timestamp. *)
Definition oldestFirst (l : list Applicant) : Prop :=
  StronglySorted (fun a b => (createdAt a <= createdAt b)%Z) l.

(** The call [c] sits in the journal somewhere before the call [d]. *)
Definition calledBefore (c d : Call) (j : list Call) : Prop :=
  exists pre mid post, j = pre ++ c :: mid ++ d :: post.

Definition isUpload (c : Call) : bool :=
  match c with CloudUpload _ _ => true | _ => false end.

Definition isRepoSave (c : Call) : bool :=
  match c with RepoSave _ => true | _ => false end.

Definition isRemove (c : ServiceCall) : bool :=
  match c with CallRemove _ => true | _ => false end.

(** The handler answered with the status OK. *)
Definition succeeded (h : Handled) : bool :=
  match response h with
  | Send status _ _ => Nat.eqb status OK
  | _ => false
  end.

(** The field is the free-text "Other" value when that is present, else
    the selected value when that is present, else the string "Other";
    a value is present when it is truthy. *)
Definition otherElseSelected (other selected field : Js.value) : Prop :=
  (Js.truthy other = true -> field = other)
  /\ (Js.truthy other = false -> Js.truthy selected = true ->
      field = selected)
  /\ (Js.truthy other = false -> Js.truthy selected = false ->
      field = Js.VString "Other").

(** The same infrastructure, except that deleting a blob never fails. *)
Definition withoutBlobFaults (I : Infrastructure) : Infrastructure :=
  {| faults := fun c =>
       match c with CloudDelete _ => None | _ => @faults I c end |}.

(** At most one review per (reviewer, applicant) pair. *)
Definition onePerPair (w : World) : Prop :=
  forall applicant reviewer,
    (List.length (ReviewRecordingService.reviewsOfPair applicant reviewer w)
     <= 1)%nat.


(** The controller with the applicant service of this file behind
    [findOne] and [save]; [remove] is whatever the container provides
    under that name. *)
Definition wiredService `{ApplicantSchema} `{Infrastructure}
  (remove : option string -> Promise DeleteResult)
  : ApplicantServiceInterface :=
  mkService ApplicantService.findOne ApplicantService.save remove.

(* ================================================================== *)
(** * RequestAuthentication: the access checks *)
(* ================================================================== *)

Module Auth.

(** The levels of the authentication client, a numeric enum of the
    package [@unicsmcr/hs_auth_client]; the numbers are the package's. *)
Class AuthLevels := {
  Attendee : Z;
  Volunteer : Z;
  Organiser : Z
}.

(** What the checks read from outside: two variables of [process.env],
    either of which may be unset, and [querystring.encode]. *)
Class Environment := {
  APPLICATION_URL : option string;
  AUTH_URL : option string;
  querystringEncode : list (string * string) -> string
}.

(** The request user as the authentication client returns it: the
    identity and the level. *)
Record LevelledUser := mkLevelledUser {
  identity : RequestUser;
  authLevel : Z
}.

(** [res.locals], as far as the checks write it; a flag that was never
    set reads as false. *)
Record Locals := mkLocals {
  localAuthLevel : option Z;
  isAttendee : bool;
  isVolunteer : bool;
  isOrganiser : bool
}.

(** The response and the continuation: the targets of [res.redirect],
    [res.locals], and how often [next] was called. *)
Record Res := mkRes {
  redirects : list string;
  locals : Locals;
  nexts : nat
}.

Definition redirect (url : string) (res : Res) : Res :=
  mkRes (redirects res ++ [url]) (locals res) (nexts res).

Definition next (res : Res) : Res :=
  mkRes (redirects res) (locals res) (S (nexts res)).

Definition setLocals (l : Locals) (res : Res) : Res :=
  mkRes (redirects res) l (nexts res).

(** A variable inside a template literal; an unset one prints as
    [undefined]. *)
Definition interpolate (v : option string) : string :=
  match v with Some s => s | None => "undefined" end.

Section Checks.
Context `{AuthLevels} `{Environment}.

(** The login page, with the way back in the query. *)
Definition loginUrl (originalUrl : string) : string :=
  (interpolate AUTH_URL ++ "/login?"
   ++ querystringEncode
        [("returnto", interpolate APPLICATION_URL ++ originalUrl)])%string.

(** Returns true, or redirects and returns nothing, which reads as
    false. *)
Definition checkAuthLevel (originalUrl : string) (res : Res)
  (user : option LevelledUser) (requiredAuth : Z) : bool * Res :=
  match user with
  | Some u =>
      if (authLevel u <? requiredAuth)%Z
      then (false, redirect (loginUrl originalUrl) res)
      else (true, res)
  | None => (false, redirect (loginUrl originalUrl) res)
  end.

Definition checkIsAttendee (originalUrl : string)
  (user : option LevelledUser) (res : Res) : Res :=
  let (ok, res) := checkAuthLevel originalUrl res user Attendee in
  if ok
  then next (setLocals (mkLocals (localAuthLevel (locals res)) true
                          (isVolunteer (locals res))
                          (isOrganiser (locals res))) res)
  else res.

Definition checkIsVolunteer (originalUrl : string)
  (user : option LevelledUser) (res : Res) : Res :=
  let (ok, res) := checkAuthLevel originalUrl res user Volunteer in
  if ok
  then next (setLocals (mkLocals (localAuthLevel (locals res))
                          (isAttendee (locals res)) true
                          (isOrganiser (locals res))) res)
  else res.

Definition checkIsOrganiser (originalUrl : string)
  (user : option LevelledUser) (res : Res) : Res :=
  let (ok, res) := checkAuthLevel originalUrl res user Organiser in
  if ok
  then next (setLocals (mkLocals (localAuthLevel (locals res))
                          (isAttendee (locals res)) true true) res)
  else res.

(** What passport hands to the callback of [authenticate]: an error or
    nothing, and a user or nothing. *)
Definition authenticate (err : option string) (user : option LevelledUser)
  : Outcome LevelledUser :=
  if Js.truthy (Js.ofOptString err)
  then Thrown (ErrorObject (newError (interpolate err)))
  else match user with
       | None => Thrown (ErrorObject (newError "Not authenticated"))
       | Some u => Fulfilled u
       end.

Definition checkLoggedIn (originalUrl : string) (err : option string)
  (user : option LevelledUser) (res : Res) : Res :=
  match authenticate err user with
  | Thrown _ => redirect (loginUrl originalUrl) res
  | Fulfilled u =>
      next (setLocals (mkLocals (Some (authLevel u))
                         (isAttendee (locals res))
                         (isVolunteer (locals res))
                         (isOrganiser (locals res))) res)
  end.

End Checks.
End Auth.

(* ================================================================== *)
(** * util/config: the process configuration *)
(* ================================================================== *)

Module Config.

(** [Record<string, string | undefined>]. *)
Definition Source := string -> option string.

Inductive Environment := Dev | Production.

Module Db.
Record t := mk {
  host : string;
  port : Js.number;
  user : string;
  password : string;
  database : string
}.
End Db.

Module Hs.
Record t := mk {
  applicationUrl : string;
  authUrl : string;
  serviceToken : string
}.
End Hs.

Module Email.
Record t := mk {
  sendgridToken : string;
  smtpUsername : string;
  smtpPassword : string;
  smtpHost : string;
  smtpPort : Js.number
}.
End Email.

Record EnvConfig := mkEnvConfig {
  port : Js.number;
  environment : Environment;
  useSSL : bool;
  db : Db.t;
  hs : Hs.t;
  googleAnalyticsId : string;
  dropboxToken : string;
  email : Email.t
}.

(** The helpers of ./util, which is not part of the sources at hand.
    Each returns a value or throws; and [processEnv] is [process.env]. *)
Class Util := {
  getEnv : Source -> string -> Outcome string;
  intoNumber : string -> Outcome Js.number;
  intoBoolean : string -> Outcome bool;
  processEnv : Source
}.

(** Sequencing of computations that return or throw. *)
Definition andThen {A B} (m : Outcome A) (k : A -> Outcome B) : Outcome B :=
  match m with
  | Fulfilled a => k a
  | Thrown e => Thrown e
  end.

Section Load.
Context `{Util}.

Definition invalidEnvironment : Error :=
  newError "Invalid ENVIRONMENT variable, must be 'dev' or 'production'".

(** [load(source = process.env)]; the properties of the object literal
    are evaluated in the order they are written. *)
Definition load (source : option Source) : Outcome EnvConfig :=
  let source := match source with Some s => s | None => processEnv end in
  andThen (getEnv source "ENVIRONMENT") (fun environment =>
  if negb (String.eqb environment "dev"
           || String.eqb environment "production")
  then Thrown (ErrorObject invalidEnvironment)
  else
  andThen (andThen (getEnv source "PORT") intoNumber) (fun port =>
  let env := if String.eqb environment "dev" then Dev else Production in
  andThen (andThen (getEnv source "USE_SSL") intoBoolean) (fun useSSL =>
  andThen (getEnv source "DB_HOST") (fun dbHost =>
  andThen (andThen (getEnv source "DB_PORT") intoNumber) (fun dbPort =>
  andThen (getEnv source "DB_USER") (fun dbUser =>
  andThen (getEnv source "DB_PASSWORD") (fun dbPassword =>
  andThen (getEnv source "DB_DATABASE") (fun dbDatabase =>
  andThen (getEnv source "APPLICATION_URL") (fun applicationUrl =>
  andThen (getEnv source "AUTH_URL") (fun authUrl =>
  andThen (getEnv source "HS_AUTH_SERVICE_TOKEN") (fun serviceToken =>
  andThen (getEnv source "GOOGLE_ANALYTICS_ID") (fun googleAnalyticsId =>
  andThen (getEnv source "DROPBOX_API_TOKEN") (fun dropboxToken =>
  andThen (getEnv source "SENDGRID_API_TOKEN") (fun sendgridToken =>
  andThen (getEnv source "SMTP_USERNAME") (fun smtpUsername =>
  andThen (getEnv source "SMTP_PASSWORD") (fun smtpPassword =>
  andThen (getEnv source "SMTP_HOST") (fun smtpHost =>
  andThen (andThen (getEnv source "SMTP_PORT") intoNumber) (fun smtpPort =>
  Fulfilled
    (mkEnvConfig port env useSSL
       (Db.mk dbHost dbPort dbUser dbPassword dbDatabase)
       (Hs.mk applicationUrl authUrl serviceToken)
       googleAnalyticsId dropboxToken
       (Email.mk sendgridToken smtpUsername smtpPassword smtpHost
          smtpPort)))))))))))))))))))).

(** [getConfig(source?, refresh = false)] on the module variable
    [globalConfig].  [Object.assign(globalConfig, load(source))] copies
    every property of the fresh object over the cached one, and is not
    reached when [load] throws. *)
Definition getConfig (source : option Source) (refresh : bool)
  (globalConfig : option EnvConfig)
  : Outcome EnvConfig * option EnvConfig :=
  match globalConfig with
  | Some cached =>
      if refresh
      then match load source with
           | Fulfilled fresh => (Fulfilled fresh, Some fresh)
           | Thrown e => (Thrown e, Some cached)
           end
      else (Fulfilled cached, Some cached)
  | None =>
      match load source with
      | Fulfilled fresh => (Fulfilled fresh, Some fresh)
      | Thrown e => (Thrown e, None)
      end
  end.

End Load.
End Config.

(* ================================================================== *)
(** * Fixtures *)
(* ================================================================== *)

Module Fixtures.

(** A numbering of the statuses in the order the spec lists them. *)
Definition statusNumbers : ApplicantStatusEnum :=
  {| Applied := 0; Invited := 1; Confirmed := 2; Cancelled := 3;
     Rejected := 4; Admitted_ := 5 |}.

Definition isNegative (x : Js.number) : bool :=
  match x with
  | Js.Infinity negative => negative
  | Js.Finite negative m _ => negative && negb (N.eqb m 0)
  | Js.NaN => false
  end.

(** Modelled from the spec: of the field constraints it names ("required
    fields present, enumerations valid, numeric fields non-negative"),
    the one on the numeric fields [age] and [hackathonCount]. *)
Definition nonNegativeSchema : ApplicantSchema :=
  {| validate := fun a =>
       (if isNegative (age a)
        then [mkValidationError "age" ["min"]] else [])
       ++ (match hackathonCount a with
           | Some n => if isNegative n
                       then [mkValidationError "hackathonCount" ["min"]]
                       else []
           | None => []
           end) |}.

(** A database that refuses every LIMIT that is not a count. *)
Definition strictDialect : QueryDialect :=
  {| oddTake := fun _ => Refuses (newError "invalid LIMIT clause") |}.

(** Every external call goes through. *)
Definition reliable : Infrastructure := {| faults := fun _ => None |}.

Definition outage : Error := newError "connection refused".

(** Object storage rejects uploads. *)
Definition uploadDown : Infrastructure :=
  {| faults := fun c =>
       match c with CloudUpload _ _ => Some outage | _ => None end |}.

(** Object storage rejects deletions. *)
Definition blobDeleteDown : Infrastructure :=
  {| faults := fun c =>
       match c with CloudDelete _ => Some outage | _ => None end |}.

(** The database rejects the assignment query. *)
Definition queryDown : Infrastructure :=
  {| faults := fun c =>
       match c with RepoGetMany _ _ => Some outage | _ => None end |}.

Definition num (n : N) : Js.number := Js.Finite false n 0.

(** A stored applicant. *)
Definition stored (i : string) (status created : Z) (key : option string)
  : Applicant :=
  setCv key
    (setApplicationStatus status
       (setGenerated i created
          (mkApplicant None ("auth-" ++ i)%string (num 20)
             (Js.VString "Test") (Js.VString "UK") (Js.VString "UK")
             (Js.VString "Manchester") (Js.VString "UoM")
             (Js.VString "Foundation") (Js.VString "CS")
             (Js.VString "This") Js.VUndefined (Some (num 0))
             Js.VUndefined Js.VUndefined Js.VUndefined
             (Js.VString "Test") (Js.VString "M") (Js.VString "Other")
             None 0%Z 0%Z))).

(** An applicant of the given age that was never stored. *)
Definition freshAged (years : Js.number) (status : Z) (key : option string)
  : Applicant :=
  mkApplicant None "auth-new" years
    (Js.VString "Test") (Js.VString "UK") (Js.VString "UK")
    (Js.VString "Manchester") (Js.VString "UoM")
    (Js.VString "Foundation") (Js.VString "CS")
    (Js.VString "This") Js.VUndefined (Some (num 0))
    Js.VUndefined Js.VUndefined Js.VUndefined
    (Js.VString "Test") (Js.VString "M") (Js.VString "Other")
    key status 0%Z.

Definition fresh : Z -> option string -> Applicant := freshAged (num 20).

(** An applicant who claims to be minus five years old. *)
Definition malformed : Applicant := freshAged (Js.Finite true 5 0) 0 None.

Definition review (i applicant reviewer : string) : Review :=
  mkReview i (Some applicant) reviewer (num 2) 0.

Definition emptyWorld : World := mkWorld [] [] [] [] [] 0 1000.

Definition world (rows : list Applicant) (rs : list Review) : World :=
  mkWorld rows rs [] [] [] 100 1000.

Definition someBytes : Buffer := [Byte.x25; Byte.x50; Byte.x44; Byte.x46].

(** A mock of the applicant service, in the manner of the controller
    tests: [findOne] settles with [found], [save] resolves with its
    argument or rejects, [remove] resolves. *)
Definition mockService (found : Outcome Applicant) (saves : bool)
  : ApplicantServiceInterface :=
  mkService
    (fun _ _ w => (found, w))
    (fun a _ w =>
       if saves then (Fulfilled a, w) else (Thrown (ErrorObject outage), w))
    (fun _ w => (Fulfilled (mkDeleteResult 1), w)).

(** The service of this file behind the controller's [findOne] and
    [save]; [remove] stays a mock. *)
Definition realService : ApplicantServiceInterface :=
  mkService
    (@ApplicantService.findOne reliable)
    (@ApplicantService.save nonNegativeSchema reliable)
    (fun _ w => (Fulfilled (mkDeleteResult 1), w)).

Definition testUser : RequestUser :=
  mkRequestUser "010101" "Test" "test@test.com".

Fixpoint digitsValue (s : string) (acc : N) : option N :=
  match s with
  | EmptyString => Some acc
  | String c s' =>
      let n := nat_of_ascii c in
      if ((48 <=? n) && (n <=? 57))%nat
      then digitsValue s' (10 * acc + N.of_nat (n - 48))
      else None
  end.

(** A stand-in for the runtime in the examples.  It agrees with the
    language on [undefined], [null], booleans, numbers, the empty string
    and strings of decimal digits (below 2^53), which is all the examples
    feed it; every other string it reads as NaN. *)
Definition digitsRuntime : Js.Runtime :=
  {| Js.parseFloat := fun v =>
       match v with
       | Js.VNumber x => x
       | Js.VString (String c s) =>
           match digitsValue (String c s) 0 with
           | Some n => num n
           | None => Js.NaN
           end
       | _ => Js.NaN
       end;
     Js.Number := fun v =>
       match v with
       | Js.VUndefined | Js.VObject _ => Js.NaN
       | Js.VNull => num 0
       | Js.VBoolean b => if b then num 1 else num 0
       | Js.VNumber x => x
       | Js.VString s =>
           match digitsValue s 0 with
           | Some n => num n
           | None => Js.NaN
           end
       end |}.

(** The payload of the controller tests. *)
Definition testBody (genderValue genderOther workAreaValue workAreaOther
                       count : Js.value) : Body :=
  mkBody (Js.VNumber (num 20)) genderValue genderOther
    (Js.VString "UK") (Js.VString "UK") (Js.VString "Manchester")
    (Js.VString "UoM") (Js.VString "Foundation") (Js.VString "CS")
    workAreaValue workAreaOther Js.VUndefined count
    Js.VUndefined Js.VUndefined Js.VUndefined
    (Js.VString "Other") (Js.VString "Test") (Js.VString "M")
    (Js.VString "Other") Js.VUndefined.

(** A request that carries one file in the field of the CV. *)
Definition cvRequest : SubmitRequest :=
  mkSubmitRequest testUser
    (testBody Js.VUndefined Js.VUndefined (Js.VString "Other")
       (Js.VString "This") (Js.VString "3"))
    (Some [mkUploadedFile "applicantCV" "cv.pdf" someBytes]).

(** The levels of the authentication client, in rising order. *)
Definition authLevels : Auth.AuthLevels :=
  {| Auth.Attendee := 2; Auth.Volunteer := 3; Auth.Organiser := 4 |}.

Definition authEnvironment : Auth.Environment :=
  {| Auth.APPLICATION_URL := Some "https://apply.example";
     Auth.AUTH_URL := Some "https://auth.example";
     Auth.querystringEncode := fun kvs =>
       String.concat "&"
         (map (fun kv => (fst kv ++ "=" ++ snd kv)%string) kvs) |}.

Definition organiser : Auth.LevelledUser := Auth.mkLevelledUser testUser 4.

Definition emptyRes : Auth.Res :=
  Auth.mkRes [] (Auth.mkLocals None false false false) 0.

(** Helpers for the configuration in the manner of ./util: a variable
    must be set, a number is a string of digits, and a boolean is the
    word true. *)
Definition configUtil (env : Config.Source) : Config.Util :=
  {| Config.getEnv := fun source name =>
       match source name with
       | Some v => Fulfilled v
       | None => Thrown (ErrorObject (newError ("Missing " ++ name)%string))
       end;
     Config.intoNumber := fun s =>
       match digitsValue s 0 with
       | Some n => Fulfilled (num n)
       | None => Thrown (ErrorObject (newError "Not a number"))
       end;
     Config.intoBoolean := fun s => Fulfilled (String.eqb s "true");
     Config.processEnv := env |}.

(** An environment in which every variable is set. *)
Definition devEnv : Config.Source := fun name =>
  if String.eqb name "ENVIRONMENT" then Some "dev"
  else if String.eqb name "USE_SSL" then Some "false"
  else Some "8080".

(** The same with an unknown environment name. *)
Definition stagingEnv : Config.Source := fun name =>
  if String.eqb name "ENVIRONMENT" then Some "staging" else devEnv name.

(** The database rejects writes of applicants. *)
Definition persistDown : Infrastructure :=
  {| faults := fun c =>
       match c with RepoSave _ => Some outage | _ => None end |}.

End Fixtures.

(* ================================================================== *)
(** * Theorems *)
(* ================================================================== *)

(** Unfolds a service method down to the calls it makes. *)
Ltac run_service :=
  unfold ApplicantService.save, ApplicantService.delete,
    ApplicantService.findOne, CloudStorageService.upload,
    CloudStorageService.delete, Repository.save, Repository.delete,
    Repository.findOneOrFail, Repository.findOne, validateOrReject,
    logger_error, logger_info, writeLog;
  unfold Transactional, tryCatch, bind, invoke, ret, throw.

(** ** Lists and SQL *)

Lemma eqKey_eq (a b : option string) : Sql.eqKey a b = true <-> a = b.
Proof.
  destruct a as [x|], b as [y|]; simpl; split; intro E;
    try discriminate; try reflexivity.
  - apply String.eqb_eq in E. now subst.
  - injection E as ->. apply String.eqb_refl.
Qed.

Lemma in_groups (k : option string) (l : list (option string)) :
  In k (Sql.groups l) <-> In k l.
Proof.
  induction l as [|h l IH]; simpl; [tauto|].
  rewrite filter_In, IH. split.
  - intros [E | [I _]]; auto.
  - intros [E | I]; auto.
    destruct (Sql.eqKey h k) eqn:Q.
    + left. now apply eqKey_eq.
    + right. auto.
Qed.

Lemma in_false_not_In (x : string) (l : list (option string)) :
  Sql.in_ x l = Sql.FALSE -> ~ In (Some x) l.
Proof.
  induction l as [|[y|] l IH]; simpl; intros E I.
  - exact I.
  - destruct (String.eqb x y) eqn:Q; [discriminate|].
    destruct I as [I | I]; [|now apply IH].
    injection I as ->. rewrite String.eqb_refl in Q. discriminate.
  - destruct (Sql.in_ x l); discriminate.
Qed.

Lemma notIn_true (x : string) (l : list (option string)) :
  Sql.notIn x l = Sql.TRUE -> ~ In (Some x) l.
Proof.
  unfold Sql.notIn. intro E. apply in_false_not_In.
  destruct (Sql.in_ x l); simpl in E; congruence.
Qed.

Lemma and3_true (a b : Sql.truth) :
  Sql.and3 a b = Sql.TRUE -> a = Sql.TRUE /\ b = Sql.TRUE.
Proof. destruct a, b; simpl; intro E; try discriminate; auto. Qed.

Lemma count_reviewCount (i : string) (rs : list Review) :
  Sql.count (Some i) (map applicantId rs) = reviewCount i rs.
Proof.
  unfold reviewCount. simpl.
  induction rs as [|r rs IH]; simpl; [reflexivity|].
  destruct (applicantId r) as [j|]; simpl.
  - rewrite String.eqb_sym.
    destruct (String.eqb j i); simpl; now rewrite IH.
  - exact IH.
Qed.

Section OrderByFacts.
Context {A : Type} (key : A -> Z).

Let le (a b : A) : Prop := (key a <= key b)%Z.

Lemma insertAsc_perm (a : A) (l : list A) :
  Permutation (a :: l) (Sql.insertAsc key a l).
Proof.
  induction l as [|b l IH]; simpl; [reflexivity|].
  destruct (key a <=? key b)%Z; [reflexivity|].
  rewrite perm_swap. now constructor.
Qed.

Lemma orderByAsc_perm (l : list A) : Permutation l (Sql.orderByAsc key l).
Proof.
  induction l as [|a l IH]; simpl; [constructor|].
  rewrite <- insertAsc_perm. now constructor.
Qed.

Lemma insertAsc_sorted (a : A) (l : list A) :
  StronglySorted le l -> StronglySorted le (Sql.insertAsc key a l).
Proof.
  induction 1 as [|b l S IH F]; simpl.
  - repeat constructor.
  - destruct (key a <=? key b)%Z eqn:Q.
    + apply Z.leb_le in Q. constructor; [now constructor|].
      constructor; [exact Q|].
      eapply Forall_impl; [|exact F]. unfold le. intros; lia.
    + apply Z.leb_gt in Q. constructor; [exact IH|].
      eapply Permutation_Forall; [apply insertAsc_perm|].
      constructor; [unfold le; lia | exact F].
Qed.

Lemma orderByAsc_sorted (l : list A) :
  StronglySorted le (Sql.orderByAsc key l).
Proof.
  induction l as [|a l IH]; simpl; [constructor|].
  now apply insertAsc_sorted.
Qed.

Lemma firstn_sorted (n : nat) (l : list A) :
  StronglySorted le l -> StronglySorted le (firstn n l).
Proof.
  intro S. revert n.
  induction S as [|a l S IH F]; intros [|n]; simpl; try constructor.
  - apply IH.
  - apply Forall_forall. intros x I.
    rewrite Forall_forall in F. apply F.
    rewrite <- (firstn_skipn n l). apply in_or_app. now left.
Qed.
End OrderByFacts.

Lemma firstn_incl {A} (n : nat) (l : list A) : incl (firstn n l) l.
Proof.
  intros x I. rewrite <- (firstn_skipn n l). apply in_or_app. now left.
Qed.

(** ** The assignment query *)

Lemma count_pos_In (i : string) (l : list (option string)) :
  (1 <= Sql.count (Some i) l)%nat -> In (Some i) l.
Proof.
  simpl. intro C.
  destruct (filter (Sql.eqKey (Some i)) l) as [|k ks] eqn:F;
    [simpl in C; lia|].
  assert (I : In k (filter (Sql.eqKey (Some i)) l)) by (rewrite F; now left).
  apply filter_In in I as [I E]. apply eqKey_eq in E. now subst.
Qed.

Lemma reviewedTwice_complete (i : string) (rs : list Review) :
  (2 <= reviewCount i rs)%nat -> In (Some i) (Repository.reviewedTwice rs).
Proof.
  intro C. rewrite <- count_reviewCount in C.
  unfold Repository.reviewedTwice. apply filter_In. split.
  - apply in_groups, count_pos_In. lia.
  - now apply Nat.leb_le.
Qed.

Lemma reviewedBy_complete (reviewer i : string) (rs : list Review) :
  hasReviewed reviewer i rs -> In (Some i) (Repository.reviewedBy reviewer rs).
Proof.
  intros (r & I & C & E). unfold Repository.reviewedBy.
  rewrite <- E. apply in_map, filter_In. split; [exact I|].
  rewrite C. apply String.eqb_refl.
Qed.

Lemma where_keeps_eligible `{ApplicantStatusEnum} (reviewer : string)
  (rs : list Review) (a : Applicant) :
  Sql.keeps (Repository.toReviewWhere reviewer rs a) = true ->
  eligible reviewer rs a.
Proof.
  unfold Repository.toReviewWhere, eligible.
  destruct (id a) as [i|]; [|discriminate].
  intro K.
  destruct (Sql.and3 _ _) eqn:E in K; try discriminate.
  apply and3_true in E as [E S]. apply and3_true in E as [T B].
  split.
  - destruct (applicationStatus a =? Applied)%Z eqn:Q; [|discriminate].
    now apply Z.eqb_eq.
  - exists i. split; [reflexivity|]. split.
    + apply notIn_true in T.
      destruct (Nat.lt_ge_cases (reviewCount i rs) 2) as [L|G]; [exact L|].
      exfalso. apply T. now apply reviewedTwice_complete.
    + apply notIn_true in B. intro R. apply B.
      now apply reviewedBy_complete.
Qed.

Lemma selectToReview_spec `{ApplicantStatusEnum} (reviewer : string)
  (limit : option nat) (w : World) :
  let batch := Repository.selectToReview reviewer limit w in
  (forall n, limit = Some n -> (List.length batch <= n)%nat)
  /\ Forall (eligible reviewer (reviews w)) batch
  /\ oldestFirst batch
  /\ incl batch (applicants w).
Proof.
  unfold Repository.selectToReview.
  set (kept := filter _ (applicants w)).
  assert (P : forall a, In a (Sql.orderByAsc createdAt kept) ->
                        eligible reviewer (reviews w) a
                        /\ In a (applicants w)).
  { intros a I.
    eapply Permutation_in in I; [|symmetry; apply orderByAsc_perm].
    apply filter_In in I as [I K]. split; [|exact I].
    now apply where_keeps_eligible. }
  destruct limit as [n|].
  - split; [intros m E; injection E as <-; apply firstn_le_length|].
    split; [|split].
    + apply Forall_forall. intros a I. apply firstn_incl in I.
      now apply P.
    + apply firstn_sorted, orderByAsc_sorted.
    + intros a I. apply firstn_incl in I. now apply P.
  - split; [discriminate|]. split; [|split].
    + apply Forall_forall. intros a I. now apply P.
    + apply (orderByAsc_sorted createdAt).
    + intros a I. now apply P.
Qed.

Lemma safeCount_ofNat (n : nat) :
  (1 <= n)%nat -> (Z.of_nat n < 2 ^ 53)%Z ->
  Js.safeCount (Js.ofNat n) = Some n.
Proof.
  intros L U. unfold Js.safeCount, Js.ofNat, Js.wholePart.
  change (0 <=? 0)%Z with true. cbv iota.
  rewrite Z.pow_0_r, Z.mul_1_r, nat_N_Z.
  replace (0 <? Z.of_nat n)%Z with true by (symmetry; apply Z.ltb_lt; lia).
  replace (Z.of_nat n <? 2 ^ 53)%Z with true
    by (symmetry; apply Z.ltb_lt; exact U).
  simpl andb. cbv iota. now rewrite Nat2Z.id.
Qed.

Lemma safeCount_not_zero (x : Js.number) (n : nat) :
  Js.safeCount x = Some n -> Js.isZero x = false.
Proof.
  unfold Js.safeCount, Js.wholePart, Js.isZero.
  destruct x as [|neg|neg m e]; try discriminate.
  destruct (N.eqb m 0) eqn:Z0; [|reflexivity].
  apply N.eqb_eq in Z0. subst m. simpl Z.of_N.
  destruct (0 <=? e)%Z.
  - rewrite Z.mul_0_l. destruct neg; discriminate.
  - rewrite Zmod_0_l, Zdiv_0_l. simpl. destruct neg; discriminate.
Qed.

Lemma limitOf_count `{QueryDialect} (take : Js.number) (n : nat) :
  Js.safeCount take = Some n -> Repository.limitOf take = ReadsAs (Some n).
Proof.
  intro S. unfold Repository.limitOf.
  now rewrite (safeCount_not_zero take n S), S.
Qed.

Lemma limitOf_zero_or_count_runs `{QueryDialect} (take : Js.number) :
  Js.isZero take = true \/ (exists n, Js.safeCount take = Some n) ->
  forall e, Repository.limitOf take <> Refuses e.
Proof.
  intros [Z0 | (n & S)] e.
  - unfold Repository.limitOf. rewrite Z0. discriminate.
  - rewrite (limitOf_count take n S). discriminate.
Qed.

(** C1, as the specification words it, fails: asked for at most zero
    applicants, with two eligible ones stored, [getKRandomToReview]
    resolves with both of them. *)
Lemma getKRandomToReview_zero_returns_all :
  fst (@ApplicantService.getKRandomToReview Fixtures.statusNumbers
         Fixtures.reliable Fixtures.strictDialect "rev1"
         (Some (Js.ofNat 0))
         (Fixtures.world [Fixtures.stored "a1" 0 10 None;
                          Fixtures.stored "a2" 0 20 None] []))
  = Fulfilled [Fixtures.stored "a1" 0 10 None; Fixtures.stored "a2" 0 20 None]
  /\ ~ (List.length [Fixtures.stored "a1" 0 10 None;
                     Fixtures.stored "a2" 0 20 None] <= 0)%nat.
Proof. split; [reflexivity|]. simpl. lia. Qed.

(** C1, amended.  Whatever the reviewer, the stored applicants and
    reviews, the number asked for and the behaviour of the database,
    [getKRandomToReview] resolves with stored applicants each of whom has
    the status Applied, fewer than two reviews over all reviewers and none
    by this reviewer, ordered by ascending creation time, and leaves the
    tables as they were.  When the number asked for is a count, a whole
    number from 1 up to 2^53 - 1, or is left out, which stands for 5, the
    batch has at most that many applicants. *)
Theorem getKRandomToReview_batch `{ApplicantStatusEnum} `{Infrastructure}
  `{QueryDialect} :
  forall (reviewerID : string) (chooseFromK : option Js.number) (w : World),
  exists batch w',
    ApplicantService.getKRandomToReview reviewerID chooseFromK w
    = (Fulfilled batch, w')
    /\ (forall k n, chooseFromK = Some k -> Js.safeCount k = Some n ->
                    (List.length batch <= n)%nat)
    /\ (forall n, (1 <= n)%nat -> (Z.of_nat n < 2 ^ 53)%Z ->
                  chooseFromK = Some (Js.ofNat n) ->
                  (List.length batch <= n)%nat)
    /\ (chooseFromK = None -> (List.length batch <= 5)%nat)
    /\ Forall (eligible reviewerID (reviews w)) batch
    /\ oldestFirst batch
    /\ incl batch (applicants w)
    /\ applicants w' = applicants w
    /\ reviews w' = reviews w.
Proof.
  intros reviewerID chooseFromK w.
  unfold ApplicantService.getKRandomToReview, Transactional, tryCatch,
    Repository.getManyToReview, bind, invoke.
  set (take := match chooseFromK with
               | Some k => k
               | None => ApplicantService.defaultChooseFromK
               end).
  assert (Empty : forall w',
            applicants w' = applicants w -> reviews w' = reviews w ->
            exists batch w'',
              (@Fulfilled (list Applicant) [], w') = (Fulfilled batch, w'')
              /\ (forall k n, chooseFromK = Some k ->
                              Js.safeCount k = Some n ->
                              (List.length batch <= n)%nat)
              /\ (forall n, (1 <= n)%nat -> (Z.of_nat n < 2 ^ 53)%Z ->
                            chooseFromK = Some (Js.ofNat n) ->
                            (List.length batch <= n)%nat)
              /\ (chooseFromK = None -> (List.length batch <= 5)%nat)
              /\ Forall (eligible reviewerID (reviews w)) batch
              /\ oldestFirst batch
              /\ incl batch (applicants w)
              /\ applicants w'' = applicants w
              /\ reviews w'' = reviews w).
  { intros w' A R. exists [], w'. split; [reflexivity|]. simpl.
    repeat split; intros; try lia; try constructor; auto.
    intros a []. }
  destruct (faults (RepoGetMany reviewerID take)) as [err|]; simpl.
  { now apply Empty. }
  destruct (Repository.limitOf take) as [e|limit] eqn:L; simpl.
  { now apply Empty. }
  destruct (selectToReview_spec reviewerID limit
              (record (RepoGetMany reviewerID take) w)) as (B & E & S & I).
  assert (C : forall k n, take = k -> Js.safeCount k = Some n ->
                          (List.length
                             (Repository.selectToReview reviewerID limit
                                (record (RepoGetMany reviewerID take) w))
                           <= n)%nat).
  { intros k n <- Sc. apply B.
    rewrite (limitOf_count take n Sc) in L. now injection L as <-. }
  eexists. eexists. split; [reflexivity|].
  split; [intros k n ->; now apply C|].
  split.
  { intros n L1 U ->. apply (C (Js.ofNat n) n eq_refl).
    now apply safeCount_ofNat. }
  split.
  { intros ->. apply (C (Js.ofNat 5) 5%nat eq_refl). reflexivity. }
  repeat split; auto.
Qed.

Lemma getKRandomToReview_batch_witness :
  (1 <= 1)%nat /\ (Z.of_nat 1 < 2 ^ 53)%Z
  /\ exists batch,
      fst (@ApplicantService.getKRandomToReview Fixtures.statusNumbers
             Fixtures.reliable Fixtures.strictDialect "rev1"
             (Some (Js.ofNat 1))
             (Fixtures.world [Fixtures.stored "a1" 0 10 None;
                              Fixtures.stored "a2" 0 20 None] []))
      = Fulfilled batch
      /\ (List.length batch <= 1)%nat.
Proof.
  split; [apply Nat.le_refl|]. split; [reflexivity|].
  destruct (@getKRandomToReview_batch Fixtures.statusNumbers
              Fixtures.reliable Fixtures.strictDialect "rev1"
              (Some (Js.ofNat 1))
              (Fixtures.world [Fixtures.stored "a1" 0 10 None;
                               Fixtures.stored "a2" 0 20 None] []))
    as (batch & w' & E & _ & B & _).
  exists batch. split; [now rewrite E|].
  apply (B 1%nat); [apply Nat.le_refl | reflexivity | reflexivity].
Defined.

(** C4.  When the repository query fails, [getKRandomToReview] does not
    reject: it resolves with the empty list, having logged the error, and
    leaves the tables as they were. *)
Theorem getKRandomToReview_fail_soft `{ApplicantStatusEnum}
  `{Infrastructure} `{QueryDialect} :
  forall (reviewerID : string) (chooseFromK : option Js.number) (w : World)
         (err : Error),
    faults (RepoGetMany reviewerID
              (match chooseFromK with Some k => k | None => Js.ofNat 5 end))
    = Some err ->
    exists w',
      ApplicantService.getKRandomToReview reviewerID chooseFromK w
      = (Fulfilled [], w')
      /\ logged w' = logged w ++ [mkLogEntry LevelError (ErrorObject err) ""]
      /\ applicants w' = applicants w
      /\ reviews w' = reviews w.
Proof.
  intros reviewerID chooseFromK w err F.
  unfold ApplicantService.getKRandomToReview, Transactional, tryCatch,
    Repository.getManyToReview, bind, invoke.
  unfold ApplicantService.defaultChooseFromK.
  rewrite F. simpl. eexists. split; [reflexivity|]. simpl. auto.
Qed.

Lemma getKRandomToReview_fail_soft_witness :
  @faults Fixtures.queryDown (RepoGetMany "rev1" (Js.ofNat 5))
  = Some Fixtures.outage
  /\ exists w',
      @ApplicantService.getKRandomToReview Fixtures.statusNumbers
        Fixtures.queryDown Fixtures.strictDialect "rev1" None
        (Fixtures.world [Fixtures.stored "a1" 0 10 None] [])
      = (Fulfilled [], w')
      /\ logged w'
         = [mkLogEntry LevelError (ErrorObject Fixtures.outage) ""]
      /\ applicants w' = [Fixtures.stored "a1" 0 10 None]
      /\ reviews w' = [].
Proof.
  split; [reflexivity|].
  apply (@getKRandomToReview_fail_soft Fixtures.statusNumbers
           Fixtures.queryDown Fixtures.strictDialect "rev1" None
           (Fixtures.world [Fixtures.stored "a1" 0 10 None] [])
           Fixtures.outage).
  reflexivity.
Defined.

(** A take that the database refuses is a failed query like any other:
    the error is logged and the empty list is what the caller gets. *)
Example getKRandomToReview_refused_take :
  @ApplicantService.getKRandomToReview Fixtures.statusNumbers
    Fixtures.reliable Fixtures.strictDialect "rev1"
    (Some (Js.Finite true 1 0))
    (Fixtures.world [Fixtures.stored "a1" 0 10 None] [])
  = (Fulfilled [],
     mkWorld [Fixtures.stored "a1" 0 10 None] [] []
       [mkLogEntry LevelError
          (ErrorObject (newError "invalid LIMIT clause")) ""]
       [RepoGetMany "rev1" (Js.Finite true 1 0)] 100 1000).
Proof. reflexivity. Qed.

(** Scenario C of the spec: ten Applied applicants without reviews, the
    youngest first in the table; the batch is the five oldest, oldest
    first. *)
Example getKRandomToReview_scenario_C :
  fst (@ApplicantService.getKRandomToReview Fixtures.statusNumbers
         Fixtures.reliable Fixtures.strictDialect "rev1"
         (Some (Js.ofNat 5))
         (Fixtures.world
            (map (fun n => Fixtures.stored (uuid n) 0 (Z.of_nat (100 - n)) None)
               (seq 0 10))
            []))
  = Fulfilled
      (map (fun n => Fixtures.stored (uuid n) 0 (Z.of_nat (100 - n)) None)
         [9; 8; 7; 6; 5]).
Proof. reflexivity. Qed.

(** Scenario D of the spec: an applicant with two reviews is offered to
    nobody, and an applicant is not offered again to who reviewed them. *)
Example getKRandomToReview_scenario_D :
  let rows := [Fixtures.stored "a1" 0 10 None; Fixtures.stored "a2" 0 20 None;
               Fixtures.stored "a3" 1 30 None] in
  let rs := [Fixtures.review "r1" "a1" "rev1"; Fixtures.review "r2" "a1" "rev2";
             Fixtures.review "r3" "a2" "rev3"] in
  fst (@ApplicantService.getKRandomToReview Fixtures.statusNumbers
         Fixtures.reliable Fixtures.strictDialect "rev4" None
         (Fixtures.world rows rs))
  = Fulfilled [Fixtures.stored "a2" 0 20 None]
  /\ fst (@ApplicantService.getKRandomToReview Fixtures.statusNumbers
            Fixtures.reliable Fixtures.strictDialect "rev3" None
            (Fixtures.world rows rs))
     = Fulfilled [].
Proof. split; reflexivity. Qed.

(** ** save *)

Lemma truthy_key (key : string) :
  key <> EmptyString -> Js.truthy (Js.VString key) = true.
Proof.
  intro N. simpl. destruct (String.eqb key EmptyString) eqn:Q;
    [|reflexivity].
  apply String.eqb_eq in Q. contradiction.
Qed.

Lemma cvToUpload_both (a : Applicant) (key : string) (data : Buffer) :
  cv a = Some key -> key <> EmptyString ->
  ApplicantService.cvToUpload a (Some data) = Some (key, data).
Proof.
  intros C N. unfold ApplicantService.cvToUpload.
  rewrite C, (truthy_key key N). reflexivity.
Qed.

Lemma cvToUpload_one (a : Applicant) (file : option Buffer) :
  (file = None /\ Js.truthy (Js.ofOptString (cv a)) = true)
  \/ (file <> None /\ Js.truthy (Js.ofOptString (cv a)) = false) ->
  ApplicantService.cvToUpload a file = None.
Proof.
  unfold ApplicantService.cvToUpload.
  intros [[-> _] | [_ T]]; [reflexivity|].
  destruct file; [|reflexivity].
  destruct (cv a); [|reflexivity].
  simpl in T |- *. now rewrite T.
Qed.

(** What [save] does once the report of the validator is known to be
    non-empty: it logs the report and rejects, and nothing else. *)
Lemma save_invalid `{ApplicantSchema} `{Infrastructure}
  (a : Applicant) (file : option Buffer) (w : World) :
  validate a <> [] ->
  ApplicantService.save a file w
  = (Thrown (ErrorObject (newError "Failed to validate applicant")),
     mkWorld (applicants w) (reviews w) (bucket w)
       (logged w ++ [mkLogEntry LevelError (ValidationErrors (validate a)) ""])
       (journal w) (nextId w) (clock w)).
Proof.
  intro V.
  unfold ApplicantService.save, Transactional, bind, tryCatch,
    validateOrReject, logger_error, writeLog, throw.
  destruct (validate a) as [|v vs]; [contradiction|]. reflexivity.
Qed.

Lemma persist_frame (a : Applicant) (w : World) :
  journal (snd (Repository.persist a w)) = journal w
  /\ bucket (snd (Repository.persist a w)) = bucket w
  /\ logged (snd (Repository.persist a w)) = logged w
  /\ reviews (snd (Repository.persist a w)) = reviews w.
Proof.
  unfold Repository.persist.
  destruct (id a) as [i|]; [destruct (existsb (hasId i) (applicants w))|];
    simpl; auto.
Qed.

Lemma persist_stores (a : Applicant) (w : World) :
  In (fst (Repository.persist a w)) (applicants (snd (Repository.persist a w))).
Proof.
  unfold Repository.persist.
  destruct (id a) as [i|]; [destruct (existsb (hasId i) (applicants w)) eqn:E|];
    simpl.
  - apply existsb_exists in E as (r & R & Q).
    apply in_map_iff. exists r. rewrite Q. auto.
  - apply in_or_app. right. now left.
  - apply in_or_app. right. now left.
Qed.

(** With a well-formed applicant and no upload to make, [save] is the
    repository's save. *)
Lemma save_without_upload `{ApplicantSchema} `{Infrastructure}
  (a : Applicant) (file : option Buffer) (w : World) :
  validate a = [] ->
  ApplicantService.cvToUpload a file = None ->
  faults (RepoSave a) = None ->
  ApplicantService.save a file w = Repository.save a w.
Proof.
  intros V C F. run_service. rewrite V, C, F. reflexivity.
Qed.

(** C2.  A call of [save] with a CV key and a file buffer: once the
    applicant has passed validation the upload is the first call made;
    the repository is asked to persist only after the upload; and when
    the upload fails, [save] rejects, the repository is never asked to
    persist and the tables are as they were. *)
Theorem save_uploads_before_persist `{ApplicantSchema} `{Infrastructure} :
  forall (newApplicant : Applicant) (key : string) (data : Buffer)
         (w : World),
    cv newApplicant = Some key -> key <> EmptyString ->
    exists out w' calls,
      ApplicantService.save newApplicant (Some data) w = (out, w')
      /\ journal w' = journal w ++ calls
      /\ (validate newApplicant = [] ->
          exists rest, calls = CloudUpload key data :: rest)
      /\ (forall a, In (RepoSave a) calls ->
                    calledBefore (CloudUpload key data) (RepoSave a) calls)
      /\ (forall e, faults (CloudUpload key data) = Some e ->
            isFulfilled out = false
            /\ applicants w' = applicants w
            /\ reviews w' = reviews w
            /\ forall a, ~ In (RepoSave a) calls).
Proof.
  intros a key data w C N.
  destruct (validate a) as [|v vs] eqn:V.
  - pose proof (cvToUpload_both a key data C N) as U.
    run_service. rewrite V, U.
    destruct (faults (CloudUpload key data)) as [e|] eqn:FU; simpl.
    + eexists. eexists. exists [CloudUpload key data].
      split; [reflexivity|]. simpl. repeat split; eauto.
      * intros a' [I|[]]. discriminate.
      * intros a' [I|[]]. discriminate.
    + assert (B : forall a', In (RepoSave a')
                               [CloudUpload key data; RepoSave a] ->
                             calledBefore (CloudUpload key data) (RepoSave a')
                               [CloudUpload key data; RepoSave a]).
      { intros a' [I|[I|[]]]; [discriminate|]. injection I as <-.
        exists [], [], []. reflexivity. }
      destruct (faults (RepoSave a)) as [e|] eqn:FS; simpl.
      * eexists. eexists. exists [CloudUpload key data; RepoSave a].
        split; [reflexivity|]. simpl. rewrite <- app_assoc.
        repeat split; eauto; discriminate.
      * eexists. eexists. exists [CloudUpload key data; RepoSave a].
        split; [reflexivity|].
        match goal with
        | |- context [Repository.persist a ?x] =>
            destruct (persist_frame a x) as (J & _); rewrite J
        end.
        simpl. rewrite <- app_assoc.
        repeat split; eauto; discriminate.
  - assert (V' : validate a <> []) by (rewrite V; discriminate).
    rewrite (save_invalid a (Some data) w V').
    eexists. eexists. exists []. split; [reflexivity|]. simpl.
    rewrite app_nil_r. repeat split; auto; try discriminate.
    intros a' [].
Qed.

Lemma save_uploads_before_persist_witness :
  cv (Fixtures.fresh 0 (Some "u.txt")) = Some "u.txt"
  /\ "u.txt" <> EmptyString
  /\ exists out w' calls,
      @ApplicantService.save Fixtures.nonNegativeSchema Fixtures.uploadDown
        (Fixtures.fresh 0 (Some "u.txt")) (Some Fixtures.someBytes)
        Fixtures.emptyWorld
      = (out, w')
      /\ journal w' = journal Fixtures.emptyWorld ++ calls
      /\ (@validate Fixtures.nonNegativeSchema
            (Fixtures.fresh 0 (Some "u.txt")) = [] ->
          exists rest,
            calls = CloudUpload "u.txt" Fixtures.someBytes :: rest)
      /\ (forall a, In (RepoSave a) calls ->
                    calledBefore (CloudUpload "u.txt" Fixtures.someBytes)
                      (RepoSave a) calls)
      /\ (forall e,
            @faults Fixtures.uploadDown
              (CloudUpload "u.txt" Fixtures.someBytes) = Some e ->
            isFulfilled out = false
            /\ applicants w' = applicants Fixtures.emptyWorld
            /\ reviews w' = reviews Fixtures.emptyWorld
            /\ forall a, ~ In (RepoSave a) calls).
Proof.
  split; [reflexivity|]. split; [discriminate|].
  apply (@save_uploads_before_persist Fixtures.nonNegativeSchema
           Fixtures.uploadDown (Fixtures.fresh 0 (Some "u.txt")) "u.txt"
           Fixtures.someBytes Fixtures.emptyWorld).
  - reflexivity.
  - discriminate.
Defined.

(** Scenario B of the spec: the upload fails, [save] rejects and no
    record is created. *)
Example save_scenario_B :
  @ApplicantService.save Fixtures.nonNegativeSchema Fixtures.uploadDown
    (Fixtures.fresh 0 (Some "u.txt")) (Some Fixtures.someBytes)
    Fixtures.emptyWorld
  = (Thrown (ErrorObject (newError "Failed to save applicant CV")),
     record (CloudUpload "u.txt" Fixtures.someBytes) Fixtures.emptyWorld).
Proof. reflexivity. Qed.

(** Scenario A of the spec: a well-formed applicant without a CV is
    stored and comes back with a generated id and the status Applied. *)
Example save_scenario_A :
  fst (@ApplicantService.save Fixtures.nonNegativeSchema Fixtures.reliable
         (Fixtures.fresh (@Applied Fixtures.statusNumbers) None) None
         Fixtures.emptyWorld)
  = Fulfilled
      (setGenerated "0" 1000
         (Fixtures.fresh (@Applied Fixtures.statusNumbers) None)).
Proof. reflexivity. Qed.

(** C5, as the specification words it, fails: here an applicant violates
    a constraint, and what [save] rejects with carries none of the
    violation reports. *)
Lemma save_error_omits_violations :
  @validate Fixtures.nonNegativeSchema Fixtures.malformed <> []
  /\ ~ (exists err,
          fst (@ApplicantService.save Fixtures.nonNegativeSchema
                 Fixtures.reliable Fixtures.malformed None
                 Fixtures.emptyWorld)
          = Thrown err
          /\ reports err
             = @validate Fixtures.nonNegativeSchema Fixtures.malformed).
Proof.
  split; [discriminate|].
  intros (err & E & R). simpl in E. injection E as <-. discriminate.
Qed.

(** C5, amended.  When the applicant violates a constraint, [save]
    rejects with an error whose message is the fixed text "Failed to
    validate applicant"; the violation reports go to the log; and the
    call does nothing else: no upload, no persist, tables and object
    storage as they were. *)
Theorem save_rejects_invalid `{ApplicantSchema} `{Infrastructure} :
  forall (newApplicant : Applicant) (file : option Buffer) (w : World),
    validate newApplicant <> [] ->
    exists w',
      ApplicantService.save newApplicant file w
      = (Thrown (ErrorObject (newError "Failed to validate applicant")), w')
      /\ logged w'
         = logged w
           ++ [mkLogEntry LevelError
                 (ValidationErrors (validate newApplicant)) ""]
      /\ journal w' = journal w
      /\ applicants w' = applicants w
      /\ reviews w' = reviews w
      /\ bucket w' = bucket w.
Proof.
  intros a file w V. rewrite (save_invalid a file w V).
  eexists. split; [reflexivity|]. simpl. auto.
Qed.

Lemma save_rejects_invalid_witness :
  @validate Fixtures.nonNegativeSchema Fixtures.malformed <> []
  /\ exists w',
      @ApplicantService.save Fixtures.nonNegativeSchema Fixtures.reliable
        Fixtures.malformed (Some Fixtures.someBytes) Fixtures.emptyWorld
      = (Thrown (ErrorObject (newError "Failed to validate applicant")), w')
      /\ logged w'
         = logged Fixtures.emptyWorld
           ++ [mkLogEntry LevelError
                 (ValidationErrors
                    (@validate Fixtures.nonNegativeSchema Fixtures.malformed))
                 ""]
      /\ journal w' = journal Fixtures.emptyWorld
      /\ applicants w' = applicants Fixtures.emptyWorld
      /\ reviews w' = reviews Fixtures.emptyWorld
      /\ bucket w' = bucket Fixtures.emptyWorld.
Proof.
  split; [discriminate|].
  apply (@save_rejects_invalid Fixtures.nonNegativeSchema Fixtures.reliable
           Fixtures.malformed (Some Fixtures.someBytes) Fixtures.emptyWorld).
  discriminate.
Defined.

(** C9.  A call of [save] with only one half of the pair, a key without a
    buffer or a buffer without a key: no upload is made and object
    storage is untouched; the applicant is validated as always; and a
    well-formed applicant is persisted exactly as the repository's own
    save does it, the stored row being in the table afterwards. *)
Theorem save_skips_upload_without_pair `{ApplicantSchema}
  `{Infrastructure} :
  forall (newApplicant : Applicant) (file : option Buffer) (w : World),
    (file = None /\ Js.truthy (Js.ofOptString (cv newApplicant)) = true)
    \/ (file <> None /\ Js.truthy (Js.ofOptString (cv newApplicant)) = false)
    ->
    exists out w' calls,
      ApplicantService.save newApplicant file w = (out, w')
      /\ journal w' = journal w ++ calls
      /\ (forall k d, ~ In (CloudUpload k d) calls)
      /\ bucket w' = bucket w
      /\ (validate newApplicant <> [] ->
          out = Thrown (ErrorObject (newError "Failed to validate applicant"))
          /\ calls = [])
      /\ (validate newApplicant = [] ->
          calls = [RepoSave newApplicant]
          /\ (faults (RepoSave newApplicant) = None ->
              (out, w') = Repository.save newApplicant w
              /\ exists row, out = Fulfilled row /\ In row (applicants w'))).
Proof.
  intros a file w P. apply cvToUpload_one in P.
  assert (NU : forall k d, ~ In (CloudUpload k d) [RepoSave a]).
  { intros k d [I|[]]. discriminate. }
  destruct (validate a) as [|v vs] eqn:V.
  - destruct (faults (RepoSave a)) as [e|] eqn:F.
    + run_service. rewrite V, P, F. simpl.
      eexists. eexists. exists [RepoSave a].
      split; [reflexivity|]. simpl.
      split; [reflexivity|]. split; [exact NU|]. split; [reflexivity|].
      split; [intro Q; now contradiction Q|].
      intros _. split; [reflexivity|]. discriminate.
    + rewrite (save_without_upload a file w V P F).
      unfold Repository.save, bind, invoke. rewrite F.
      destruct (persist_frame a (record (RepoSave a) w)) as (J & B & _).
      eexists. eexists. exists [RepoSave a].
      split; [reflexivity|]. simpl. rewrite J, B. simpl.
      split; [reflexivity|]. split; [exact NU|]. split; [reflexivity|].
      split; [intro Q; now contradiction Q|].
      intros _. split; [reflexivity|]. intros _. split; [reflexivity|].
      eexists. split; [reflexivity|]. apply persist_stores.
  - assert (V' : validate a <> []) by (rewrite V; discriminate).
    rewrite (save_invalid a file w V').
    eexists. eexists. exists []. split; [reflexivity|]. simpl.
    rewrite app_nil_r.
    split; [reflexivity|]. split; [intros k d []|]. split; [reflexivity|].
    split; [intros _; split; reflexivity|]. discriminate.
Qed.

Lemma save_skips_upload_without_pair_witness :
  ((@None Buffer = None
    /\ Js.truthy (Js.ofOptString (cv (Fixtures.fresh 0 (Some "u.txt"))))
       = true)
   \/ (@None Buffer <> None
       /\ Js.truthy (Js.ofOptString (cv (Fixtures.fresh 0 (Some "u.txt"))))
          = false))
  /\ exists out w' calls,
      @ApplicantService.save Fixtures.nonNegativeSchema Fixtures.reliable
        (Fixtures.fresh 0 (Some "u.txt")) None Fixtures.emptyWorld
      = (out, w')
      /\ journal w' = journal Fixtures.emptyWorld ++ calls
      /\ (forall k d, ~ In (CloudUpload k d) calls)
      /\ bucket w' = bucket Fixtures.emptyWorld
      /\ (@validate Fixtures.nonNegativeSchema
            (Fixtures.fresh 0 (Some "u.txt")) <> [] ->
          out = Thrown (ErrorObject (newError "Failed to validate applicant"))
          /\ calls = [])
      /\ (@validate Fixtures.nonNegativeSchema
            (Fixtures.fresh 0 (Some "u.txt")) = [] ->
          calls = [RepoSave (Fixtures.fresh 0 (Some "u.txt"))]
          /\ (@faults Fixtures.reliable
                (RepoSave (Fixtures.fresh 0 (Some "u.txt"))) = None ->
              (out, w')
              = @Repository.save Fixtures.reliable
                  (Fixtures.fresh 0 (Some "u.txt")) Fixtures.emptyWorld
              /\ exists row, out = Fulfilled row /\ In row (applicants w'))).
Proof.
  split; [left; split; reflexivity|].
  apply (@save_skips_upload_without_pair Fixtures.nonNegativeSchema
           Fixtures.reliable (Fixtures.fresh 0 (Some "u.txt")) None
           Fixtures.emptyWorld).
  left. split; reflexivity.
Defined.

(** A buffer arrives for an applicant without a key: nothing is uploaded
    and the applicant is stored. *)
Example save_buffer_without_key :
  @ApplicantService.save Fixtures.nonNegativeSchema Fixtures.reliable
    (Fixtures.fresh 0 None) (Some Fixtures.someBytes) Fixtures.emptyWorld
  = @Repository.save Fixtures.reliable (Fixtures.fresh 0 None)
      Fixtures.emptyWorld.
Proof. reflexivity. Qed.

(** ** delete *)

Lemma delete_absent `{Infrastructure} (key : string) (w : World) :
  find (hasId key) (applicants w) = None ->
  ApplicantService.delete key w
  = (Thrown (ErrorObject
               (newError "Failed to find applicant using the provided ID")),
     record (RepoFindOneOrFail key) w).
Proof.
  intro F. run_service.
  destruct (faults (RepoFindOneOrFail key)); simpl; [reflexivity|].
  rewrite F. reflexivity.
Qed.

Lemma filter_negb_hasId (key : string) (rows : list Applicant) :
  forall r, In r (filter (fun r => negb (hasId key r)) rows) ->
            hasId key r = false.
Proof.
  intros r I. apply filter_In in I as [_ N].
  now apply negb_true_iff in N.
Qed.

(** C6.  [delete] on an id that no stored applicant has rejects with the
    error "Failed to find applicant using the provided ID" and leaves
    tables, object storage and log as they were.  When the applicant
    exists and has a CV key, a failing blob deletion is logged and goes no
    further: the record is deleted all the same and the deletion result is
    what [delete] resolves with.  In every case the outcome of [delete]
    and the table it leaves are the ones it would produce had the blob
    deletion gone through. *)
Theorem delete_not_found_or_best_effort `{Infrastructure} :
  forall (key : string) (w : World),
    (find (hasId key) (applicants w) = None ->
     exists w',
       ApplicantService.delete key w
       = (Thrown (ErrorObject
                    (newError
                       "Failed to find applicant using the provided ID")),
          w')
       /\ applicants w' = applicants w
       /\ reviews w' = reviews w
       /\ bucket w' = bucket w
       /\ logged w' = logged w)
    /\ (forall a k e,
          find (hasId key) (applicants w) = Some a ->
          cv a = Some k -> k <> EmptyString ->
          faults (RepoFindOneOrFail key) = None ->
          faults (CloudDelete k) = Some e ->
          faults (RepoDelete key) = None ->
          exists w',
            ApplicantService.delete key w
            = (Fulfilled
                 (mkDeleteResult
                    (List.length (filter (hasId key) (applicants w)))),
               w')
            /\ applicants w'
               = filter (fun r => negb (hasId key r)) (applicants w)
            /\ (forall r, In r (applicants w') -> hasId key r = false)
            /\ logged w'
               = logged w
                 ++ [mkLogEntry LevelError (ErrorObject e)
                       "Failed to remove the applicants CV"])
    /\ fst (ApplicantService.delete key w)
       = fst (@ApplicantService.delete (withoutBlobFaults _) key w)
    /\ applicants (snd (ApplicantService.delete key w))
       = applicants (snd (@ApplicantService.delete (withoutBlobFaults _)
                            key w)).
Proof.
  intros key w. split; [|split].
  - intro F. rewrite (delete_absent key w F).
    eexists. split; [reflexivity|]. simpl. auto.
  - intros a k e F C N FF FC FD.
    run_service. rewrite FF. simpl. rewrite F.
    rewrite C. unfold Js.ofOptString. rewrite (truthy_key k N).
    rewrite FC. simpl. rewrite FD. simpl.
    eexists. split; [reflexivity|]. simpl.
    split; [reflexivity|]. split; [apply filter_negb_hasId|reflexivity].
  - run_service. simpl.
    destruct (faults (RepoFindOneOrFail key)); simpl; [auto|].
    destruct (find (hasId key) (applicants w)) as [a|]; [|auto].
    destruct (Js.truthy (Js.ofOptString (cv a))); simpl.
    + destruct (cv a) as [k|]; simpl.
      * destruct (faults (CloudDelete k)); simpl;
          destruct (faults (RepoDelete key)); simpl; auto.
      * destruct (faults (RepoDelete key)); simpl; auto.
    + destruct (faults (RepoDelete key)); simpl; auto.
Qed.

Lemma delete_not_found_or_best_effort_witness :
  (exists w',
     @ApplicantService.delete Fixtures.blobDeleteDown "zz"
       (Fixtures.world [Fixtures.stored "a1" 0 10 (Some "cv.pdf")] [])
     = (Thrown (ErrorObject
                  (newError "Failed to find applicant using the provided ID")),
        w')
     /\ applicants w' = [Fixtures.stored "a1" 0 10 (Some "cv.pdf")]
     /\ reviews w' = []
     /\ bucket w' = []
     /\ logged w' = [])
  /\ (exists w',
        @ApplicantService.delete Fixtures.blobDeleteDown "a1"
          (Fixtures.world [Fixtures.stored "a1" 0 10 (Some "cv.pdf")] [])
        = (Fulfilled (mkDeleteResult 1), w')
        /\ applicants w' = []
        /\ (forall r, In r (applicants w') -> hasId "a1" r = false)
        /\ logged w'
           = [mkLogEntry LevelError (ErrorObject Fixtures.outage)
                "Failed to remove the applicants CV"]).
Proof.
  split.
  - apply (proj1 (@delete_not_found_or_best_effort Fixtures.blobDeleteDown
                    "zz"
                    (Fixtures.world
                       [Fixtures.stored "a1" 0 10 (Some "cv.pdf")] []))).
    reflexivity.
  - apply (proj1 (proj2 (@delete_not_found_or_best_effort
                           Fixtures.blobDeleteDown "a1"
                           (Fixtures.world
                              [Fixtures.stored "a1" 0 10 (Some "cv.pdf")] [])))
             (Fixtures.stored "a1" 0 10 (Some "cv.pdf")) "cv.pdf"
             Fixtures.outage);
      try reflexivity.
    discriminate.
Defined.

(** ** The application controller *)

(** C7.  Check-in of an applicant the service has found.  When the status
    is anything but Confirmed the request is refused, the service is not
    asked to save and the applicant is left as found.  When the status is
    Confirmed it is set to Admitted and the applicant is handed to [save];
    the request then succeeds exactly when that save goes through.  A
    check-in that succeeds was therefore one of a Confirmed applicant, and
    with a service whose save goes through, check-in succeeds exactly
    when the status is Confirmed. *)
Theorem checkin_only_confirmed `{ApplicantStatusEnum} :
  forall (svc : ApplicantServiceInterface) (checkinID : string)
         (w w1 : World) (a : Applicant),
    svcFindOne svc checkinID None w = (Fulfilled a, w1) ->
    let admitted := setApplicationStatus Admitted_ a in
    let h := fst (ApplicationController.checkin svc checkinID w) in
    let w' := snd (ApplicationController.checkin svc checkinID w) in
    (applicationStatus a <> Confirmed ->
     response h
     = Send BAD_REQUEST false "Hacker was either rejected or did not confirm"
     /\ serviceCalls h = [CallFindOne checkinID None]
     /\ application h = Some a
     /\ w' = w1)
    /\ (applicationStatus a = Confirmed ->
        serviceCalls h
        = [CallFindOne checkinID None; CallSave admitted None]
        /\ application h = Some admitted
        /\ applicationStatus admitted = Admitted_
        /\ w' = snd (svcSave svc admitted None w1)
        /\ succeeded h = isFulfilled (fst (svcSave svc admitted None w1)))
    /\ (succeeded h = true -> applicationStatus a = Confirmed)
    /\ (isFulfilled (fst (svcSave svc admitted None w1)) = true ->
        (succeeded h = true <-> applicationStatus a = Confirmed)).
Proof.
  intros svc checkinID w w1 a F admitted h w'.
  subst h w'. unfold ApplicationController.checkin. rewrite F.
  fold admitted.
  destruct (applicationStatus a =? Confirmed)%Z eqn:Q.
  - apply Z.eqb_eq in Q.
    destruct (svcSave svc admitted None w1) as [[saved|err] w2] eqn:S;
      simpl; (split; [intro N; contradiction|]);
      (split; [intros _; repeat split; reflexivity|]);
      split; try tauto; try discriminate.
  - apply Z.eqb_neq in Q. simpl.
    split; [intros _; repeat split; reflexivity|].
    split; [intro E; contradiction|].
    split; [discriminate|]. intros _. split; [discriminate|].
    intro E; contradiction.
Qed.

Lemma checkin_only_confirmed_witness :
  svcFindOne
    (Fixtures.mockService (Fulfilled (Fixtures.stored "a1" 2 10 None)) true)
    "a1" None Fixtures.emptyWorld
  = (Fulfilled (Fixtures.stored "a1" 2 10 None), Fixtures.emptyWorld)
  /\ serviceCalls
       (fst (@ApplicationController.checkin Fixtures.statusNumbers
               (Fixtures.mockService
                  (Fulfilled (Fixtures.stored "a1" 2 10 None)) true)
               "a1" Fixtures.emptyWorld))
     = [CallFindOne "a1" None;
        CallSave (Fixtures.stored "a1" 5 10 None) None]
  /\ succeeded
       (fst (@ApplicationController.checkin Fixtures.statusNumbers
               (Fixtures.mockService
                  (Fulfilled (Fixtures.stored "a1" 2 10 None)) true)
               "a1" Fixtures.emptyWorld))
     = true.
Proof.
  split; [reflexivity|].
  destruct (@checkin_only_confirmed Fixtures.statusNumbers
              (Fixtures.mockService
                 (Fulfilled (Fixtures.stored "a1" 2 10 None)) true)
              "a1" Fixtures.emptyWorld Fixtures.emptyWorld
              (Fixtures.stored "a1" 2 10 None) eq_refl)
    as (_ & C & _ & _).
  destruct (C eq_refl) as (Calls & _ & _ & _ & S).
  split; [exact Calls | exact S].
Defined.

(** Scenario E of the spec, through the service of this file: check-in
    of a Confirmed applicant stores the status Admitted; check-in of a
    Rejected one is refused and the table is as it was. *)
Example checkin_scenario_E :
  let confirmed := Fixtures.stored "a1" 2 10 None in
  let rejected := Fixtures.stored "a2" 4 20 None in
  let w := Fixtures.world [confirmed; rejected] [] in
  let onConfirmed :=
    @ApplicationController.checkin Fixtures.statusNumbers
      Fixtures.realService "a1" w in
  let onRejected :=
    @ApplicationController.checkin Fixtures.statusNumbers
      Fixtures.realService "a2" w in
  response (fst onConfirmed) = Send OK false "Hacker checked in!"
  /\ applicants (snd onConfirmed) = [Fixtures.stored "a1" 5 10 None; rejected]
  /\ response (fst onRejected)
     = Send BAD_REQUEST false "Hacker was either rejected or did not confirm"
  /\ applicants (snd onRejected) = [confirmed; rejected].
Proof. repeat split; reflexivity. Qed.

(** C8.  Cancellation asks the service to remove the applicant only when
    the applicant was found with a status at most Applied (and
    applications are open); the removal is then the service's, its world
    the handler's, and the handler redirects exactly when it resolves.
    Whenever it does not remove, the handler sets the status to Cancelled
    and has the service save the applicant: the world it leaves is the one
    that save leaves, and it redirects exactly when the save resolves.  So
    no removal is ever requested for an applicant whose status is above
    Applied; such an applicant is saved as Cancelled. *)
Theorem cancel_removes_only_early `{ApplicantStatusEnum} :
  forall (svc : ApplicantServiceInterface) (u : RequestUser)
         (applicationsOpen : bool) (w : World),
    let find := CallFindOne (userAuthId u) (Some ColAuthId) in
    let run := ApplicationController.cancel svc u applicationsOpen w in
    let h := fst run in
    (forall key, In (CallRemove key) (serviceCalls h) ->
       exists a w1,
         svcFindOne svc (userAuthId u) (Some ColAuthId) w = (Fulfilled a, w1)
         /\ (applicationStatus a <= Applied)%Z
         /\ applicationsOpen = true
         /\ key = id a)
    /\ (forall a w1,
          svcFindOne svc (userAuthId u) (Some ColAuthId) w = (Fulfilled a, w1)
          ->
          let cancelled := setApplicationStatus Cancelled a in
          ((applicationStatus a <= Applied)%Z /\ applicationsOpen = true ->
           serviceCalls h = [find; CallRemove (id a)]
           /\ application h = Some a
           /\ snd run = snd (svcRemove svc (id a) w1)
           /\ (response h = Redirect "/"
               <-> isFulfilled (fst (svcRemove svc (id a) w1)) = true))
          /\ (~ ((applicationStatus a <= Applied)%Z /\ applicationsOpen = true)
              ->
              serviceCalls h = [find; CallSave cancelled None]
              /\ application h = Some cancelled
              /\ applicationStatus cancelled = Cancelled
              /\ snd run = snd (svcSave svc cancelled None w1)
              /\ (response h = Redirect "/"
                  <-> isFulfilled (fst (svcSave svc cancelled None w1))
                      = true))
          /\ ((Applied < applicationStatus a)%Z ->
              existsb isRemove (serviceCalls h) = false
              /\ In (CallSave cancelled None) (serviceCalls h)
              /\ snd run = snd (svcSave svc cancelled None w1))).
Proof.
  intros svc u applicationsOpen w find run h. subst h run.
  unfold ApplicationController.cancel. fold find.
  destruct (svcFindOne svc (userAuthId u) (Some ColAuthId) w)
    as [[a|err] w1] eqn:F.
  - destruct (applicationStatus a <=? Applied)%Z eqn:Q.
    + apply Z.leb_le in Q. destruct applicationsOpen; simpl.
      * split.
        { destruct (svcRemove svc (id a) w1) as [[r|err] w2]; simpl;
            intros key [I|[I|[]]]; try discriminate;
            injection I as <-; exists a, w1; auto. }
        intros a' w1' E. injection E as <- <-. simpl.
        destruct (svcRemove svc (id a) w1) as [[r|err] w2]; simpl;
          (split;
           [intros _; repeat split; auto; discriminate|]);
          (split; [intros N; exfalso; apply N; auto|]);
          intro L; lia.
      * split.
        { destruct (svcSave svc _ None w1) as [[r|err] w2]; simpl;
            intros key [I|[I|[]]]; discriminate. }
        intros a' w1' E. injection E as <- <-. simpl.
        destruct (svcSave svc _ None w1) as [[r|err] w2]; simpl;
          (split; [intros [_ O]; discriminate|]);
          (split; [intros _; repeat split; auto; discriminate|]);
          intro L; lia.
    + apply Z.leb_gt in Q. simpl. split.
      { destruct (svcSave svc _ None w1) as [[r|err] w2]; simpl;
          intros key [I|[I|[]]]; discriminate. }
      intros a' w1' E. injection E as <- <-. simpl.
      destruct (svcSave svc _ None w1) as [[r|err] w2]; simpl;
        (split; [intros [L _]; lia|]);
        (split; [intros _; repeat split; auto; discriminate|]);
        intros _; auto.
  - simpl. split.
    + intros key [I|[]]. discriminate.
    + intros a w1' E. discriminate.
Qed.

Lemma cancel_removes_only_early_witness :
  svcFindOne
    (@wiredService Fixtures.nonNegativeSchema Fixtures.reliable
       (fun _ => throw (ErrorObject Fixtures.outage)))
    "auth-a1" (Some ColAuthId)
    (Fixtures.world [Fixtures.stored "a1" 2 10 None] [])
  = (Fulfilled (Fixtures.stored "a1" 2 10 None),
     record (RepoFindOne ColAuthId "auth-a1")
       (Fixtures.world [Fixtures.stored "a1" 2 10 None] []))
  /\ (@Applied Fixtures.statusNumbers
      < applicationStatus (Fixtures.stored "a1" 2 10 None))%Z
  /\ existsb isRemove
       (serviceCalls
          (fst (@ApplicationController.cancel Fixtures.statusNumbers
                  (@wiredService Fixtures.nonNegativeSchema Fixtures.reliable
                     (fun _ => throw (ErrorObject Fixtures.outage)))
                  (mkRequestUser "auth-a1" "Test" "test@test.com") true
                  (Fixtures.world [Fixtures.stored "a1" 2 10 None] []))))
     = false
  /\ In (CallSave (Fixtures.stored "a1" 3 10 None) None)
       (serviceCalls
          (fst (@ApplicationController.cancel Fixtures.statusNumbers
                  (@wiredService Fixtures.nonNegativeSchema Fixtures.reliable
                     (fun _ => throw (ErrorObject Fixtures.outage)))
                  (mkRequestUser "auth-a1" "Test" "test@test.com") true
                  (Fixtures.world [Fixtures.stored "a1" 2 10 None] []))))
  /\ applicants
       (snd (@ApplicationController.cancel Fixtures.statusNumbers
               (@wiredService Fixtures.nonNegativeSchema Fixtures.reliable
                  (fun _ => throw (ErrorObject Fixtures.outage)))
               (mkRequestUser "auth-a1" "Test" "test@test.com") true
               (Fixtures.world [Fixtures.stored "a1" 2 10 None] [])))
     = [Fixtures.stored "a1" 3 10 None].
Proof.
  split; [reflexivity|]. split; [reflexivity|].
  destruct (@cancel_removes_only_early Fixtures.statusNumbers
              (@wiredService Fixtures.nonNegativeSchema Fixtures.reliable
                 (fun _ => throw (ErrorObject Fixtures.outage)))
              (mkRequestUser "auth-a1" "Test" "test@test.com") true
              (Fixtures.world [Fixtures.stored "a1" 2 10 None] []))
    as (_ & C).
  destruct (C (Fixtures.stored "a1" 2 10 None)
              (record (RepoFindOne ColAuthId "auth-a1")
                 (Fixtures.world [Fixtures.stored "a1" 2 10 None] []))
              eq_refl)
    as (_ & _ & L).
  destruct (L eq_refl) as (NoRemove & Saved & W).
  split; [exact NoRemove|]. split; [exact Saved|].
  rewrite W. reflexivity.
Defined.

(** The controller test "applicant deleted when application open": an
    Applied applicant, applications open; the service is asked to remove
    and never to save. *)
Example cancel_applied_open :
  serviceCalls
    (fst (@ApplicationController.cancel Fixtures.statusNumbers
            (Fixtures.mockService
               (Fulfilled (Fixtures.fresh 0 None)) true)
            Fixtures.testUser true Fixtures.emptyWorld))
  = [CallFindOne "010101" (Some ColAuthId); CallRemove None].
Proof. reflexivity. Qed.

Lemma or_other_else_selected (other selected : Js.value) :
  otherElseSelected other selected
    (Js.or other (Js.or selected (Js.VString "Other"))).
Proof.
  unfold otherElseSelected, Js.or.
  destruct (Js.truthy other), (Js.truthy selected);
    repeat split; intros; try discriminate; reflexivity.
Qed.

Lemma withCv_fields `{ApplicantStatusEnum} `{Js.Runtime}
  (req : SubmitRequest) :
  setCv None (fst (ApplicationController.withCv req))
  = ApplicationController.newApplication req.
Proof.
  unfold ApplicationController.withCv.
  destruct (files req) as [[|f [|g fs]]|]; try reflexivity.
  destruct (String.eqb (fieldname f) "applicantCV"); reflexivity.
Qed.

(** The properties the handler does not assign are those of
    [new Applicant()]. *)
Lemma newApplication_unassigned `{ApplicantStatusEnum} `{Js.Runtime}
  (req : SubmitRequest) :
  let a := ApplicationController.newApplication req in
  id a = id newApplicant /\ cv a = cv newApplicant
  /\ createdAt a = createdAt newApplicant.
Proof. repeat split. Qed.

(** C10.  The applicant [submitApplication] builds and hands to [save]:
    each of gender, workArea, dietaryRequirements and hearAbout is the
    payload's free-text "Other" value when present, else the selected
    value when present, else the string "Other"; hackathonCount is
    [Number] of the payload field when [parseFloat] reads a number from
    it and [Number] of it is finite, and absent otherwise.  Whatever the
    field holds, the handler goes on to call [save] once with that
    applicant, and answers OK whenever the save goes through. *)
Theorem submitApplication_fields `{ApplicantStatusEnum} `{Js.Runtime} :
  forall (svc : ApplicantServiceInterface) (req : SubmitRequest)
         (w : World),
    let b := body req in
    let a := fst (ApplicationController.withCv req) in
    let file := snd (ApplicationController.withCv req) in
    let count := applicantHackathonCount b in
    let h := fst (ApplicationController.submitApplication svc req w) in
    otherElseSelected (applicantGenderOther b) (applicantGender b) (gender a)
    /\ otherElseSelected (applicantWorkAreaOther b) (applicantWorkArea b)
         (workArea a)
    /\ otherElseSelected (applicantDietaryRequirementsOther b)
         (applicantDietaryRequirements b) (dietaryRequirements a)
    /\ otherElseSelected (applicantHearAboutOther b) (applicantHearAbout b)
         (hearAbout a)
    /\ (Js.isNaN (Js.parseFloat count) = false
        /\ Js.finite (Js.Number count) = true ->
        hackathonCount a = Some (Js.Number count))
    /\ (~ (Js.isNaN (Js.parseFloat count) = false
           /\ Js.finite (Js.Number count) = true) ->
        hackathonCount a = None)
    /\ serviceCalls h = [CallSave a file]
    /\ (isFulfilled (fst (svcSave svc a file w)) = true ->
        response h = Send OK false "Application recieved!").
Proof.
  intros svc req w b a file count h.
  assert (G : gender a = gender (ApplicationController.newApplication req)
              /\ workArea a
                 = workArea (ApplicationController.newApplication req)
              /\ dietaryRequirements a
                 = dietaryRequirements (ApplicationController.newApplication req)
              /\ hearAbout a
                 = hearAbout (ApplicationController.newApplication req)
              /\ hackathonCount a
                 = hackathonCount (ApplicationController.newApplication req)).
  { rewrite <- (withCv_fields req). fold a. repeat split. }
  destruct G as (-> & -> & -> & -> & ->).
  repeat (split; [apply or_other_else_selected|]).
  simpl. unfold ApplicationController.isNumeric, Js.isFinite. fold b count.
  split; [|split; [|split]].
  - intros [P F]. rewrite P, F. reflexivity.
  - intro N.
    destruct (Js.isNaN (Js.parseFloat count)); [reflexivity|].
    destruct (Js.finite (Js.Number count)); [|reflexivity].
    exfalso. apply N. auto.
  - subst h. unfold ApplicationController.submitApplication.
    fold a file. destruct (ApplicationController.withCv req) as [a' f'].
    simpl. destruct (svcSave svc a' f' w) as [[r|e] w1]; reflexivity.
  - subst h. unfold ApplicationController.submitApplication.
    subst a file. destruct (ApplicationController.withCv req) as [a' f'].
    simpl. destruct (svcSave svc a' f' w) as [[r|e] w1]; simpl;
      [reflexivity|discriminate].
Qed.

(** The controller tests "using Other input options" and "with no Other
    input provided": the free text wins over the selection, and with
    neither the field reads "Other"; a count that is not a number is left
    out and the application is received all the same. *)
Example submitApplication_other_inputs :
  let run b :=
    fst (@ApplicationController.submitApplication Fixtures.statusNumbers
           Fixtures.digitsRuntime
           (Fixtures.mockService (Thrown (ErrorObject Fixtures.outage)) true)
           (mkSubmitRequest Fixtures.testUser b None) Fixtures.emptyWorld) in
  let built b := option_map workArea (application (run b)) in
  let count b := option_map hackathonCount (application (run b)) in
  let gendered b := option_map gender (application (run b)) in
  built (Fixtures.testBody (Js.VString "Other") (Js.VString "Test")
           (Js.VString "Other") (Js.VString "Testtt") (Js.VString "3"))
  = Some (Js.VString "Testtt")
  /\ gendered (Fixtures.testBody Js.VUndefined Js.VUndefined
                 (Js.VString "Other") (Js.VString "") (Js.VString "3"))
     = Some (Js.VString "Other")
  /\ count (Fixtures.testBody Js.VUndefined Js.VUndefined
              (Js.VString "Other") (Js.VString "") (Js.VString "3"))
     = Some (Some (Fixtures.num 3))
  /\ count (Fixtures.testBody Js.VUndefined Js.VUndefined
              (Js.VString "Other") (Js.VString "") (Js.VString ""))
     = Some None
  /\ response (run (Fixtures.testBody Js.VUndefined Js.VUndefined
                      (Js.VString "Other") (Js.VString "") (Js.VString "")))
     = Send OK false "Application recieved!".
Proof. repeat split; reflexivity. Qed.

Lemma submitApplication_fields_witness :
  (Js.isNaN (@Js.parseFloat Fixtures.digitsRuntime (Js.VString "3")) = false
   /\ Js.finite (@Js.Number Fixtures.digitsRuntime (Js.VString "3")) = true)
  /\ hackathonCount
       (fst (@ApplicationController.withCv Fixtures.statusNumbers
               Fixtures.digitsRuntime
               (mkSubmitRequest Fixtures.testUser
                  (Fixtures.testBody Js.VUndefined Js.VUndefined
                     (Js.VString "Other") (Js.VString "This")
                     (Js.VString "3"))
                  None)))
     = Some (Fixtures.num 3).
Proof.
  split; [split; reflexivity|].
  destruct (@submitApplication_fields Fixtures.statusNumbers
              Fixtures.digitsRuntime
              (Fixtures.mockService (Thrown (ErrorObject Fixtures.outage))
                 true)
              (mkSubmitRequest Fixtures.testUser
                 (Fixtures.testBody Js.VUndefined Js.VUndefined
                    (Js.VString "Other") (Js.VString "This")
                    (Js.VString "3"))
                 None)
              Fixtures.emptyWorld) as (_ & _ & _ & _ & C & _).
  apply C. split; reflexivity.
Defined.

(** ** Review recording *)

Lemma world_eta (w : World) :
  mkWorld (applicants w) (reviews w) (bucket w) (logged w) (journal w)
    (nextId w) (clock w) = w.
Proof. destruct w. reflexivity. Qed.

Lemma existsb_false_filter {A} (f : A -> bool) (l : list A) :
  existsb f l = false -> filter f l = [].
Proof.
  induction l as [|x l IH]; simpl; [reflexivity|].
  destruct (f x); simpl; [discriminate|exact IH].
Qed.

Lemma filter_nonempty_existsb {A} (f : A -> bool) (l : list A) :
  filter f l <> [] -> existsb f l = true.
Proof.
  intro N. destruct (existsb f l) eqn:E; [reflexivity|].
  now apply existsb_false_filter in E.
Qed.

Lemma samePair_eq (a r a' r' : string) (row : Review) :
  ReviewRecordingService.samePair a r row = true ->
  ReviewRecordingService.samePair a' r' row = true ->
  a' = a /\ r' = r.
Proof.
  unfold ReviewRecordingService.samePair.
  intros P Q.
  apply andb_true_iff in P as [P1 P2]. apply andb_true_iff in Q as [Q1 Q2].
  apply eqKey_eq in P1, Q1. apply String.eqb_eq in P2, Q2.
  split; congruence.
Qed.

Lemma submitReview_conflict (a r : string) (score : Js.number) (w : World) :
  ReviewRecordingService.reviewsOfPair a r w <> [] ->
  ReviewRecordingService.submitReview a r score w
  = (Thrown (ErrorObject ReviewRecordingService.ConflictError), w).
Proof.
  intro N. apply filter_nonempty_existsb in N.
  unfold ReviewRecordingService.submitReview, Transactional.
  rewrite N. now rewrite world_eta.
Qed.

Lemma submitReview_first (a r : string) (score : Js.number) (w : World) :
  ReviewRecordingService.reviewsOfPair a r w = [] ->
  let row := mkReview (uuid (nextId w)) (Some a) r score (clock w) in
  ReviewRecordingService.submitReview a r score w
  = (Fulfilled row, ReviewRecordingService.insertReview row w)
  /\ ReviewRecordingService.reviewsOfPair a r
       (ReviewRecordingService.insertReview row w) = [row].
Proof.
  intros E row.
  unfold ReviewRecordingService.submitReview, Transactional.
  destruct (existsb _ (reviews w)) eqn:X.
  - apply existsb_exists in X as (x & I & P).
    unfold ReviewRecordingService.reviewsOfPair in E.
    assert (J : In x (filter (ReviewRecordingService.samePair a r) (reviews w)))
      by (apply filter_In; auto).
    rewrite E in J. destruct J.
  - split; [reflexivity|].
    unfold ReviewRecordingService.reviewsOfPair in *. simpl.
    rewrite filter_app, E. simpl.
    unfold ReviewRecordingService.samePair. simpl.
    now rewrite !String.eqb_refl.
Qed.

Lemma submitReview_preserves (a r : string) (score : Js.number) (w : World) :
  onePerPair w ->
  onePerPair (snd (ReviewRecordingService.submitReview a r score w)).
Proof.
  intros Inv a' r'.
  destruct (ReviewRecordingService.reviewsOfPair a r w) as [|x xs] eqn:E.
  - destruct (submitReview_first a r score w E) as [-> R]. simpl.
    unfold ReviewRecordingService.reviewsOfPair in *. simpl.
    rewrite filter_app, length_app. simpl.
    destruct (ReviewRecordingService.samePair a' r' _) eqn:P.
    + assert (Q : ReviewRecordingService.samePair a r
                    (mkReview (uuid (nextId w)) (Some a) r score (clock w))
                  = true).
      { unfold ReviewRecordingService.samePair. simpl.
        now rewrite !String.eqb_refl. }
      destruct (samePair_eq a r a' r' _ Q P) as [-> ->].
      rewrite E. simpl. lia.
    + simpl. specialize (Inv a' r').
      unfold ReviewRecordingService.reviewsOfPair in Inv. lia.
  - rewrite submitReview_conflict by (rewrite E; discriminate).
    simpl. apply Inv.
Qed.

Lemma submitAll_preserves (subs : list ReviewRecordingService.Submission)
  (w : World) :
  onePerPair w -> onePerPair (ReviewRecordingService.submitAll subs w).
Proof.
  revert w. induction subs as [|s subs IH]; intros w Inv; simpl.
  - exact Inv.
  - apply IH. now apply submitReview_preserves.
Qed.

(** C3.  Start from tables with at most one review per (reviewer,
    applicant) pair, the empty table for one, and let any history of
    submissions run.  There is still at most one review per pair.  A
    submission for a pair that has a review is rejected with a
    ConflictError and changes nothing, so that exactly one row is stored
    for the pair; a submission for a pair without one is stored, and the
    pair then has exactly one row. *)
Theorem review_pair_unique :
  forall (w : World) (subs : list ReviewRecordingService.Submission),
    onePerPair w ->
    let w' := ReviewRecordingService.submitAll subs w in
    onePerPair w'
    /\ forall (applicant reviewer : string) (score : Js.number),
         (ReviewRecordingService.reviewsOfPair applicant reviewer w' <> [] ->
          ReviewRecordingService.submitReview applicant reviewer score w'
          = (Thrown (ErrorObject ReviewRecordingService.ConflictError), w')
          /\ List.length
               (ReviewRecordingService.reviewsOfPair applicant reviewer w')
             = 1%nat)
         /\ (ReviewRecordingService.reviewsOfPair applicant reviewer w' = [] ->
             exists row w'',
               ReviewRecordingService.submitReview applicant reviewer score w'
               = (Fulfilled row, w'')
               /\ ReviewRecordingService.reviewsOfPair applicant reviewer w''
                  = [row]
               /\ forall score',
                    ReviewRecordingService.submitReview applicant reviewer
                      score' w''
                    = (Thrown (ErrorObject ReviewRecordingService.ConflictError),
                       w'')).
Proof.
  intros w subs Inv w'.
  assert (Inv' : onePerPair w') by now apply submitAll_preserves.
  split; [exact Inv'|].
  intros a r score. split.
  - intro N. split; [now apply submitReview_conflict|].
    specialize (Inv' a r).
    destruct (ReviewRecordingService.reviewsOfPair a r w') as [|x xs];
      [contradiction|]. simpl in *. lia.
  - intro E. destruct (submitReview_first a r score w' E) as [S R].
    eexists. eexists. split; [exact S|]. split; [exact R|].
    intro score'. apply submitReview_conflict. rewrite R. discriminate.
Qed.

Lemma review_pair_unique_witness :
  onePerPair Fixtures.emptyWorld
  /\ onePerPair
       (ReviewRecordingService.submitAll
          [("a1", "rev1", Fixtures.num 2); ("a1", "rev1", Fixtures.num 4);
           ("a1", "rev2", Fixtures.num 3)]
          Fixtures.emptyWorld).
Proof.
  assert (E : onePerPair Fixtures.emptyWorld).
  { intros a r. simpl. apply Nat.le_0_l. }
  split; [exact E|].
  exact (proj1 (review_pair_unique Fixtures.emptyWorld
                  [("a1", "rev1", Fixtures.num 2);
                   ("a1", "rev1", Fixtures.num 4);
                   ("a1", "rev2", Fixtures.num 3)] E)).
Defined.

(** Scenario F of the spec: a reviewer submits twice for the same
    applicant; the second submission is a conflict and one row is
    stored for the pair. *)
Example review_scenario_F :
  let w1 := snd (ReviewRecordingService.submitReview "a1" "rev1"
                   (Fixtures.num 2) Fixtures.emptyWorld) in
  fst (ReviewRecordingService.submitReview "a1" "rev1" (Fixtures.num 4) w1)
  = Thrown (ErrorObject ReviewRecordingService.ConflictError)
  /\ List.length
       (ReviewRecordingService.reviewsOfPair "a1" "rev1"
          (snd (ReviewRecordingService.submitReview "a1" "rev1"
                  (Fixtures.num 4) w1)))
     = 1%nat.
Proof. split; reflexivity. Qed.

(* ================================================================== *)
(** * Further properties of the service *)
(* ================================================================== *)

(** ** findOne *)

(** X1.  [findOne] searches by id unless told otherwise.  When the
    repository answers and some row matches, it resolves with the first
    such row, which is a stored applicant carrying the key in the column
    searched; nothing is logged and the tables are as they were. *)
Theorem findOne_resolves_with_match `{Infrastructure} :
  forall (key : string) (findBy : option Column) (w : World) (a : Applicant),
    let col := match findBy with Some c => c | None => ColId end in
    faults (RepoFindOne col key) = None ->
    find (matches col key) (applicants w) = Some a ->
    exists w',
      ApplicantService.findOne key findBy w = (Fulfilled a, w')
      /\ In a (applicants w)
      /\ matches col key a = true
      /\ applicants w' = applicants w
      /\ reviews w' = reviews w
      /\ logged w' = logged w.
Proof.
  intros key findBy w a col F M. run_service. fold col.
  rewrite F. simpl. rewrite M. simpl.
  eexists. split; [reflexivity|].
  apply find_some in M as [I P]. simpl. auto.
Qed.

Lemma findOne_resolves_with_match_witness :
  @faults Fixtures.reliable (RepoFindOne ColAuthId "auth-a2") = None
  /\ find (matches ColAuthId "auth-a2")
       (applicants
          (Fixtures.world [Fixtures.stored "a1" 0 10 None;
                           Fixtures.stored "a2" 1 20 None] []))
     = Some (Fixtures.stored "a2" 1 20 None)
  /\ exists w',
      @ApplicantService.findOne Fixtures.reliable "auth-a2" (Some ColAuthId)
        (Fixtures.world [Fixtures.stored "a1" 0 10 None;
                         Fixtures.stored "a2" 1 20 None] [])
      = (Fulfilled (Fixtures.stored "a2" 1 20 None), w')
      /\ In (Fixtures.stored "a2" 1 20 None)
           (applicants
              (Fixtures.world [Fixtures.stored "a1" 0 10 None;
                               Fixtures.stored "a2" 1 20 None] []))
      /\ matches ColAuthId "auth-a2" (Fixtures.stored "a2" 1 20 None) = true
      /\ applicants w'
         = applicants
             (Fixtures.world [Fixtures.stored "a1" 0 10 None;
                              Fixtures.stored "a2" 1 20 None] [])
      /\ reviews w'
         = reviews
             (Fixtures.world [Fixtures.stored "a1" 0 10 None;
                              Fixtures.stored "a2" 1 20 None] [])
      /\ logged w'
         = logged
             (Fixtures.world [Fixtures.stored "a1" 0 10 None;
                              Fixtures.stored "a2" 1 20 None] []).
Proof.
  split; [reflexivity|]. split; [reflexivity|].
  apply (@findOne_resolves_with_match Fixtures.reliable "auth-a2"
           (Some ColAuthId)
           (Fixtures.world [Fixtures.stored "a1" 0 10 None;
                            Fixtures.stored "a2" 1 20 None] [])
           (Fixtures.stored "a2" 1 20 None));
    reflexivity.
Defined.

(** X2.  Whenever [findOne] rejects, it rejects with an [Error] whose
    message is "Failed to find an applicant:", a line break, and the
    message of the cause; the cause is the repository's own error, or
    "Applicant does not exist" when the repository answered and no row
    matched.  The cause is logged once, at level info, and the tables are
    as they were. *)
Theorem findOne_rejection `{Infrastructure} :
  forall (key : string) (findBy : option Column) (w w' : World)
         (err : Exception),
    let col := match findBy with Some c => c | None => ColId end in
    ApplicantService.findOne key findBy w = (Thrown err, w') ->
    exists cause,
      err = ErrorObject
              (newError ("Failed to find an applicant:" ++ nl
                         ++ message cause)%string)
      /\ logged w' = logged w ++ [mkLogEntry LevelInfo (ErrorObject cause) ""]
      /\ applicants w' = applicants w
      /\ reviews w' = reviews w
      /\ (faults (RepoFindOne col key) = Some cause
          \/ (faults (RepoFindOne col key) = None
              /\ find (matches col key) (applicants w) = None
              /\ cause = newError "Applicant does not exist")).
Proof.
  intros key findBy w w' err col. run_service. fold col.
  destruct (faults (RepoFindOne col key)) as [e|] eqn:F; simpl.
  - intro E. injection E as <- <-. exists e. simpl. auto 6.
  - destruct (find (matches col key) (applicants w)) eqn:M; simpl;
      intro E; [discriminate|].
    injection E as <- <-. exists (newError "Applicant does not exist").
    simpl. split; [reflexivity|]. auto 8.
Qed.

Lemma findOne_rejection_witness :
  exists cause,
    ErrorObject
      (newError ("Failed to find an applicant:" ++ nl
                 ++ "Applicant does not exist")%string)
    = ErrorObject
        (newError ("Failed to find an applicant:" ++ nl
                   ++ message cause)%string)
    /\ cause = newError "Applicant does not exist".
Proof.
  destruct (@findOne_rejection Fixtures.reliable "zz" None
              (Fixtures.world [Fixtures.stored "a1" 0 10 None] [])
              (snd (@ApplicantService.findOne Fixtures.reliable "zz" None
                      (Fixtures.world [Fixtures.stored "a1" 0 10 None] [])))
              (ErrorObject
                 (newError ("Failed to find an applicant:" ++ nl
                            ++ "Applicant does not exist")%string))
              eq_refl)
    as (cause & E & _ & _ & _ & [F | (_ & _ & C)]).
  - discriminate F.
  - exists cause. split; [exact E | exact C].
Defined.

(** ** save, further *)

(** What a fulfilled [save] has done: the applicant was well formed, the
    repository accepted the write, and the result and the final world are
    those of a write to a world that differs from the initial one in the
    journal and, after an upload, in object storage. *)
Lemma save_fulfilled_inv `{ApplicantSchema} `{Infrastructure}
  (a : Applicant) (file : option Buffer) (w w' : World) (row : Applicant) :
  ApplicantService.save a file w = (Fulfilled row, w') ->
  validate a = []
  /\ faults (RepoSave a) = None
  /\ exists w0,
      row = fst (Repository.persist a w0)
      /\ w' = snd (Repository.persist a w0)
      /\ applicants w0 = applicants w
      /\ reviews w0 = reviews w
      /\ nextId w0 = nextId w
      /\ clock w0 = clock w
      /\ match ApplicantService.cvToUpload a file with
         | Some (k, d) =>
             faults (CloudUpload k d) = None
             /\ bucket w0 = (k, d) :: CloudStorageService.dropKey k (bucket w)
             /\ journal w0 = journal w ++ [CloudUpload k d; RepoSave a]
         | None =>
             bucket w0 = bucket w
             /\ journal w0 = journal w ++ [RepoSave a]
         end.
Proof.
  run_service.
  destruct (validate a) as [|v vs]; simpl; [|discriminate].
  destruct (ApplicantService.cvToUpload a file) as [[k d]|]; simpl.
  - destruct (faults (CloudUpload k d)); simpl; [discriminate|].
    destruct (faults (RepoSave a)); simpl; [discriminate|].
    intro E. injection E as <- <-.
    split; [reflexivity|]. split; [reflexivity|].
    eexists. split; [reflexivity|]. split; [reflexivity|]. simpl.
    rewrite <- app_assoc. auto 8.
  - destruct (faults (RepoSave a)); simpl; [discriminate|].
    intro E. injection E as <- <-.
    split; [reflexivity|]. split; [reflexivity|].
    eexists. split; [reflexivity|]. split; [reflexivity|]. simpl. auto 8.
Qed.

(** X3.  Whenever [save] rejects, the tables are as they were, and the
    error is one of exactly three: "Failed to validate applicant" for an
    applicant with violations, "Failed to save applicant CV" for an upload
    that failed, or "Failed to save applicant:", a line break and the
    repository's message for a write that failed.  The array of reports
    is never what [save] rejects with. *)
Theorem save_rejection `{ApplicantSchema} `{Infrastructure} :
  forall (a : Applicant) (file : option Buffer) (w w' : World)
         (err : Exception),
    ApplicantService.save a file w = (Thrown err, w') ->
    applicants w' = applicants w
    /\ reviews w' = reviews w
    /\ reports err = []
    /\ ((validate a <> []
         /\ err = ErrorObject (newError "Failed to validate applicant"))
        \/ (exists k d e,
              ApplicantService.cvToUpload a file = Some (k, d)
              /\ faults (CloudUpload k d) = Some e
              /\ err = ErrorObject (newError "Failed to save applicant CV"))
        \/ (exists e,
              faults (RepoSave a) = Some e
              /\ err = ErrorObject
                         (newError ("Failed to save applicant:" ++ nl
                                    ++ message e)%string))).
Proof.
  intros a file w w' err. run_service.
  destruct (validate a) as [|v vs] eqn:V; simpl.
  - destruct (ApplicantService.cvToUpload a file) as [[k d]|] eqn:U; simpl.
    + destruct (faults (CloudUpload k d)) as [e|] eqn:FU; simpl.
      * intro E. injection E as <- <-. simpl.
        repeat (split; [reflexivity|]). right. left. exists k, d, e. auto.
      * destruct (faults (RepoSave a)) as [e|] eqn:FS; simpl;
          intro E; [|discriminate].
        injection E as <- <-. simpl.
        repeat (split; [reflexivity|]). right. right. exists e. auto.
    + destruct (faults (RepoSave a)) as [e|] eqn:FS; simpl;
        intro E; [|discriminate].
      injection E as <- <-. simpl.
      repeat (split; [reflexivity|]). right. right. exists e. auto.
  - intro E. injection E as <- <-. simpl.
    repeat (split; [reflexivity|]). left. split; [discriminate|reflexivity].
Qed.

Lemma save_rejection_witness :
  applicants
    (snd (@ApplicantService.save Fixtures.nonNegativeSchema
            Fixtures.persistDown (Fixtures.fresh 0 None) None
            (Fixtures.world [Fixtures.stored "a1" 0 10 None] [])))
  = [Fixtures.stored "a1" 0 10 None]
  /\ reports
       (ErrorObject
          (newError ("Failed to save applicant:" ++ nl
                     ++ "connection refused")%string))
     = [].
Proof.
  destruct (@save_rejection Fixtures.nonNegativeSchema Fixtures.persistDown
              (Fixtures.fresh 0 None) None
              (Fixtures.world [Fixtures.stored "a1" 0 10 None] [])
              (snd (@ApplicantService.save Fixtures.nonNegativeSchema
                      Fixtures.persistDown (Fixtures.fresh 0 None) None
                      (Fixtures.world [Fixtures.stored "a1" 0 10 None] [])))
              (ErrorObject
                 (newError ("Failed to save applicant:" ++ nl
                            ++ "connection refused")%string))
              eq_refl) as (A & _ & R & _).
  split; [exact A | exact R].
Defined.

(** X4.  When the upload goes through and the write of the record then
    fails, [save] rejects and the record is not stored, but the blob
    stays in object storage under its key: the rollback of the
    transaction does not reach the upload. *)
Theorem save_failed_write_leaves_blob `{ApplicantSchema} `{Infrastructure} :
  forall (a : Applicant) (file : option Buffer) (k : string) (d : Buffer)
         (e : Error) (w : World),
    validate a = [] ->
    ApplicantService.cvToUpload a file = Some (k, d) ->
    faults (CloudUpload k d) = None ->
    faults (RepoSave a) = Some e ->
    exists w',
      ApplicantService.save a file w
      = (Thrown (ErrorObject
                   (newError ("Failed to save applicant:" ++ nl
                              ++ message e)%string)), w')
      /\ In (k, d) (bucket w')
      /\ applicants w' = applicants w
      /\ journal w' = journal w ++ [CloudUpload k d; RepoSave a].
Proof.
  intros a file k d e w V U FU FS. run_service.
  rewrite V, U. simpl. rewrite FU. simpl. rewrite FS. simpl.
  eexists. split; [reflexivity|]. simpl. rewrite <- app_assoc. auto.
Qed.

Lemma save_failed_write_leaves_blob_witness :
  @validate Fixtures.nonNegativeSchema (Fixtures.fresh 0 (Some "u.txt")) = []
  /\ ApplicantService.cvToUpload (Fixtures.fresh 0 (Some "u.txt"))
       (Some Fixtures.someBytes)
     = Some ("u.txt", Fixtures.someBytes)
  /\ @faults Fixtures.persistDown (CloudUpload "u.txt" Fixtures.someBytes)
     = None
  /\ @faults Fixtures.persistDown (RepoSave (Fixtures.fresh 0 (Some "u.txt")))
     = Some Fixtures.outage
  /\ exists w',
      @ApplicantService.save Fixtures.nonNegativeSchema Fixtures.persistDown
        (Fixtures.fresh 0 (Some "u.txt")) (Some Fixtures.someBytes)
        Fixtures.emptyWorld
      = (Thrown (ErrorObject
                   (newError ("Failed to save applicant:" ++ nl
                              ++ message Fixtures.outage)%string)), w')
      /\ In ("u.txt", Fixtures.someBytes) (bucket w')
      /\ applicants w' = applicants Fixtures.emptyWorld
      /\ journal w'
         = journal Fixtures.emptyWorld
           ++ [CloudUpload "u.txt" Fixtures.someBytes;
               RepoSave (Fixtures.fresh 0 (Some "u.txt"))].
Proof.
  repeat (split; [reflexivity|]).
  apply (@save_failed_write_leaves_blob Fixtures.nonNegativeSchema
           Fixtures.persistDown (Fixtures.fresh 0 (Some "u.txt"))
           (Some Fixtures.someBytes) "u.txt" Fixtures.someBytes
           Fixtures.outage Fixtures.emptyWorld);
    reflexivity.
Defined.



Lemma find_map_replace (i : string) (a : Applicant) (rows : list Applicant) :
  hasId i a = true ->
  existsb (hasId i) rows = true ->
  find (hasId i) (map (fun r => if hasId i r then a else r) rows) = Some a.
Proof.
  intros A. induction rows as [|r rows IH]; simpl; [discriminate|].
  destruct (hasId i r) eqn:R; simpl.
  - now rewrite A.
  - now rewrite R.
Qed.




Lemma findOne_by_id_found `{Infrastructure}
  (i : string) (w : World) (a : Applicant) :
  faults (RepoFindOne ColId i) = None ->
  find (hasId i) (applicants w) = Some a ->
  ApplicantService.findOne i None w
  = (Fulfilled a, record (RepoFindOne ColId i) w).
Proof.
  intros F M. run_service. rewrite F. cbv beta iota.
  change (applicants (record (RepoFindOne ColId i) w)) with (applicants w).
  change (matches ColId i) with (hasId i). rewrite M. reflexivity.
Qed.



(** ** delete, further *)

Lemma delete_fulfilled_inv `{Infrastructure}
  (key : string) (w w' : World) (r : DeleteResult) :
  ApplicantService.delete key w = (Fulfilled r, w') ->
  (exists a, find (hasId key) (applicants w) = Some a)
  /\ r = mkDeleteResult (List.length (filter (hasId key) (applicants w)))
  /\ applicants w' = filter (fun x => negb (hasId key x)) (applicants w)
  /\ reviews w' = reviews w.
Proof.
  run_service.
  destruct (faults (RepoFindOneOrFail key)); simpl; [discriminate|].
  destruct (find (hasId key) (applicants w)) as [a|]; simpl; [|discriminate].
  destruct (Js.truthy (Js.ofOptString (cv a))); simpl.
  - destruct (cv a) as [k|]; simpl.
    + destruct (faults (CloudDelete k)); simpl;
        destruct (faults (RepoDelete key)); simpl; try discriminate;
        intro E; injection E as <- <-; simpl; eauto.
    + destruct (faults (RepoDelete key)); simpl; try discriminate;
        intro E; injection E as <- <-; simpl; eauto.
  - destruct (faults (RepoDelete key)); simpl; try discriminate;
      intro E; injection E as <- <-; simpl; eauto.
Qed.

(** X7.  A fulfilled [delete] has removed exactly the rows with the id:
    the table afterwards holds the other rows and only them, the reviews
    are as they were, and the result counts the rows removed, of which
    there is at least one. *)
Theorem delete_removes_exactly `{Infrastructure} :
  forall (key : string) (w w' : World) (r : DeleteResult),
    ApplicantService.delete key w = (Fulfilled r, w') ->
    (forall x, In x (applicants w')
               <-> In x (applicants w) /\ hasId key x = false)
    /\ (1 <= affected r)%nat
    /\ (affected r + List.length (applicants w')
        = List.length (applicants w))%nat
    /\ reviews w' = reviews w.
Proof.
  intros key w w' r D.
  destruct (delete_fulfilled_inv key w w' r D) as ((a & F) & -> & A & R).
  split; [|split; [|split]].
  - intro x. rewrite A, filter_In. now rewrite negb_true_iff.
  - simpl. apply find_some in F as [I P].
    assert (J : In a (filter (hasId key) (applicants w)))
      by (apply filter_In; auto).
    destruct (filter (hasId key) (applicants w)); [destruct J|simpl; lia].
  - rewrite A. simpl. clear.
    induction (applicants w) as [|x l IH]; simpl; [reflexivity|].
    destruct (hasId key x); simpl; lia.
  - exact R.
Qed.

Lemma delete_removes_exactly_witness :
  (1 <= affected (mkDeleteResult 1))%nat
  /\ (affected (mkDeleteResult 1)
      + List.length
          (applicants
             (snd (@ApplicantService.delete Fixtures.reliable "a1"
                     (Fixtures.world [Fixtures.stored "a1" 0 10 None;
                                      Fixtures.stored "a2" 0 20 None] []))))
      = List.length
          (applicants
             (Fixtures.world [Fixtures.stored "a1" 0 10 None;
                              Fixtures.stored "a2" 0 20 None] [])))%nat.
Proof.
  destruct (@delete_removes_exactly Fixtures.reliable "a1"
              (Fixtures.world [Fixtures.stored "a1" 0 10 None;
                               Fixtures.stored "a2" 0 20 None] [])
              (snd (@ApplicantService.delete Fixtures.reliable "a1"
                      (Fixtures.world [Fixtures.stored "a1" 0 10 None;
                                       Fixtures.stored "a2" 0 20 None] [])))
              (mkDeleteResult 1) eq_refl) as (_ & L & S & _).
  split; [exact L | exact S].
Defined.

Lemma find_filter_negb {A} (f : A -> bool) (l : list A) :
  find f (filter (fun x => negb (f x)) l) = None.
Proof.
  induction l as [|x l IH]; simpl; [reflexivity|].
  destruct (f x) eqn:F; simpl; [exact IH|]. now rewrite F.
Qed.

(** X8.  Delete, then look up.  Once [delete] has been fulfilled for an
    id, [findOne] by that id rejects, and a second [delete] of the id
    rejects with "Failed to find applicant using the provided ID". *)
Theorem delete_then_gone `{Infrastructure} :
  forall (key : string) (w w' : World) (r : DeleteResult),
    ApplicantService.delete key w = (Fulfilled r, w') ->
    isFulfilled (fst (ApplicantService.findOne key None w')) = false
    /\ fst (ApplicantService.delete key w')
       = Thrown (ErrorObject
                   (newError "Failed to find applicant using the provided ID")).
Proof.
  intros key w w' r D.
  destruct (delete_fulfilled_inv key w w' r D) as (_ & _ & A & _).
  assert (N : find (hasId key) (applicants w') = None)
    by (rewrite A; apply find_filter_negb).
  split.
  - run_service. destruct (faults (RepoFindOne ColId key)); cbv beta iota.
    + reflexivity.
    + change (applicants (record (RepoFindOne ColId key) w'))
        with (applicants w').
      change (matches ColId key) with (hasId key). rewrite N. reflexivity.
  - now rewrite (delete_absent key w' N).
Qed.

Lemma delete_then_gone_witness :
  isFulfilled
    (fst (@ApplicantService.findOne Fixtures.reliable "a1" None
            (snd (@ApplicantService.delete Fixtures.reliable "a1"
                    (Fixtures.world
                       [Fixtures.stored "a1" 0 10 (Some "cv.pdf")] [])))))
  = false
  /\ fst (@ApplicantService.delete Fixtures.reliable "a1"
            (snd (@ApplicantService.delete Fixtures.reliable "a1"
                    (Fixtures.world
                       [Fixtures.stored "a1" 0 10 (Some "cv.pdf")] []))))
     = Thrown (ErrorObject
                 (newError "Failed to find applicant using the provided ID")).
Proof.
  exact (@delete_then_gone Fixtures.reliable "a1"
           (Fixtures.world [Fixtures.stored "a1" 0 10 (Some "cv.pdf")] [])
           (snd (@ApplicantService.delete Fixtures.reliable "a1"
                   (Fixtures.world
                      [Fixtures.stored "a1" 0 10 (Some "cv.pdf")] [])))
           (mkDeleteResult 1) eq_refl).
Defined.

(** X9.  The external calls of [delete], in order.  The lookup comes
    first.  A blob deletion is attempted only for the key of the applicant
    found, and only when that key is a non-empty string; and whether or
    not it fails, the deletion of the row is attempted after it. *)
Theorem delete_call_order `{Infrastructure} :
  forall (key : string) (w : World),
  exists calls,
    journal (snd (ApplicantService.delete key w))
    = journal w ++ RepoFindOneOrFail key :: calls
    /\ (forall k, In (CloudDelete k) calls ->
          exists a,
            find (hasId key) (applicants w) = Some a
            /\ cv a = Some k
            /\ k <> EmptyString
            /\ calls = [CloudDelete k; RepoDelete key])
    /\ (forall a, find (hasId key) (applicants w) = Some a ->
                  faults (RepoFindOneOrFail key) = None ->
                  Js.truthy (Js.ofOptString (cv a)) = false ->
                  calls = [RepoDelete key]).
Proof.
  intros key w. run_service.
  destruct (faults (RepoFindOneOrFail key)) as [e|]; simpl.
  { exists []. split; [reflexivity|]. split; [intros k []|discriminate]. }
  destruct (find (hasId key) (applicants w)) as [a|]; simpl.
  2:{ exists []. split; [reflexivity|]. split; [intros k []|discriminate]. }
  destruct (cv a) as [k|] eqn:C; simpl.
  - destruct (String.eqb k EmptyString) eqn:Q; simpl.
    + exists [RepoDelete key]. split.
      * destruct (faults (RepoDelete key)); simpl; now rewrite <- app_assoc.
      * split; [intros k' [I|[]]; discriminate|]. reflexivity.
    + exists [CloudDelete k; RepoDelete key]. split.
      * destruct (faults (CloudDelete k)); simpl;
          destruct (faults (RepoDelete key)); simpl;
          now rewrite <- !app_assoc.
      * split.
        { intros k' [I|[I|[]]]; [|discriminate]. injection I as <-.
          exists a. repeat split; auto. intros ->. discriminate. }
        intros a' E _ T. injection E as <-. rewrite C in T. simpl in T.
        rewrite Q in T. discriminate.
  - exists [RepoDelete key]. split.
    + destruct (faults (RepoDelete key)); simpl; now rewrite <- app_assoc.
    + split; [intros k' [I|[]]; discriminate|]. reflexivity.
Qed.

(** ** The assignment query, further *)

Lemma in_false_intro (x : string) (l : list (option string)) :
  ~ In (Some x) l -> ~ In None l -> Sql.in_ x l = Sql.FALSE.
Proof.
  induction l as [|[y|] l IH]; simpl; intros S N.
  - reflexivity.
  - destruct (String.eqb x y) eqn:Q.
    + apply String.eqb_eq in Q. subst. exfalso. apply S. now left.
    + apply IH; intro I; [apply S | apply N]; now right.
  - exfalso. apply N. now left.
Qed.

Lemma reviewedTwice_sound (k : option string) (rs : list Review) :
  In k (Repository.reviewedTwice rs) ->
  exists i, k = Some i /\ (2 <= reviewCount i rs)%nat.
Proof.
  unfold Repository.reviewedTwice. intro I.
  apply filter_In in I as [_ C]. apply Nat.leb_le in C.
  destruct k as [i|]; [|simpl in C; lia].
  exists i. split; [reflexivity|]. now rewrite <- count_reviewCount.
Qed.

Lemma reviewedBy_sound (k : option string) (reviewer : string)
  (rs : list Review) :
  In k (Repository.reviewedBy reviewer rs) ->
  exists r, In r rs /\ createdByAuthID r = reviewer /\ applicantId r = k.
Proof.
  unfold Repository.reviewedBy. intro I.
  apply in_map_iff in I as (r & E & I).
  apply filter_In in I as [I C]. apply String.eqb_eq in C. eauto.
Qed.

Lemma eligible_where_keeps `{ApplicantStatusEnum} (reviewer : string)
  (rs : list Review) (a : Applicant) :
  (forall r, In r rs -> createdByAuthID r = reviewer ->
             applicantId r <> None) ->
  eligible reviewer rs a ->
  Sql.keeps (Repository.toReviewWhere reviewer rs a) = true.
Proof.
  intros NN (S & i & I & C & R).
  unfold Repository.toReviewWhere, Sql.notIn. rewrite I.
  rewrite (in_false_intro i (Repository.reviewedTwice rs)).
  - rewrite (in_false_intro i (Repository.reviewedBy reviewer rs)).
    + rewrite S, Z.eqb_refl. reflexivity.
    + intro J. apply reviewedBy_sound in J as (r & J & B & E).
      apply R. exists r. auto.
    + intro J. apply reviewedBy_sound in J as (r & J & B & E).
      now apply (NN r J B).
  - intro J. apply reviewedTwice_sound in J as (j & E & G).
    injection E as <-. lia.
  - intro J. apply reviewedTwice_sound in J as (j & E & _). discriminate.
Qed.

Lemma sorted_app_le {A} (R : A -> A -> Prop) (l1 l2 : list A) :
  StronglySorted R (l1 ++ l2) ->
  forall x y, In x l1 -> In y l2 -> R x y.
Proof.
  induction l1 as [|a l1 IH]; simpl; intros S x y X Y; [destruct X|].
  apply StronglySorted_inv in S as [S F].
  destruct X as [<-|X].
  - rewrite Forall_forall in F. apply F, in_or_app. now right.
  - now apply IH.
Qed.

(** X10.  The batch is the oldest part of what is eligible.  When the
    query goes through, the number asked for being one the database does
    not refuse, and no review of this reviewer lacks its applicant, every
    stored applicant that meets the three eligibility conditions is in
    the batch, unless the batch is full, as many applicants as the limit
    in force, none of them created later than the one left out. *)
Theorem getKRandomToReview_oldest_eligible `{ApplicantStatusEnum}
  `{Infrastructure} `{QueryDialect} :
  forall (reviewerID : string) (chooseFromK : option Js.number) (w : World),
    let k := match chooseFromK with Some k => k | None => Js.ofNat 5 end in
    faults (RepoGetMany reviewerID k) = None ->
    (forall e, Repository.limitOf k <> Refuses e) ->
    (forall r, In r (reviews w) -> createdByAuthID r = reviewerID ->
               applicantId r <> None) ->
    exists batch w',
      ApplicantService.getKRandomToReview reviewerID chooseFromK w
      = (Fulfilled batch, w')
      /\ forall a,
           In a (applicants w) -> eligible reviewerID (reviews w) a ->
           In a batch
           \/ (Repository.limitOf k = ReadsAs (Some (List.length batch))
               /\ (forall n, Js.safeCount k = Some n ->
                             List.length batch = n)
               /\ forall b, In b batch -> (createdAt b <= createdAt a)%Z).
Proof.
  intros reviewerID chooseFromK w k F NR NN.
  unfold ApplicantService.getKRandomToReview, Transactional, tryCatch,
    Repository.getManyToReview, bind, invoke.
  change (match chooseFromK with
          | Some k => k
          | None => ApplicantService.defaultChooseFromK
          end) with k.
  rewrite F. simpl.
  destruct (Repository.limitOf k) as [e|limit] eqn:L;
    [now destruct (NR e)|]. simpl.
  eexists. eexists. split; [reflexivity|].
  intros a I E. unfold Repository.selectToReview. simpl.
  set (kept := filter _ (applicants w)).
  set (sorted := Sql.orderByAsc createdAt kept).
  assert (K : In a sorted).
  { eapply Permutation_in; [apply orderByAsc_perm|].
    apply filter_In. split; [exact I|]. now apply eligible_where_keeps. }
  destruct limit as [n|]; [|now left].
  rewrite <- (firstn_skipn n sorted) in K.
  apply in_app_or in K as [K|K]; [now left|]. right.
  assert (Full : List.length (firstn n sorted) = n).
  { apply firstn_length_le.
    destruct (Nat.le_gt_cases n (List.length sorted)) as [Le|G]; [exact Le|].
    rewrite skipn_all2 in K by lia. destruct K. }
  split; [now rewrite Full|]. split.
  - intros m Sc. rewrite (limitOf_count k m Sc) in L.
    injection L as <-. exact Full.
  - intros b B.
    apply (sorted_app_le (fun x y => (createdAt x <= createdAt y)%Z)
             (firstn n sorted) (skipn n sorted)); auto.
    rewrite firstn_skipn. apply (orderByAsc_sorted createdAt).
Qed.

Lemma getKRandomToReview_oldest_eligible_witness :
  exists batch w',
    @ApplicantService.getKRandomToReview Fixtures.statusNumbers
      Fixtures.reliable Fixtures.strictDialect "rev1" (Some (Js.ofNat 1))
      (Fixtures.world [Fixtures.stored "a1" 0 30 None;
                       Fixtures.stored "a2" 0 20 None]
         [Fixtures.review "r1" "a1" "rev1"])
    = (Fulfilled batch, w')
    /\ forall a,
         In a [Fixtures.stored "a1" 0 30 None;
               Fixtures.stored "a2" 0 20 None] ->
         @eligible Fixtures.statusNumbers "rev1"
           [Fixtures.review "r1" "a1" "rev1"] a ->
         In a batch
         \/ (@Repository.limitOf Fixtures.strictDialect (Js.ofNat 1)
             = ReadsAs (Some (List.length batch))
             /\ (forall n, Js.safeCount (Js.ofNat 1) = Some n ->
                           List.length batch = n)
             /\ forall b, In b batch -> (createdAt b <= createdAt a)%Z).
Proof.
  apply (@getKRandomToReview_oldest_eligible Fixtures.statusNumbers
           Fixtures.reliable Fixtures.strictDialect "rev1"
           (Some (Js.ofNat 1))
           (Fixtures.world [Fixtures.stored "a1" 0 30 None;
                            Fixtures.stored "a2" 0 20 None]
              [Fixtures.review "r1" "a1" "rev1"])).
  - reflexivity.
  - apply limitOf_zero_or_count_runs. right. exists 1%nat. reflexivity.
  - intros r [<-|[]] _. discriminate.
Defined.

Lemma distinct_ids_filter (keep : Applicant -> bool)
  (rows : list Applicant) :
  NoDup (map id rows) -> NoDup (map id (filter keep rows)).
Proof.
  intro D. induction rows as [|r rows IH]; simpl in *; [exact D|].
  inversion D as [|i ids Fresh D' E]; subst.
  destruct (keep r); simpl; [|now apply IH].
  constructor; [|now apply IH].
  intro I. apply Fresh. apply in_map_iff in I as (r' & E & I).
  apply filter_In in I as [I _]. rewrite <- E. now apply in_map.
Qed.

Lemma NoDup_firstn {A} (n : nat) (l : list A) :
  NoDup l -> NoDup (firstn n l).
Proof.
  intro N. rewrite <- (firstn_skipn n l) in N.
  now apply NoDup_app_remove_r in N.
Qed.

(** X11.  No applicant is offered twice: when the ids in the applicant
    table are distinct, so are the ids in the batch. *)
Theorem getKRandomToReview_distinct `{ApplicantStatusEnum}
  `{Infrastructure} `{QueryDialect} :
  forall (reviewerID : string) (chooseFromK : option Js.number) (w : World),
    NoDup (map id (applicants w)) ->
    exists batch w',
      ApplicantService.getKRandomToReview reviewerID chooseFromK w
      = (Fulfilled batch, w')
      /\ NoDup (map id batch).
Proof.
  intros reviewerID chooseFromK w N.
  unfold ApplicantService.getKRandomToReview, Transactional, tryCatch,
    Repository.getManyToReview, bind, invoke.
  destruct (faults _); simpl.
  { eexists. eexists. split; [reflexivity|]. constructor. }
  destruct (Repository.limitOf _) as [e|limit]; simpl.
  { eexists. eexists. split; [reflexivity|]. constructor. }
  eexists. eexists. split; [reflexivity|].
  unfold Repository.selectToReview. simpl.
  assert (S : NoDup (map id
                       (Sql.orderByAsc createdAt
                          (filter
                             (fun a =>
                                Sql.keeps
                                  (Repository.toReviewWhere reviewerID
                                     (reviews w) a))
                             (applicants w))))).
  { eapply Permutation_NoDup.
    - apply Permutation_map, orderByAsc_perm.
    - now apply distinct_ids_filter. }
  destruct limit as [n|]; [|exact S].
  rewrite <- firstn_map. now apply NoDup_firstn.
Qed.

Lemma getKRandomToReview_distinct_witness :
  NoDup (map id [Fixtures.stored "a1" 0 30 None;
                 Fixtures.stored "a2" 0 20 None])
  /\ exists batch w',
      @ApplicantService.getKRandomToReview Fixtures.statusNumbers
        Fixtures.reliable Fixtures.strictDialect "rev1" None
        (Fixtures.world [Fixtures.stored "a1" 0 30 None;
                         Fixtures.stored "a2" 0 20 None] [])
      = (Fulfilled batch, w')
      /\ NoDup (map id batch).
Proof.
  assert (N : NoDup (map id [Fixtures.stored "a1" 0 30 None;
                             Fixtures.stored "a2" 0 20 None])).
  { simpl. constructor.
    - intros [E|[]]. discriminate.
    - constructor; [intros []|constructor]. }
  split; [exact N|].
  exact (@getKRandomToReview_distinct Fixtures.statusNumbers
           Fixtures.reliable Fixtures.strictDialect "rev1" None
           (Fixtures.world [Fixtures.stored "a1" 0 30 None;
                            Fixtures.stored "a2" 0 20 None] []) N).
Defined.

(* ================================================================== *)
(** * Further properties of the controller *)
(* ================================================================== *)

(** ** submitApplication *)





(** X13.  Key and buffer travel together.  When the request carries
    exactly one file and it sits in the field [applicantCV], the applicant
    handed to [save] has the storage key and [save] is given the buffer,
    which the service's guard reads as a CV to upload.  In every other
    case, no files, several files, or a file in another field, the
    applicant has no key and [save] is given no buffer. *)
Theorem submitApplication_cv_pairing `{ApplicantStatusEnum} `{Js.Runtime} :
  forall (req : SubmitRequest),
    let a := fst (ApplicationController.withCv req) in
    let file := snd (ApplicationController.withCv req) in
    (forall f, files req = Some [f] -> fieldname f = "applicantCV" ->
       cv a = Some (ApplicationController.cvKey (user req) f)
       /\ file = Some (buffer f)
       /\ ApplicantService.cvToUpload a file
          = Some (ApplicationController.cvKey (user req) f, buffer f))
    /\ ((forall f, files req = Some [f] -> fieldname f <> "applicantCV") ->
        cv a = None /\ file = None
        /\ a = ApplicationController.newApplication req).
Proof.
  intros req a file. subst a file. unfold ApplicationController.withCv.
  split.
  - intros f F N. rewrite F, N. simpl. auto.
  - intro N. destruct (files req) as [[|f [|g fs]]|]; simpl; auto.
    destruct (String.eqb (fieldname f) "applicantCV") eqn:Q; simpl; auto.
    apply String.eqb_eq in Q. now destruct (N f eq_refl).
Qed.

(** X14.  The hackathon count of a submitted application is never NaN
    and never infinite: it is absent or a finite number, whatever the
    payload holds. *)
Theorem submitApplication_count_finite `{ApplicantStatusEnum}
  `{Js.Runtime} :
  forall (req : SubmitRequest) (n : Js.number),
    hackathonCount (fst (ApplicationController.withCv req)) = Some n ->
    Js.finite n = true /\ Js.isNaN n = false
    /\ n = Js.Number (applicantHackathonCount (body req)).
Proof.
  intros req n.
  assert (E : hackathonCount (fst (ApplicationController.withCv req))
              = hackathonCount (ApplicationController.newApplication req)).
  { rewrite <- (withCv_fields req). reflexivity. }
  rewrite E. simpl. unfold ApplicationController.isNumeric, Js.isFinite.
  destruct (Js.isNaN (Js.parseFloat _)); simpl; [discriminate|].
  destruct (Js.finite (Js.Number _)) eqn:F; [|discriminate].
  intro S. injection S as <-. split; [exact F|]. split; [|reflexivity].
  destruct (Js.Number _); simpl in *; congruence.
Qed.

Lemma submitApplication_count_finite_witness :
  Js.finite (Fixtures.num 3) = true /\ Js.isNaN (Fixtures.num 3) = false
  /\ Fixtures.num 3
     = @Js.Number Fixtures.digitsRuntime
         (applicantHackathonCount (body Fixtures.cvRequest)).
Proof.
  exact (@submitApplication_count_finite Fixtures.statusNumbers
           Fixtures.digitsRuntime Fixtures.cvRequest (Fixtures.num 3)
           eq_refl).
Defined.

Lemma save_goes_through `{ApplicantSchema} `{Infrastructure}
  (a : Applicant) (file : option Buffer) (w : World) :
  validate a = [] ->
  (forall k d, ApplicantService.cvToUpload a file = Some (k, d) ->
               faults (CloudUpload k d) = None) ->
  faults (RepoSave a) = None ->
  exists row w', ApplicantService.save a file w = (Fulfilled row, w').
Proof.
  intros V U F. run_service. rewrite V. simpl.
  destruct (ApplicantService.cvToUpload a file) as [[k d]|]; simpl.
  - rewrite (U k d eq_refl). simpl. rewrite F. simpl. eauto.
  - rewrite F. simpl. eauto.
Qed.

Lemma save_thrown_frame `{ApplicantSchema} `{Infrastructure}
  (a : Applicant) (file : option Buffer) (w w' : World) (err : Exception) :
  ApplicantService.save a file w = (Thrown err, w') ->
  applicants w' = applicants w /\ reviews w' = reviews w.
Proof.
  run_service.
  destruct (validate a); simpl.
  - destruct (ApplicantService.cvToUpload a file) as [[k d]|]; simpl.
    + destruct (faults (CloudUpload k d)); simpl.
      * intro E. injection E as _ <-. auto.
      * destruct (faults (RepoSave a)); simpl; [|discriminate].
        intro E. injection E as _ <-. auto.
    + destruct (faults (RepoSave a)); simpl; [|discriminate].
      intro E. injection E as _ <-. auto.
  - intro E. injection E as _ <-. auto.
Qed.

(** X15.  A submission with a CV, through the controller and the
    service.  With one file in the field [applicantCV], an applicant
    without violations and external systems that answer, the handler
    replies OK, the blob is in object storage under the CV key, and the
    table holds a record with that key, the status Applied, the user's
    identity and a generated id. *)
Theorem submitApplication_stores_cv `{ApplicantStatusEnum} `{Js.Runtime}
  `{ApplicantSchema} `{Infrastructure} :
  forall (remove : option string -> Promise DeleteResult)
         (req : SubmitRequest) (f : UploadedFile) (w : World),
    let key := ApplicationController.cvKey (user req) f in
    let a := setCv (Some key) (ApplicationController.newApplication req) in
    files req = Some [f] ->
    fieldname f = "applicantCV" ->
    validate a = [] ->
    faults (CloudUpload key (buffer f)) = None ->
    faults (RepoSave a) = None ->
    exists h w',
      ApplicationController.submitApplication (wiredService remove) req w
      = (h, w')
      /\ response h = Send OK false "Application recieved!"
      /\ In (key, buffer f) (bucket w')
      /\ exists row,
           In row (applicants w')
           /\ cv row = Some key
           /\ applicationStatus row = Applied
           /\ authId row = userAuthId (user req)
           /\ id row <> None.
Proof.
  intros remove req f w key a Fs Fn V FU FS.
  unfold ApplicationController.submitApplication,
    ApplicationController.withCv.
  rewrite Fs, Fn. simpl String.eqb. cbv iota. fold key. fold a. simpl svcSave.
  assert (U : ApplicantService.cvToUpload a (Some (buffer f))
              = Some (key, buffer f)) by reflexivity.
  destruct (save_goes_through a (Some (buffer f)) w V) as (row & w' & S).
  { intros k d E. rewrite U in E. injection E as <- <-. exact FU. }
  { exact FS. }
  rewrite S. eexists. eexists. split; [reflexivity|]. simpl.
  split; [reflexivity|].
  destruct (save_fulfilled_inv a (Some (buffer f)) w w' row S)
    as (_ & _ & w0 & -> & -> & A & _ & _ & _ & B).
  rewrite U in B. destruct B as (_ & B & _).
  destruct (persist_frame a w0) as (_ & B' & _).
  split; [rewrite B', B; now left|].
  exists (fst (Repository.persist a w0)).
  split; [apply persist_stores|].
  unfold Repository.persist. simpl.
  repeat split; discriminate.
Qed.

Lemma submitApplication_stores_cv_witness :
  exists h w',
    @ApplicationController.submitApplication Fixtures.statusNumbers
      Fixtures.digitsRuntime
      (@wiredService Fixtures.nonNegativeSchema Fixtures.reliable
         (fun _ => throw (ErrorObject Fixtures.outage)))
      Fixtures.cvRequest Fixtures.emptyWorld
    = (h, w')
    /\ response h = Send OK false "Application recieved!"
    /\ In (ApplicationController.cvKey Fixtures.testUser
             (mkUploadedFile "applicantCV" "cv.pdf" Fixtures.someBytes),
           Fixtures.someBytes)
         (bucket w').
Proof.
  destruct (@submitApplication_stores_cv Fixtures.statusNumbers
              Fixtures.digitsRuntime Fixtures.nonNegativeSchema
              Fixtures.reliable
              (fun _ => throw (ErrorObject Fixtures.outage))
              Fixtures.cvRequest
              (mkUploadedFile "applicantCV" "cv.pdf" Fixtures.someBytes)
              Fixtures.emptyWorld eq_refl eq_refl eq_refl eq_refl eq_refl)
    as (h & w' & E & R & B & _).
  exists h, w'. auto.
Defined.

(** X16.  A submission the service turns down leaves no record.  When
    the handler, wired to the service, answers BAD_REQUEST, the message
    is the fixed "Could not create application!" whatever went wrong, and
    the applicant and review tables are as they were. *)
Theorem submitApplication_refused_stores_nothing `{ApplicantStatusEnum}
  `{Js.Runtime} `{ApplicantSchema} `{Infrastructure} :
  forall (remove : option string -> Promise DeleteResult)
         (req : SubmitRequest) (w w' : World) (h : Handled),
    ApplicationController.submitApplication (wiredService remove) req w
    = (h, w') ->
    succeeded h = false ->
    response h = Send BAD_REQUEST true "Could not create application!"
    /\ applicants w' = applicants w
    /\ reviews w' = reviews w.
Proof.
  intros remove req w w' h. unfold ApplicationController.submitApplication.
  destruct (ApplicationController.withCv req) as [a file]. simpl svcSave.
  destruct (ApplicantService.save a file w) as [[row|err] w1] eqn:S;
    intro E; injection E as <- <-; simpl; intro Q; [discriminate|].
  split; [reflexivity|]. exact (save_thrown_frame a file w w1 err S).
Qed.

Lemma submitApplication_refused_stores_nothing_witness :
  response
    (fst (@ApplicationController.submitApplication Fixtures.statusNumbers
            Fixtures.digitsRuntime
            (@wiredService Fixtures.nonNegativeSchema Fixtures.uploadDown
               (fun _ => throw (ErrorObject Fixtures.outage)))
            Fixtures.cvRequest Fixtures.emptyWorld))
  = Send BAD_REQUEST true "Could not create application!"
  /\ applicants
       (snd (@ApplicationController.submitApplication Fixtures.statusNumbers
               Fixtures.digitsRuntime
               (@wiredService Fixtures.nonNegativeSchema Fixtures.uploadDown
                  (fun _ => throw (ErrorObject Fixtures.outage)))
               Fixtures.cvRequest Fixtures.emptyWorld))
     = applicants Fixtures.emptyWorld
  /\ reviews
       (snd (@ApplicationController.submitApplication Fixtures.statusNumbers
               Fixtures.digitsRuntime
               (@wiredService Fixtures.nonNegativeSchema Fixtures.uploadDown
                  (fun _ => throw (ErrorObject Fixtures.outage)))
               Fixtures.cvRequest Fixtures.emptyWorld))
     = reviews Fixtures.emptyWorld.
Proof.
  apply (@submitApplication_refused_stores_nothing Fixtures.statusNumbers
           Fixtures.digitsRuntime Fixtures.nonNegativeSchema
           Fixtures.uploadDown
           (fun _ => throw (ErrorObject Fixtures.outage))
           Fixtures.cvRequest Fixtures.emptyWorld).
  - apply surjective_pairing.
  - reflexivity.
Defined.

(** ** checkin and cancel *)

Lemma find_hasId_id (i : string) (rows : list Applicant) (a : Applicant) :
  find (hasId i) rows = Some a ->
  id a = Some i /\ existsb (hasId i) rows = true.
Proof.
  intro F. apply find_some in F as [I P]. split.
  - unfold hasId in P. destruct (id a) as [j|]; [|discriminate].
    apply String.eqb_eq in P. now subst.
  - apply existsb_exists. eauto.
Qed.

(** What the service's [save] does to a stored, well-formed applicant
    that comes without a buffer: it replaces the rows of that id. *)
Lemma save_update `{ApplicantSchema} `{Infrastructure}
  (i : string) (b : Applicant) (w : World) :
  id b = Some i ->
  existsb (hasId i) (applicants w) = true ->
  validate b = [] ->
  faults (RepoSave b) = None ->
  exists w',
    ApplicantService.save b None w = (Fulfilled b, w')
    /\ applicants w'
       = map (fun r => if hasId i r then b else r) (applicants w)
    /\ journal w' = journal w ++ [RepoSave b]
    /\ bucket w' = bucket w.
Proof.
  intros I E V F.
  rewrite (save_without_upload b None w V eq_refl F).
  unfold Repository.save, bind, invoke. rewrite F.
  unfold Repository.persist. rewrite I.
  change (applicants (record (RepoSave b) w)) with (applicants w).
  rewrite E. eexists. split; [reflexivity|]. simpl. auto.
Qed.

(** X17.  Check-in cannot be repeated.  Through the service of this
    file: a stored applicant with status Confirmed is checked in, the
    handler answers OK and the table holds the applicant with the check-in
    status; a second check-in of the same id is then refused, and changes
    nothing in the table.  The two statuses are taken to be different
    members of the enum. *)
Theorem checkin_twice `{ApplicantStatusEnum} `{ApplicantSchema}
  `{Infrastructure} :
  forall (remove : option string -> Promise DeleteResult)
         (i : string) (a : Applicant) (w : World),
    let admitted := setApplicationStatus Admitted_ a in
    let first := ApplicationController.checkin (wiredService remove) i w in
    let second :=
      ApplicationController.checkin (wiredService remove) i (snd first) in
    Admitted_ <> Confirmed ->
    find (hasId i) (applicants w) = Some a ->
    applicationStatus a = Confirmed ->
    validate admitted = [] ->
    faults (RepoFindOne ColId i) = None ->
    faults (RepoSave admitted) = None ->
    response (fst first) = Send OK false "Hacker checked in!"
    /\ find (hasId i) (applicants (snd first)) = Some admitted
    /\ response (fst second)
       = Send BAD_REQUEST false
           "Hacker was either rejected or did not confirm"
    /\ applicants (snd second) = applicants (snd first).
Proof.
  intros remove i a w admitted first second D F C V FF FS.
  destruct (find_hasId_id i (applicants w) a F) as [I E].
  assert (I' : id admitted = Some i) by exact I.
  destruct (save_update i admitted (record (RepoFindOne ColId i) w) I' E V FS)
    as (w1 & S & A & _).
  assert (R1 : first
               = (mkHandled (Send OK false "Hacker checked in!")
                    [CallFindOne i None; CallSave admitted None]
                    (Some admitted), w1)).
  { subst first. unfold ApplicationController.checkin. simpl svcFindOne.
    rewrite (findOne_by_id_found i w a FF F).
    rewrite C, Z.eqb_refl. fold admitted. simpl svcSave. now rewrite S. }
  assert (F1 : find (hasId i) (applicants w1) = Some admitted).
  { rewrite A. apply find_map_replace; [|exact E].
    unfold hasId. rewrite I'. apply String.eqb_refl. }
  assert (Q : (applicationStatus admitted =? Confirmed)%Z = false)
    by now apply Z.eqb_neq.
  subst second. rewrite R1. simpl fst. simpl snd.
  split; [reflexivity|]. split; [exact F1|].
  unfold ApplicationController.checkin. simpl svcFindOne.
  rewrite (findOne_by_id_found i w1 admitted FF F1). rewrite Q.
  split; reflexivity.
Qed.

Lemma checkin_twice_witness :
  response
    (fst (@ApplicationController.checkin Fixtures.statusNumbers
            (@wiredService Fixtures.nonNegativeSchema Fixtures.reliable
               (fun _ => throw (ErrorObject Fixtures.outage)))
            "a1"
            (snd (@ApplicationController.checkin Fixtures.statusNumbers
                    (@wiredService Fixtures.nonNegativeSchema
                       Fixtures.reliable
                       (fun _ => throw (ErrorObject Fixtures.outage)))
                    "a1"
                    (Fixtures.world [Fixtures.stored "a1" 2 10 None] [])))))
  = Send BAD_REQUEST false "Hacker was either rejected or did not confirm".
Proof.
  assert (D : @Admitted_ Fixtures.statusNumbers
              <> @Confirmed Fixtures.statusNumbers) by discriminate.
  exact (proj1 (proj2 (proj2
           (@checkin_twice Fixtures.statusNumbers Fixtures.nonNegativeSchema
              Fixtures.reliable
              (fun _ => throw (ErrorObject Fixtures.outage))
              "a1" (Fixtures.stored "a1" 2 10 None)
              (Fixtures.world [Fixtures.stored "a1" 2 10 None] [])
              D eq_refl eq_refl eq_refl eq_refl eq_refl)))).
Defined.

(** X18.  What check-in never does, and how it fails.  Whatever the
    service, the handler asks it to find the applicant by id first, never
    asks for a removal, and asks for at most one save.  When the lookup
    rejects, it answers BAD_REQUEST with "Hacker could not be checked in",
    makes no further call and leaves the world as the lookup left it; it
    answers with the same message when the save rejects. *)
Theorem checkin_calls `{ApplicantStatusEnum} :
  forall (svc : ApplicantServiceInterface) (checkinID : string) (w : World),
    let h := fst (ApplicationController.checkin svc checkinID w) in
    let w' := snd (ApplicationController.checkin svc checkinID w) in
    (exists rest,
       serviceCalls h = CallFindOne checkinID None :: rest
       /\ (List.length rest <= 1)%nat
       /\ existsb isRemove (serviceCalls h) = false)
    /\ (forall err w1,
          svcFindOne svc checkinID None w = (Thrown err, w1) ->
          h = mkHandled
                (Send BAD_REQUEST false "Hacker could not be checked in")
                [CallFindOne checkinID None] None
          /\ w' = w1)
    /\ (forall a w1 err w2,
          svcFindOne svc checkinID None w = (Fulfilled a, w1) ->
          applicationStatus a = Confirmed ->
          svcSave svc (setApplicationStatus Admitted_ a) None w1
          = (Thrown err, w2) ->
          response h
          = Send BAD_REQUEST false "Hacker could not be checked in"
          /\ w' = w2).
Proof.
  intros svc checkinID w h w'. subst h w'.
  unfold ApplicationController.checkin.
  destruct (svcFindOne svc checkinID None w) as [[a|err] w1] eqn:F.
  - destruct (applicationStatus a =? Confirmed)%Z eqn:Q.
    + destruct (svcSave svc (setApplicationStatus Admitted_ a) None w1)
        as [[r|e] w2] eqn:S; simpl.
      * split; [eexists; split; [reflexivity|]; simpl; auto|].
        split; [intros; discriminate|].
        intros a' w1' e' w2' E _ S'. injection E as <- <-.
        rewrite S in S'. discriminate.
      * split; [eexists; split; [reflexivity|]; simpl; auto|].
        split; [intros; discriminate|].
        intros a' w1' e' w2' E _ S'. injection E as <- <-.
        rewrite S in S'. injection S' as <- <-. auto.
    + simpl. split; [eexists; split; [reflexivity|]; simpl; auto|].
      split; [intros; discriminate|].
      intros a' w1' e' w2' E C. injection E as <- <-.
      apply Z.eqb_neq in Q. contradiction.
  - simpl. split; [eexists; split; [reflexivity|]; simpl; auto|].
    split; [|intros; discriminate].
    intros e w1' E. injection E as <- <-. auto.
Qed.

(** X19.  How cancellation ends.  When the lookup by identity rejects,
    the handler passes that very error to [next] and calls nothing else.
    When the lookup resolves, exactly one more call is made; the handler
    redirects to the root when that call resolves, and passes its error
    to [next] when it rejects. *)
Theorem cancel_outcomes `{ApplicantStatusEnum} :
  forall (svc : ApplicantServiceInterface) (u : RequestUser)
         (applicationsOpen : bool) (w : World),
    let find := CallFindOne (userAuthId u) (Some ColAuthId) in
    let h := fst (ApplicationController.cancel svc u applicationsOpen w) in
    (forall err w1,
       svcFindOne svc (userAuthId u) (Some ColAuthId) w = (Thrown err, w1) ->
       h = mkHandled (Next err) [find] None
       /\ snd (ApplicationController.cancel svc u applicationsOpen w) = w1)
    /\ (forall a w1,
          svcFindOne svc (userAuthId u) (Some ColAuthId) w
          = (Fulfilled a, w1) ->
          exists second,
            serviceCalls h = [find; second]
            /\ match second with
               | CallRemove key =>
                   key = id a
                   /\ (response h = Redirect "/"
                       <-> isFulfilled (fst (svcRemove svc key w1)) = true)
                   /\ (forall err, response h = Next err
                                   <-> fst (svcRemove svc key w1) = Thrown err)
               | CallSave b file =>
                   b = setApplicationStatus Cancelled a /\ file = None
                   /\ (response h = Redirect "/"
                       <-> isFulfilled (fst (svcSave svc b None w1)) = true)
                   /\ (forall err, response h = Next err
                                   <-> fst (svcSave svc b None w1) = Thrown err)
               | CallFindOne _ _ => False
               end).
Proof.
  intros svc u applicationsOpen w find h. subst h.
  unfold ApplicationController.cancel. fold find.
  destruct (svcFindOne svc (userAuthId u) (Some ColAuthId) w)
    as [[a|err] w1] eqn:F.
  - split; [intros; discriminate|].
    intros a' w1' E. injection E as <- <-.
    destruct ((applicationStatus a <=? Applied)%Z && applicationsOpen).
    + destruct (svcRemove svc (id a) w1) as [[r|e] w2] eqn:S; simpl;
        eexists; (split; [reflexivity|]); simpl; rewrite S; simpl;
        (split; [reflexivity|]); split;
        try (split; intro; (reflexivity || discriminate));
        intro e'; split; intro Q; try discriminate;
        injection Q as <-; reflexivity.
    + destruct (svcSave svc (setApplicationStatus Cancelled a) None w1)
        as [[r|e] w2] eqn:S; simpl;
        eexists; (split; [reflexivity|]); simpl; rewrite S; simpl;
        (split; [reflexivity|]); (split; [reflexivity|]); split;
        try (split; intro; (reflexivity || discriminate));
        intro e'; split; intro Q; try discriminate;
        injection Q as <-; reflexivity.
  - simpl. split; [|intros; discriminate].
    intros e w1' E. injection E as <- <-. auto.
Qed.

Lemma findOne_found `{Infrastructure}
  (key : string) (col : Column) (w : World) (a : Applicant) :
  faults (RepoFindOne col key) = None ->
  find (matches col key) (applicants w) = Some a ->
  ApplicantService.findOne key (Some col) w
  = (Fulfilled a, record (RepoFindOne col key) w).
Proof.
  intros F M. run_service. rewrite F. cbv beta iota.
  change (applicants (record (RepoFindOne col key) w)) with (applicants w).
  rewrite M. reflexivity.
Qed.

(** X20.  Late cancellation keeps the record.  Through the service of
    this file: when the user's application is found with a status above
    Applied, or applications are closed, the handler stores the
    application with the status Cancelled and redirects to the root; no
    row is added or removed, the removal method is not called, and the
    repository is not asked to delete. *)
Theorem cancel_late_keeps_record `{ApplicantStatusEnum} `{ApplicantSchema}
  `{Infrastructure} :
  forall (remove : option string -> Promise DeleteResult)
         (u : RequestUser) (applicationsOpen : bool) (i : string)
         (a : Applicant) (w : World),
    let cancelled := setApplicationStatus Cancelled a in
    let run :=
      ApplicationController.cancel (wiredService remove) u applicationsOpen
        w in
    find (matches ColAuthId (userAuthId u)) (applicants w) = Some a ->
    id a = Some i ->
    (Applied < applicationStatus a)%Z \/ applicationsOpen = false ->
    validate cancelled = [] ->
    faults (RepoFindOne ColAuthId (userAuthId u)) = None ->
    faults (RepoSave cancelled) = None ->
    response (fst run) = Redirect "/"
    /\ applicants (snd run)
       = map (fun r => if hasId i r then cancelled else r) (applicants w)
    /\ In cancelled (applicants (snd run))
    /\ List.length (applicants (snd run)) = List.length (applicants w)
    /\ existsb isRemove (serviceCalls (fst run)) = false
    /\ journal (snd run)
       = journal w
         ++ [RepoFindOne ColAuthId (userAuthId u); RepoSave cancelled].
Proof.
  intros remove u applicationsOpen i a w cancelled run M I L V FF FS.
  assert (E : existsb (hasId i) (applicants w) = true).
  { apply find_some in M as [J _]. apply existsb_exists. exists a.
    split; [exact J|]. unfold hasId. rewrite I. apply String.eqb_refl. }
  assert (I' : id cancelled = Some i) by exact I.
  destruct (save_update i cancelled
              (record (RepoFindOne ColAuthId (userAuthId u)) w) I' E V FS)
    as (w1 & S & A & J & _).
  assert (G : (applicationStatus a <=? Applied)%Z && applicationsOpen
              = false).
  { destruct L as [L| ->]; [|apply andb_false_r].
    apply andb_false_iff. left. now apply Z.leb_gt. }
  assert (R : run
              = (mkHandled (Redirect "/")
                   [CallFindOne (userAuthId u) (Some ColAuthId);
                    CallSave cancelled None] (Some cancelled), w1)).
  { subst run. unfold ApplicationController.cancel. simpl svcFindOne.
    rewrite (findOne_found (userAuthId u) ColAuthId w a FF M).
    rewrite G. fold cancelled. simpl svcSave. now rewrite S. }
  rewrite R. simpl fst. simpl snd.
  split; [reflexivity|]. split; [exact A|]. split.
  - rewrite A. apply existsb_exists in E as (r & Jr & P).
    apply in_map_iff. exists r. now rewrite P.
  - split; [rewrite A; apply length_map|]. split; [reflexivity|].
    rewrite J. simpl. now rewrite <- app_assoc.
Qed.

Lemma cancel_late_keeps_record_witness :
  response
    (fst (@ApplicationController.cancel Fixtures.statusNumbers
            (@wiredService Fixtures.nonNegativeSchema Fixtures.reliable
               (fun _ => throw (ErrorObject Fixtures.outage)))
            (mkRequestUser "auth-a1" "Test" "test@test.com") true
            (Fixtures.world [Fixtures.stored "a1" 2 10 None] [])))
  = Redirect "/"
  /\ applicants
       (snd (@ApplicationController.cancel Fixtures.statusNumbers
               (@wiredService Fixtures.nonNegativeSchema Fixtures.reliable
                  (fun _ => throw (ErrorObject Fixtures.outage)))
               (mkRequestUser "auth-a1" "Test" "test@test.com") true
               (Fixtures.world [Fixtures.stored "a1" 2 10 None] [])))
     = [Fixtures.stored "a1" 3 10 None].
Proof.
  destruct (@cancel_late_keeps_record Fixtures.statusNumbers
              Fixtures.nonNegativeSchema Fixtures.reliable
              (fun _ => throw (ErrorObject Fixtures.outage))
              (mkRequestUser "auth-a1" "Test" "test@test.com") true "a1"
              (Fixtures.stored "a1" 2 10 None)
              (Fixtures.world [Fixtures.stored "a1" 2 10 None] [])
              eq_refl eq_refl (or_introl eq_refl) eq_refl eq_refl eq_refl)
    as (R & A & _).
  split; [exact R | exact A].
Defined.

(* ================================================================== *)
(** * Properties of the access checks *)
(* ================================================================== *)

Lemma checkAuthLevel_spec `{Auth.AuthLevels} `{Auth.Environment}
  (url : string) (res : Auth.Res) (user : option Auth.LevelledUser)
  (required : Z) :
  (exists u, user = Some u /\ (required <= Auth.authLevel u)%Z
             /\ Auth.checkAuthLevel url res user required = (true, res))
  \/ ((user = None \/ exists u, user = Some u
                                /\ (Auth.authLevel u < required)%Z)
      /\ Auth.checkAuthLevel url res user required
         = (false, Auth.redirect (Auth.loginUrl url) res)).
Proof.
  unfold Auth.checkAuthLevel. destruct user as [u|]; [|right; auto].
  destruct (Auth.authLevel u <? required)%Z eqn:Q.
  - apply Z.ltb_lt in Q. right. split; [right; eauto|reflexivity].
  - apply Z.ltb_ge in Q. left. eauto.
Qed.

(** X21.  Each level check lets a request through or sends it to the
    login page, never both.  It calls [next] once, sets its flags and
    redirects nowhere exactly when there is a user whose level is at
    least the one required; otherwise, with no user or too low a level,
    it redirects once to the login page, with the way back in the query,
    and neither calls [next] nor touches [res.locals].  The organiser
    check sets the organiser and the volunteer flag, and leaves the
    attendee flag as it was. *)
Theorem level_checks_next_or_login `{Auth.AuthLevels} `{Auth.Environment} :
  forall (url : string) (user : option Auth.LevelledUser) (res : Auth.Res),
    let l := Auth.locals res in
    let through required flags result :=
      (exists u, user = Some u /\ (required <= Auth.authLevel u)%Z)
      /\ result = Auth.mkRes (Auth.redirects res) flags (S (Auth.nexts res)) in
    let turnedAway required result :=
      (user = None
       \/ exists u, user = Some u /\ (Auth.authLevel u < required)%Z)
      /\ result = Auth.mkRes (Auth.redirects res ++ [Auth.loginUrl url]) l
                    (Auth.nexts res) in
    (through Auth.Attendee
       (Auth.mkLocals (Auth.localAuthLevel l) true (Auth.isVolunteer l)
          (Auth.isOrganiser l))
       (Auth.checkIsAttendee url user res)
     \/ turnedAway Auth.Attendee (Auth.checkIsAttendee url user res))
    /\ (through Auth.Volunteer
          (Auth.mkLocals (Auth.localAuthLevel l) (Auth.isAttendee l) true
             (Auth.isOrganiser l))
          (Auth.checkIsVolunteer url user res)
        \/ turnedAway Auth.Volunteer (Auth.checkIsVolunteer url user res))
    /\ (through Auth.Organiser
          (Auth.mkLocals (Auth.localAuthLevel l) (Auth.isAttendee l) true
             true)
          (Auth.checkIsOrganiser url user res)
        \/ turnedAway Auth.Organiser (Auth.checkIsOrganiser url user res)).
Proof.
  intros url user res l through turnedAway. subst through turnedAway l.
  unfold Auth.checkIsAttendee, Auth.checkIsVolunteer, Auth.checkIsOrganiser.
  repeat split.
  - destruct (checkAuthLevel_spec url res user Auth.Attendee)
      as [(u & U & L & ->) | (N & ->)]; [left|right]; eauto.
  - destruct (checkAuthLevel_spec url res user Auth.Volunteer)
      as [(u & U & L & ->) | (N & ->)]; [left|right]; eauto.
  - destruct (checkAuthLevel_spec url res user Auth.Organiser)
      as [(u & U & L & ->) | (N & ->)]; [left|right]; eauto.
Qed.

(** X22.  The checks respect the order of the levels.  When Attendee is
    at most Volunteer and Volunteer at most Organiser, a request that the
    organiser check lets through is let through by the volunteer check,
    and one the volunteer check lets through by the attendee check. *)
Theorem level_checks_monotone `{Auth.AuthLevels} `{Auth.Environment} :
  forall (url : string) (user : option Auth.LevelledUser) (res : Auth.Res),
    (Auth.Attendee <= Auth.Volunteer)%Z ->
    (Auth.Volunteer <= Auth.Organiser)%Z ->
    (Auth.nexts (Auth.checkIsOrganiser url user res) = S (Auth.nexts res) ->
     Auth.nexts (Auth.checkIsVolunteer url user res) = S (Auth.nexts res))
    /\ (Auth.nexts (Auth.checkIsVolunteer url user res)
        = S (Auth.nexts res) ->
        Auth.nexts (Auth.checkIsAttendee url user res) = S (Auth.nexts res)).
Proof.
  intros url user res AV VO.
  unfold Auth.checkIsAttendee, Auth.checkIsVolunteer, Auth.checkIsOrganiser,
    Auth.checkAuthLevel.
  destruct user as [u|]; simpl.
  - destruct (Auth.authLevel u <? Auth.Organiser)%Z eqn:O;
      destruct (Auth.authLevel u <? Auth.Volunteer)%Z eqn:V;
      destruct (Auth.authLevel u <? Auth.Attendee)%Z eqn:A; simpl;
      split; intro N; try reflexivity; try lia;
      rewrite ?Z.ltb_lt, ?Z.ltb_ge in *; lia.
  - split; intro N; lia.
Qed.

Lemma level_checks_monotone_witness :
  (@Auth.Attendee Fixtures.authLevels <= @Auth.Volunteer Fixtures.authLevels)%Z
  /\ (@Auth.Volunteer Fixtures.authLevels
      <= @Auth.Organiser Fixtures.authLevels)%Z
  /\ (Auth.nexts
        (@Auth.checkIsOrganiser Fixtures.authLevels Fixtures.authEnvironment
           "/admin/overview" (Some Fixtures.organiser) Fixtures.emptyRes)
      = 1%nat ->
      Auth.nexts
        (@Auth.checkIsVolunteer Fixtures.authLevels Fixtures.authEnvironment
           "/admin/overview" (Some Fixtures.organiser) Fixtures.emptyRes)
      = 1%nat).
Proof.
  assert (AV : (@Auth.Attendee Fixtures.authLevels
                <= @Auth.Volunteer Fixtures.authLevels)%Z)
    by (vm_compute; discriminate).
  assert (VO : (@Auth.Volunteer Fixtures.authLevels
                <= @Auth.Organiser Fixtures.authLevels)%Z)
    by (vm_compute; discriminate).
  split; [exact AV|]. split; [exact VO|].
  exact (proj1 (@level_checks_monotone Fixtures.authLevels
                  Fixtures.authEnvironment "/admin/overview"
                  (Some Fixtures.organiser) Fixtures.emptyRes AV VO)).
Defined.

(** X23.  [checkLoggedIn] lets a request through, recording the user's
    level in [res.locals], exactly when passport reports no error and a
    user.  An error wins over a user that is present; and with an error
    or without a user the request is redirected once to the login page
    and [next] is not called. *)
Theorem checkLoggedIn_next_or_login `{Auth.AuthLevels} `{Auth.Environment} :
  forall (url : string) (err : option string)
         (user : option Auth.LevelledUser) (res : Auth.Res),
    let l := Auth.locals res in
    let result := Auth.checkLoggedIn url err user res in
    (forall u, Js.truthy (Js.ofOptString err) = false -> user = Some u ->
       result
       = Auth.mkRes (Auth.redirects res)
           (Auth.mkLocals (Some (Auth.authLevel u)) (Auth.isAttendee l)
              (Auth.isVolunteer l) (Auth.isOrganiser l))
           (S (Auth.nexts res)))
    /\ (Js.truthy (Js.ofOptString err) = true \/ user = None ->
        result
        = Auth.mkRes (Auth.redirects res ++ [Auth.loginUrl url]) l
            (Auth.nexts res)).
Proof.
  intros url err user res l result. subst result l.
  unfold Auth.checkLoggedIn, Auth.authenticate. split.
  - intros u E ->. now rewrite E.
  - intros [E | ->].
    + now rewrite E.
    + destruct (Js.truthy (Js.ofOptString err)); reflexivity.
Qed.

(* ================================================================== *)
(** * Properties of the configuration *)
(* ================================================================== *)

Ltac step_load :=
  match goal with
  | |- context [Config.andThen (Config.andThen ?g ?f) _] =>
      let v := fresh "v" in
      let E := fresh "E" in
      destruct g as [v|?] eqn:E; cbn [Config.andThen];
      [destruct (f v) eqn:? ; cbn [Config.andThen] |]
  | |- context [Config.andThen ?g _] =>
      let v := fresh "v" in
      let E := fresh "E" in
      destruct g as [v|?] eqn:E; cbn [Config.andThen]
  end.

(** X24.  [load] checks the environment name before it reads anything
    else.  When the variable ENVIRONMENT holds anything but [dev] or
    [production], [load] throws "Invalid ENVIRONMENT variable, must be
    'dev' or 'production'", whatever the other variables hold; and when
    [load] returns, the variable held one of the two names and the
    configuration carries the matching member of the enum. *)
Theorem load_checks_environment `{Config.Util} :
  forall (source : option Config.Source),
    let src := match source with
               | Some s => s
               | None => Config.processEnv
               end in
    (forall v, Config.getEnv src "ENVIRONMENT" = Fulfilled v ->
               v <> "dev" -> v <> "production" ->
               Config.load source
               = Thrown (ErrorObject Config.invalidEnvironment))
    /\ (forall c, Config.load source = Fulfilled c ->
          (Config.getEnv src "ENVIRONMENT" = Fulfilled "dev"
           /\ Config.environment c = Config.Dev)
          \/ (Config.getEnv src "ENVIRONMENT" = Fulfilled "production"
              /\ Config.environment c = Config.Production)).
Proof.
  intros source src. split.
  - intros v E D P. unfold Config.load. fold src. rewrite E.
    cbn [Config.andThen].
    apply String.eqb_neq in D, P. now rewrite D, P.
  - intro c. unfold Config.load. fold src.
    destruct (Config.getEnv src "ENVIRONMENT") as [v|e] eqn:E;
      cbn [Config.andThen]; [|discriminate].
    destruct (String.eqb v "dev") eqn:D.
    + apply String.eqb_eq in D. subst v. cbn [orb negb].
      repeat step_load; try discriminate.
      intro L. injection L as <-. left. auto.
    + destruct (String.eqb v "production") eqn:P; cbn [orb negb];
        [|discriminate].
      apply String.eqb_eq in P. subst v.
      repeat step_load; try discriminate.
      intro L. injection L as <-. right. auto.
Qed.

Lemma load_checks_environment_witness :
  @Config.load (Fixtures.configUtil Fixtures.devEnv)
    (Some Fixtures.stagingEnv)
  = Thrown (ErrorObject Config.invalidEnvironment).
Proof.
  apply (proj1 (@load_checks_environment
                  (Fixtures.configUtil Fixtures.devEnv)
                  (Some Fixtures.stagingEnv)) "staging").
  - reflexivity.
  - discriminate.
  - discriminate.
Defined.

(** X25.  Every entry of a loaded configuration comes from the variable
    of its name: when [load] returns, each string entry is what [getEnv]
    returned for its variable, and each number or boolean entry is the
    conversion of what [getEnv] returned. *)
Theorem load_reads_named_variables `{Config.Util} :
  forall (source : option Config.Source) (c : Config.EnvConfig),
    let src := match source with
               | Some s => s
               | None => Config.processEnv
               end in
    let text name value := Config.getEnv src name = Fulfilled value in
    let number name value :=
      exists s, Config.getEnv src name = Fulfilled s
                /\ Config.intoNumber s = Fulfilled value in
    Config.load source = Fulfilled c ->
    number "PORT" (Config.port c)
    /\ (exists s, Config.getEnv src "USE_SSL" = Fulfilled s
                  /\ Config.intoBoolean s = Fulfilled (Config.useSSL c))
    /\ text "DB_HOST" (Config.Db.host (Config.db c))
    /\ number "DB_PORT" (Config.Db.port (Config.db c))
    /\ text "DB_USER" (Config.Db.user (Config.db c))
    /\ text "DB_PASSWORD" (Config.Db.password (Config.db c))
    /\ text "DB_DATABASE" (Config.Db.database (Config.db c))
    /\ text "APPLICATION_URL" (Config.Hs.applicationUrl (Config.hs c))
    /\ text "AUTH_URL" (Config.Hs.authUrl (Config.hs c))
    /\ text "HS_AUTH_SERVICE_TOKEN" (Config.Hs.serviceToken (Config.hs c))
    /\ text "GOOGLE_ANALYTICS_ID" (Config.googleAnalyticsId c)
    /\ text "DROPBOX_API_TOKEN" (Config.dropboxToken c)
    /\ text "SENDGRID_API_TOKEN" (Config.Email.sendgridToken (Config.email c))
    /\ text "SMTP_USERNAME" (Config.Email.smtpUsername (Config.email c))
    /\ text "SMTP_PASSWORD" (Config.Email.smtpPassword (Config.email c))
    /\ text "SMTP_HOST" (Config.Email.smtpHost (Config.email c))
    /\ number "SMTP_PORT" (Config.Email.smtpPort (Config.email c)).
Proof.
  intros source c src text number. subst text number.
  unfold Config.load. fold src.
  destruct (Config.getEnv src "ENVIRONMENT") as [v|e] eqn:E;
    cbn [Config.andThen]; [|discriminate].
  destruct (negb _); [discriminate|].
  repeat step_load; try discriminate.
  intro L. injection L as <-. simpl.
  repeat split; eauto.
Qed.

Lemma load_reads_named_variables_witness :
  exists c,
    @Config.load (Fixtures.configUtil Fixtures.devEnv) None = Fulfilled c
    /\ @Config.getEnv (Fixtures.configUtil Fixtures.devEnv) Fixtures.devEnv
         "DB_HOST"
       = Fulfilled (Config.Db.host (Config.db c)).
Proof.
  eexists. split; [reflexivity|].
  exact (proj1 (proj2 (proj2
           (@load_reads_named_variables
              (Fixtures.configUtil Fixtures.devEnv) None _ eq_refl)))).
Defined.

(** X26.  The configuration is loaded once.  After a first [getConfig]
    has returned a configuration, a later call without [refresh] returns
    that same configuration and leaves the cache alone, whatever source
    it is given.  A load that throws caches nothing.  And with nothing
    cached the [refresh] flag makes no difference. *)
Theorem getConfig_caches `{Config.Util} :
  forall (s1 s2 : option Config.Source) (r : bool),
    (forall c g,
       Config.getConfig s1 r None = (Fulfilled c, g) ->
       Config.getConfig s2 false g = (Fulfilled c, g))
    /\ (forall e g,
          Config.getConfig s1 r None = (Thrown e, g) -> g = None)
    /\ Config.getConfig s1 r None = Config.getConfig s1 false None.
Proof.
  intros s1 s2 r. unfold Config.getConfig. repeat split.
  - intros c g. destruct (Config.load s1); intro E; [|discriminate].
    now injection E as <- <-.
  - intros e g. destruct (Config.load s1); intro E; [discriminate|].
    now injection E as _ <-.
Qed.

(** X27.  Refreshing.  With a configuration cached, [getConfig] with
    [refresh] loads again: when the load returns, the fresh configuration
    is returned and cached; when it throws, the error is passed on and
    the cached configuration stays, so that the next call without
    [refresh] still returns it. *)
Theorem getConfig_refresh `{Config.Util} :
  forall (source later : option Config.Source) (cached : Config.EnvConfig),
    (forall fresh, Config.load source = Fulfilled fresh ->
       Config.getConfig source true (Some cached)
       = (Fulfilled fresh, Some fresh))
    /\ (forall e, Config.load source = Thrown e ->
          Config.getConfig source true (Some cached)
          = (Thrown e, Some cached)
          /\ Config.getConfig later false
               (snd (Config.getConfig source true (Some cached)))
             = (Fulfilled cached, Some cached)).
Proof.
  intros source later cached. unfold Config.getConfig. split.
  - intros fresh ->. reflexivity.
  - intros e ->. split; reflexivity.
Qed.
